(** * kairon: the bot-data repository and the WhatsApp channel

    A shallow embedding of
    - [bot_trainer/data_processor/data_objects.py] (module [DataObjects]),
    - [bot_trainer/data_processor/processor.py]    (modules [Mongo], [Processor]),
    - [kairon/chat/handlers/channels/whatsapp.py]  (module [Whatsapp]),
    followed by the properties of the specification that they decide. *)

From Stdlib Require Import ZArith QArith Ascii String List Lia.
From stdpp Require Import base option list gmap strings.

(** ** Python values, exceptions and a few built-ins *)

Module Py.

(** The exception classes that the modelled code raises or catches.
    [Exception_] is a bare [Exception(msg)]. *)
Inductive exn : Type :=
| ValidationError (msg : string)
| ValueError (msg : string)
| TypeError (msg : string)
| AttributeError (msg : string)
| KeyError (key : string)
| IndexError
| DoesNotExist
| MultipleObjectsReturned
| NotUniqueError
| InvalidQueryError (msg : string)
| Exception_ (msg : string).

(** The outcome of a call: it returns a value or raises. *)
Inductive result (A : Type) : Type :=
| Ok (a : A)
| Raise (e : exn).
Arguments Ok {A} a.
Arguments Raise {A} e.

Definition is_ok {A} (r : result A) : bool :=
  match r with Ok _ => true | Raise _ => false end.

(** Numbers: [int], and the finite [float]s as the rationals they denote
    (the code only creates the floats [0.0] and [1.0] and compares). *)
Inductive number : Type :=
| PyInt (z : Z)
| PyFloat (q : Q).

Definition number_Q (n : number) : Q :=
  match n with PyInt z => inject_Z z | PyFloat q => q end.

(** [bool(n)] *)
Definition number_truthy (n : number) : bool := negb (Qeq_bool (number_Q n) 0).

(** [a < b] on numbers *)
Definition number_lt (a b : number) : bool :=
  negb (Qle_bool (number_Q b) (number_Q a)).

(** A dynamically typed value, as far as [isinstance(_, int)] can tell. *)
Inductive pyval : Type :=
| PyNone
| PyBool (b : bool)
| PyNum (n : number)
| PyStr (s : string).

(** [isinstance(v, int)]: [bool] is a subclass of [int]. *)
Definition isinstance_int (v : pyval) : bool :=
  match v with
  | PyBool _ => true
  | PyNum (PyInt _) => true
  | _ => false
  end.

(** [s[start:stop]] on a string, taken as its sequence of characters:
    negative indices count from the end, and both bounds are clamped to the
    string. *)
Definition slice_index (len i : Z) : Z :=
  if (i <? 0)%Z then Z.max (i + len) 0 else Z.min i len.

Definition slice (s : string) (start stop : Z) : string :=
  let len := Z.of_nat (String.length s) in
  let lo := slice_index len start in
  let hi := slice_index len stop in
  substring (Z.to_nat lo) (Z.to_nat (hi - lo)) s.

(** [c.isspace()] for a character of the ASCII range. *)
Definition isspace (c : ascii) : bool :=
  let n := nat_of_ascii c in
  ((9 <=? n) && (n <=? 13)) || ((28 <=? n) && (n <=? 32)).

Fixpoint all_space (s : string) : bool :=
  match s with
  | EmptyString => true
  | String c rest => isspace c && all_space rest
  end.

(** [s.strip()]: the string without the white space at its two ends, for
    white space of the ASCII range. *)
Fixpoint lstrip (s : string) : string :=
  match s with
  | EmptyString => EmptyString
  | String c rest => if isspace c then lstrip rest else s
  end.

Fixpoint rstrip (s : string) : string :=
  match s with
  | EmptyString => EmptyString
  | String c rest =>
      match rstrip rest with
      | EmptyString => if isspace c then EmptyString else String c EmptyString
      | kept => String c kept
      end
  end.

Definition strip (s : string) : string := rstrip (lstrip s).

End Py.

Import Py.

(** Modelled from the spec: [Utility.check_empty_string] lives in
    [bot_trainer/utils], which is not among the sources.  Every message that
    guards on it reads "cannot be empty or blank spaces": the check holds of
    the empty string and of a string of white space only. *)
Definition check_empty_string (value : string) : bool :=
  match value with
  | EmptyString => true
  | _ => all_space value
  end.

(** ** [data_objects.py]: the documents and their [validate] *)

Module DataObjects.

Definition ObjectId := N.

(** What every [Document] subclass of the file declares next to its own
    fields: the primary key ([None] until the document is stored), the
    owning [bot], the author, the creation time and the soft-delete flag. *)
Record Document (F : Type) : Type := mkDocument {
  pk : option ObjectId;
  bot : string;
  user : string;
  timestamp : Z;
  status : bool;
  fields : F
}.
Arguments mkDocument {F}.
Arguments pk {F}.
Arguments bot {F}.
Arguments user {F}.
Arguments timestamp {F}.
Arguments status {F}.
Arguments fields {F}.

Definition set_fields {F} (d : Document F) (f : F) : Document F :=
  mkDocument (pk d) (bot d) (user d) (timestamp d) (status d) f.

(** [class Entity(EmbeddedDocument)] *)
Record Entity : Type := mkEntity {
  start : Z;
  end_ : Z;
  value : string;
  entity : string
}.

(** [class TrainingExamples(Document)] *)
Record TrainingExamplesF : Type := mkTrainingExamples {
  intent : string;
  text : string;
  entities : list Entity
}.

(** [class EntitySynonyms(Document)] *)
Record EntitySynonymsF : Type := mkEntitySynonyms {
  synonym : string;
  syn_value : string
}.

(** [class LookupTables(Document)] *)
Record LookupTablesF : Type := mkLookupTables {
  lookup_name : string;
  lookup_value : string
}.

(** [class RegexFeatures(Document)] *)
Record RegexFeaturesF : Type := mkRegexFeatures {
  regex_name : string;
  pattern : string
}.

(** [class Intents], [class Entities], [class Actions]: a bare [name]. *)
Record NameF : Type := mkName { name : string }.

(** [class SessionConfigs(Document)]; the class declares no [status], and no
    field of it is declared [unique]. *)
Record SessionConfigsF : Type := mkSessionConfigs {
  sesssionExpirationTime : Z;
  carryOverSlots : bool
}.

(** [class Slots(Document)] *)
Record SlotsF : Type := mkSlots {
  slot_name : string;
  type : string;
  initial_value : pyval;
  value_reset_delay : option Z;
  auto_fill : bool;
  slot_value : option string;
  values : list string;
  max_value : option number;
  min_value : option number
}.

(** [class StoryEvents(EmbeddedDocument)] *)
Record StoryEvents : Type := mkStoryEvents {
  event_name : string;
  event_type : string
}.

(** The objects that a list of events can hold: the embedded documents of
    this file, and the events of the dialogue engine ([rasa.core.events]),
    of which the code tells apart [UserUttered] and [ActionExecuted]. *)
Inductive event_object : Type :=
| StoryEventsObj (e : StoryEvents)
| UserUttered (text : string)
| ActionExecuted (action_name : string)
| OtherEvent.

Definition isinstance_UserUttered (o : event_object) : bool :=
  match o with UserUttered _ => true | _ => false end.

Definition isinstance_ActionExecuted (o : event_object) : bool :=
  match o with ActionExecuted _ => true | _ => false end.

(** [class Stories(Document)] *)
Record StoriesF : Type := mkStories {
  block_name : string;
  events : list event_object
}.

(** [FloatSlot.type_name] and [CategoricalSlot.type_name] *)
Definition FloatSlot_type_name : string := "float".
Definition CategoricalSlot_type_name : string := "categorical".

(** [TrainingExamples.validate]: the loop over a non-empty [entities]. *)
Fixpoint validate_entities (text : string) (ents : list Entity) : result unit :=
  match ents with
  | [] => Ok tt
  | ent :: rest =>
      let extracted_ent := slice text (start ent) (end_ ent) in
      if negb (String.eqb extracted_ent (value ent))
      then Raise (ValidationError
                    ("Invalid entity: " +:+ entity ent +:+ ", value: " +:+ value ent
                     +:+ " does not match with the position in the text "
                     +:+ extracted_ent))
      else validate_entities text rest
  end.

Definition TrainingExamples_validate (self : Document TrainingExamplesF)
  : result (Document TrainingExamplesF) :=
  match entities (fields self) with
  | _ :: _ =>
      match validate_entities (text (fields self)) (entities (fields self)) with
      | Ok _ => Ok self
      | Raise e => Raise e
      end
  | [] =>
      if check_empty_string (text (fields self))
         || check_empty_string (intent (fields self))
      then Raise (ValidationError
                    "Training Example name and text cannot be empty or blank spaces")
      else Ok self
  end.

Definition Intents_validate (self : Document NameF) : result (Document NameF) :=
  if check_empty_string (name (fields self))
  then Raise (ValidationError "Intent Name cannot be empty or blank spaces")
  else Ok self.

Definition Entities_validate (self : Document NameF) : result (Document NameF) :=
  if check_empty_string (name (fields self))
  then Raise (ValidationError "Entity Name cannot be empty or blank spaces")
  else Ok self.

Definition Actions_validate (self : Document NameF) : result (Document NameF) :=
  if check_empty_string (name (fields self))
  then Raise (ValidationError "Action name cannot be empty or blank spaces")
  else Ok self.

(** [not x] for an optional number: [None] and zero are falsy. *)
Definition not_number (x : option number) : bool :=
  match x with
  | None => true
  | Some n => negb (number_truthy n)
  end.

(** [Slots.validate].  It assigns the defaults to [self], so the document
    comes back with the outcome.  In the float branch the message [error] is
    built, and [ValidationError(error)] is constructed but never raised; the
    comparison itself raises a [TypeError] when one bound only is [None]. *)
Definition Slots_validate (self : Document SlotsF) : result (Document SlotsF) :=
  let f := fields self in
  if check_empty_string (slot_name f) || check_empty_string (type f)
  then Raise (ValueError "Slot name and type cannot be empty or blank spaces")
  else
    if String.eqb (type f) FloatSlot_type_name then
      let f1 :=
        if not_number (min_value f) && not_number (max_value f)
        then mkSlots (slot_name f) (type f) (initial_value f) (value_reset_delay f)
               (auto_fill f) (slot_value f) (values f)
               (Some (PyFloat 1)) (Some (PyFloat 0))
        else f in
      match min_value f1, max_value f1 with
      | Some lo, Some hi =>
          let error : string :=
            if number_lt lo hi then "FloatSlot must have min_value < max_value"
            else "" in
          let error : string :=
            if negb (isinstance_int (initial_value f1))
            then "FloatSlot initial_value must be numeric value"
            else error in
          Ok (set_fields self f1)
      | _, _ =>
          Raise (TypeError "'<' not supported between instances of 'NoneType' and 'int'")
      end
    else if String.eqb (type f) CategoricalSlot_type_name then
      match values f with
      | [] => Raise (ValidationError
                       "CategoricalSlot must have list of categories in values field")
      | _ :: _ => Ok self
      end
    else Ok self.

(** [Stories.validate] *)
Definition Stories_validate (self : Document StoriesF) : result (Document StoriesF) :=
  if check_empty_string (block_name (fields self))
  then Raise (ValidationError "Story path name cannot be empty or blank spaces")
  else
    match head (events (fields self)), last (events (fields self)) with
    | Some first, Some final =>
        if isinstance_UserUttered first
        then Raise (ValidationError "Stories must start with intent")
        else if isinstance_ActionExecuted final
        then Raise (ValidationError "Stories must end with action")
        else Ok self
    | _, _ => Raise IndexError
    end.

End DataObjects.

(** ** The document store, as the code uses it through [mongoengine] *)

Module Mongo.
Import DataObjects.

(** One collection per document class, in natural (insertion) order; the
    generator of fresh primary keys; and the clock behind
    [default=datetime.utcnow]. *)
Record DB : Type := mkDB {
  TrainingExamples_docs : list (Document TrainingExamplesF);
  EntitySynonyms_docs : list (Document EntitySynonymsF);
  LookupTables_docs : list (Document LookupTablesF);
  RegexFeatures_docs : list (Document RegexFeaturesF);
  Intents_docs : list (Document NameF);
  Entities_docs : list (Document NameF);
  Actions_docs : list (Document NameF);
  Slots_docs : list (Document SlotsF);
  SessionConfigs_docs : list (Document SessionConfigsF);
  next_oid : N;
  utcnow : Z
}.

Definition empty_db : DB := mkDB [] [] [] [] [] [] [] [] [] 0%N 0%Z.

(** A document class: where its documents live, its [validate], and whether
    it declares the field [status]. *)
Record DocumentClass (F : Type) : Type := mkClass {
  collection : DB -> list (Document F);
  set_collection : list (Document F) -> DB -> DB;
  validate : Document F -> result (Document F);
  declares_status : bool
}.
Arguments collection {F}.
Arguments set_collection {F}.
Arguments validate {F}.
Arguments declares_status {F}.

Definition set_next_oid (n : N) (db : DB) : DB :=
  mkDB (TrainingExamples_docs db) (EntitySynonyms_docs db) (LookupTables_docs db)
       (RegexFeatures_docs db) (Intents_docs db) (Entities_docs db) (Actions_docs db)
       (Slots_docs db) (SessionConfigs_docs db) n (utcnow db).

Definition TrainingExamples : DocumentClass TrainingExamplesF :=
  mkClass _ TrainingExamples_docs
    (fun l db => mkDB l (EntitySynonyms_docs db) (LookupTables_docs db)
       (RegexFeatures_docs db) (Intents_docs db) (Entities_docs db) (Actions_docs db)
       (Slots_docs db) (SessionConfigs_docs db) (next_oid db) (utcnow db))
    TrainingExamples_validate true.

(** The classes below keep the inherited [validate] of their fields or check
    [check_empty_string] only; bulk inserts never call it. *)
Definition EntitySynonyms : DocumentClass EntitySynonymsF :=
  mkClass _ EntitySynonyms_docs
    (fun l db => mkDB (TrainingExamples_docs db) l (LookupTables_docs db)
       (RegexFeatures_docs db) (Intents_docs db) (Entities_docs db) (Actions_docs db)
       (Slots_docs db) (SessionConfigs_docs db) (next_oid db) (utcnow db))
    (fun self =>
       if check_empty_string (synonym (fields self))
          || check_empty_string (syn_value (fields self))
       then Raise (ValidationError "Synonym name and value cannot be empty or blank spaces")
       else Ok self)
    true.

Definition LookupTables : DocumentClass LookupTablesF :=
  mkClass _ LookupTables_docs
    (fun l db => mkDB (TrainingExamples_docs db) (EntitySynonyms_docs db) l
       (RegexFeatures_docs db) (Intents_docs db) (Entities_docs db) (Actions_docs db)
       (Slots_docs db) (SessionConfigs_docs db) (next_oid db) (utcnow db))
    (fun self =>
       if check_empty_string (lookup_name (fields self))
          || check_empty_string (lookup_value (fields self))
       then Raise (ValidationError "Lookup name and value cannot be empty or blank spaces")
       else Ok self)
    true.

Definition RegexFeatures : DocumentClass RegexFeaturesF :=
  mkClass _ RegexFeatures_docs
    (fun l db => mkDB (TrainingExamples_docs db) (EntitySynonyms_docs db)
       (LookupTables_docs db) l (Intents_docs db) (Entities_docs db) (Actions_docs db)
       (Slots_docs db) (SessionConfigs_docs db) (next_oid db) (utcnow db))
    (fun self =>
       if check_empty_string (regex_name (fields self))
          || check_empty_string (pattern (fields self))
       then Raise (ValidationError "Regex name and pattern cannot be empty or blank spaces")
       else Ok self)
    true.

Definition Intents : DocumentClass NameF :=
  mkClass _ Intents_docs
    (fun l db => mkDB (TrainingExamples_docs db) (EntitySynonyms_docs db)
       (LookupTables_docs db) (RegexFeatures_docs db) l (Entities_docs db) (Actions_docs db)
       (Slots_docs db) (SessionConfigs_docs db) (next_oid db) (utcnow db))
    Intents_validate true.

Definition Entities : DocumentClass NameF :=
  mkClass _ Entities_docs
    (fun l db => mkDB (TrainingExamples_docs db) (EntitySynonyms_docs db)
       (LookupTables_docs db) (RegexFeatures_docs db) (Intents_docs db) l (Actions_docs db)
       (Slots_docs db) (SessionConfigs_docs db) (next_oid db) (utcnow db))
    Entities_validate true.

Definition Actions : DocumentClass NameF :=
  mkClass _ Actions_docs
    (fun l db => mkDB (TrainingExamples_docs db) (EntitySynonyms_docs db)
       (LookupTables_docs db) (RegexFeatures_docs db) (Intents_docs db) (Entities_docs db) l
       (Slots_docs db) (SessionConfigs_docs db) (next_oid db) (utcnow db))
    Actions_validate true.

Definition Slots : DocumentClass SlotsF :=
  mkClass _ Slots_docs
    (fun l db => mkDB (TrainingExamples_docs db) (EntitySynonyms_docs db)
       (LookupTables_docs db) (RegexFeatures_docs db) (Intents_docs db) (Entities_docs db)
       (Actions_docs db) l (SessionConfigs_docs db) (next_oid db) (utcnow db))
    Slots_validate true.

(** [SessionConfigs] inherits [Document.validate]; its two fields carry
    defaults and are typed, so that check passes.  The class declares no
    [status]: the flag of its documents is never read or written. *)
Definition SessionConfigs : DocumentClass SessionConfigsF :=
  mkClass _ SessionConfigs_docs
    (fun l db => mkDB (TrainingExamples_docs db) (EntitySynonyms_docs db)
       (LookupTables_docs db) (RegexFeatures_docs db) (Intents_docs db) (Entities_docs db)
       (Actions_docs db) (Slots_docs db) l (next_oid db) (utcnow db))
    Ok false.

(** *** Calls that read or write the store, and may raise *)

Definition M (A : Type) : Type := DB -> result A * DB.

#[export] Instance M_ret : MRet M := fun A a db => (Ok a, db).
#[export] Instance M_bind : MBind M := fun A B k m db =>
  match m db with
  | (Ok a, db') => k a db'
  | (Raise e, db') => (Raise e, db')
  end.

Definition raise {A} (e : exn) : M A := fun db => (Raise e, db).

(** [try: body  except <any>: handler] *)
Definition try_except {A} (body : M A) (handler : exn -> M A) : M A := fun db =>
  match body db with
  | (Ok a, db') => (Ok a, db')
  | (Raise e, db') => handler e db'
  end.

Definition lift_result {A} (r : result A) : M A := fun db => (r, db).

(** [Cls(bot=.., user=.., ...)]: no key yet, created now, active. *)
Definition new_document {F} (bot user : string) (f : F) : M (Document F) := fun db =>
  (Ok (mkDocument None bot user (utcnow db) true f), db).

(** [Cls.objects(...)] with its keyword filters, evaluated. *)
Definition objects {F} (document : DocumentClass F) (q : Document F -> bool)
  : M (list (Document F)) := fun db =>
  (Ok (List.filter q (collection document db)), db).

Definition has_pk {F} (i : ObjectId) (d : Document F) : bool :=
  match pk d with Some j => N.eqb j i | None => false end.

(** [Cls.objects.get(...)] with its keyword filters *)
Definition get {F} (document : DocumentClass F) (q : Document F -> bool)
  : M (Document F) := fun db =>
  match List.filter q (collection document db) with
  | [] => (Raise DoesNotExist, db)
  | [d] => (Ok d, db)
  | _ :: _ :: _ => (Raise MultipleObjectsReturned, db)
  end.

(** Storing one document.  A document without a key gets a fresh one.  The
    only unique index of these collections is the one on [_id]: a document
    that brings a key already present is refused. *)
Definition insert_one {F} (document : DocumentClass F) (d : Document F) : M unit := fun db =>
  match pk d with
  | None =>
      let d' := mkDocument (Some (next_oid db)) (bot d) (user d) (timestamp d)
                  (status d) (fields d) in
      (Ok tt, set_next_oid (N.succ (next_oid db))
                (set_collection document (collection document db ++ [d']) db))
  | Some i =>
      if existsb (has_pk i) (collection document db)
      then (Raise NotUniqueError, db)
      else (Ok tt, set_collection document (collection document db ++ [d]) db)
  end.

(** [Cls.objects.insert(docs)]: in order, without calling [validate]. *)
Fixpoint insert {F} (document : DocumentClass F) (docs : list (Document F)) : M unit :=
  match docs with
  | [] => mret tt
  | d :: rest => insert_one document d ≫= fun _ => insert document rest
  end.

(** [doc.save()] of a new document: [validate], then store. *)
Definition save {F} (document : DocumentClass F) (d : Document F) : M unit :=
  lift_result (validate document d) ≫= fun d' => insert_one document d'.

Definition set_status {F} (s : bool) (d : Document F) : Document F :=
  mkDocument (pk d) (bot d) (user d) (timestamp d) s (fields d).

(** [doc.update(status=s)]: the stored document with the key of [doc]; a
    class without the field cannot resolve it. *)
Definition update_status {F} (document : DocumentClass F) (doc : Document F) (s : bool)
  : M unit := fun db =>
  if declares_status document then
    (Ok tt,
     set_collection document
       (map (fun d => match pk doc with
                      | Some i => if has_pk i d then set_status s d else d
                      | None => d
                      end)
            (collection document db)) db)
  else (Raise (InvalidQueryError "Cannot resolve field status"), db).

(** [$group] by a key with [$push] of a value, groups in order of first
    appearance. *)
Fixpoint push_group (k v : string) (groups : list (string * list string))
  : list (string * list string) :=
  match groups with
  | [] => [(k, [v])]
  | (k', vs) :: rest =>
      if String.eqb k' k then (k', vs ++ [v]) :: rest
      else (k', vs) :: push_group k v rest
  end.

Definition aggregate_group (rows : list (string * string)) : list (string * list string) :=
  fold_left (fun groups kv => push_group (fst kv) (snd kv) groups) rows [].

(** *** What the specifications below assume of the store *)

(** A document class reads back the collection that was written, keeps one
    collection per class, and shares nothing with the key generator. *)
Class Lawful {F} (document : DocumentClass F) : Prop := {
  collection_set : forall l db, collection document (set_collection document l db) = l;
  set_collection_set : forall l l' db,
    set_collection document l (set_collection document l' db) = set_collection document l db;
  collection_set_next_oid : forall n db,
    collection document (set_next_oid n db) = collection document db;
  next_oid_set_collection : forall l db,
    next_oid (set_collection document l db) = next_oid db;
  utcnow_set_collection : forall l db,
    utcnow (set_collection document l db) = utcnow db
}.

(** The class declares [status], so its documents can be soft-deleted. *)
Class SoftDeletable {F} (document : DocumentClass F) : Prop :=
  soft_deletable : declares_status document = true.

(** The documents of a collection are stored: each has a key, no key occurs
    twice (the unique index on [_id]), and every key was handed out by the
    generator. *)
Definition well_stored {F} (next : N) (l : list (Document F)) : Prop :=
  NoDup (map pk l)
  /\ Forall (fun d => exists i, pk d = Some i /\ (i < next)%N) l.

(** The document [d] as it is stored under the key [i]. *)
Definition with_pk {F} (i : ObjectId) (d : Document F) : Document F :=
  mkDocument (Some i) (bot d) (user d) (timestamp d) (status d) (fields d).

(** New documents as a bulk insert stores them, keys counting from [n]. *)
Fixpoint assign_keys {F} (n : N) (docs : list (Document F)) : list (Document F) :=
  match docs with
  | [] => []
  | d :: rest => with_pk n d :: assign_keys (N.succ n) rest
  end.

(** The soft delete of the document with key [i], on a collection. *)
Definition soft_delete {F} (i : ObjectId) (l : list (Document F)) : list (Document F) :=
  map (fun d => if has_pk i d
                then mkDocument (pk d) (bot d) (user d) (timestamp d) false (fields d)
                else d) l.

(** The listing [{'_id': .., field: ..}] of the stored documents among
    [documents]. *)
Fixpoint keyed_records {F} (field : F -> string) (documents : list (Document F))
  : list (ObjectId * string) :=
  match documents with
  | [] => []
  | d :: rest =>
      match pk d with
      | Some i => (i, field (fields d)) :: keyed_records field rest
      | None => keyed_records field rest
      end
  end.

(** The values that a list of groups holds for a name: those of its first
    group of that name. *)
Definition values_of (k : string) (groups : list (string * list string))
  : list string :=
  match List.find (fun g => String.eqb (fst g) k) groups with
  | Some g => snd g
  | None => []
  end.

End Mongo.

(** ** [processor.py]: [MongoProcessor] *)

Module Processor.
Import DataObjects Mongo.

(** *** The training data of the NLU engine ([rasa.nlu.training_data]) *)

(** An entity annotation as the engine holds it: a dict with the keys
    [start], [end], [value] and [entity]. *)
Record EntityDict : Type := mkEntityDict {
  ed_start : Z;
  ed_end : Z;
  ed_value : string;
  ed_entity : string
}.

(** [Message]: its text, and [data] with the key [intent] and, possibly,
    the key [entities]. *)
Record Message : Type := mkMessage {
  message_text : string;
  data_intent : string;
  data_entities : option (list EntityDict)
}.

(** A lookup table, [{'name': .., 'elements': [..]}]. *)
Record LookupTable : Type := mkLookupTable {
  lt_name : string;
  lt_elements : list string
}.

(** A regex feature as it is saved, [{'name': .., 'pattern': ..}], and as
    [fetch_regex_features] yields it, [{'name': .., 'elements': ..}]. *)
Record RegexFeature : Type := mkRegexFeature {
  rf_name : string;
  rf_pattern : string
}.

Record RegexFeatureFetched : Type := mkRegexFeatureFetched {
  rff_name : string;
  rff_elements : string
}.

Record TrainingData (R : Type) : Type := mkTrainingData {
  training_examples : list Message;
  entity_synonyms : gmap string string;
  lookup_tables : list LookupTable;
  regex_features : list R
}.
Arguments mkTrainingData {R}.
Arguments training_examples {R}.
Arguments entity_synonyms {R}.
Arguments lookup_tables {R}.
Arguments regex_features {R}.

(** [SessionConfig] of the dialogue engine (rasa 1.x, imported from
    [rasa.core.domain]). *)
Record SessionConfig : Type := mkSessionConfig {
  session_expiration_time : Z;
  carry_over_slots : bool
}.

(** [SessionConfig.default()], outside the sources: in rasa 1.x it is
    [SessionConfig(0, DEFAULT_CARRY_OVER_SLOTS_TO_NEW_SESSION)], a session
    that does not expire and carries the slots over. *)
Definition SessionConfig_default : SessionConfig := mkSessionConfig 0 true.

(** [StoryStep]: a block name and the events of the engine. *)
Record StoryStep : Type := mkStoryStep {
  step_block_name : string;
  step_events : list event_object
}.

(** [dict(ChainMap( *maps ))]: a key takes its value from the first map that
    has it. *)
Definition ChainMap_dict (maps : list (gmap string string)) : gmap string string :=
  foldr (fun m acc => m ∪ acc) ∅ maps.

(** The filter [bot=bot, status=status] of the fetching queries. *)
Definition by_bot_status {F} (b : string) (s : bool) (d : Document F) : bool :=
  String.eqb (bot d) b && Bool.eqb (status d) s.

(** The filter [bot=bot]. *)
Definition by_bot {F} (b : string) (d : Document F) : bool := String.eqb (bot d) b.

(** *** Training examples *)

Definition extract_entities (entities : list EntityDict) : list Entity :=
  map (fun entity => mkEntity (ed_start entity) (ed_end entity) (ed_value entity)
                       (ed_entity entity)) entities.

Definition extract_training_examples (training_examples : list Message) (bot user : string)
  : M (list (Document TrainingExamplesF)) :=
  mapM (fun training_example =>
          new_document bot user
            (mkTrainingExamples (data_intent training_example)
               (message_text training_example)
               match data_entities training_example with
               | Some ents => extract_entities ents
               | None => []
               end))
       training_examples.

Definition save_training_examples (training_examples : list Message) (bot user : string)
  : M unit :=
  match training_examples with
  | [] => mret tt
  | _ :: _ =>
      extract_training_examples training_examples bot user ≫= insert TrainingExamples
  end.

Definition prepare_entities (entities : list Entity) : list EntityDict :=
  map (fun entity => mkEntityDict (start entity) (end_ entity) (value entity)
                       (DataObjects.entity entity)) entities.

Definition fetch_training_examples (bot : string) (status : bool) : M (list Message) :=
  trainingExamples ← objects TrainingExamples (by_bot_status bot status);
  mret (map (fun trainingExample =>
               mkMessage (text (fields trainingExample))
                 (intent (fields trainingExample))
                 match entities (fields trainingExample) with
                 | [] => None
                 | ents => Some (prepare_entities ents)
                 end)
            trainingExamples).

Definition prepare_training_examples (bot : string) : M (list Message) :=
  fetch_training_examples bot true.

(** *** Entity synonyms *)

Definition extract_synonyms (synonyms : gmap string string) (bot user : string)
  : M (list (Document EntitySynonymsF)) :=
  mapM (fun kv => new_document bot user (mkEntitySynonyms (snd kv) (fst kv)))
       (map_to_list synonyms).

Definition save_entity_synonyms (entity_synonyms : gmap string string) (bot user : string)
  : M unit :=
  if decide (entity_synonyms = ∅) then mret tt
  else extract_synonyms entity_synonyms bot user ≫= insert EntitySynonyms.

Definition fetch_synonyms (bot : string) (status : bool) : M (list (gmap string string)) :=
  entitySynonyms ← objects EntitySynonyms (by_bot_status bot status);
  mret (map (fun entitySynonym =>
               {[ syn_value (fields entitySynonym) := synonym (fields entitySynonym) ]})
            entitySynonyms).

Definition prepare_training_synonyms (bot : string) : M (gmap string string) :=
  synonyms ← fetch_synonyms bot true;
  mret (ChainMap_dict synonyms).

(** *** Lookup tables *)

Definition extract_lookup_tables (lookup_tables : list LookupTable) (bot user : string)
  : M (list (Document LookupTablesF)) :=
  mapM (fun ne => new_document bot user (mkLookupTables (fst ne) (snd ne)))
       (concat (map (fun lookup_table =>
                       map (fun element => (lt_name lookup_table, element))
                           (lt_elements lookup_table))
                    lookup_tables)).

Definition save_lookup_tables (lookup_tables : list LookupTable) (bot user : string)
  : M unit :=
  match lookup_tables with
  | [] => mret tt
  | _ :: _ => extract_lookup_tables lookup_tables bot user ≫= insert LookupTables
  end.

Definition fetch_lookup_tables (bot : string) (status : bool) : M (list LookupTable) :=
  docs ← objects LookupTables (by_bot_status bot status);
  mret (map (fun lookup_table => mkLookupTable (fst lookup_table) (snd lookup_table))
            (aggregate_group
               (map (fun d => (lookup_name (fields d), lookup_value (fields d))) docs))).

Definition prepare_training_lookup_tables (bot : string) : M (list LookupTable) :=
  fetch_lookup_tables bot true.

(** *** Regex features *)

Definition extract_regex_features (regex_features : list RegexFeature) (bot user : string)
  : M (list (Document RegexFeaturesF)) :=
  mapM (fun regex_feature =>
          new_document bot user
            (mkRegexFeatures (rf_name regex_feature) (rf_pattern regex_feature)))
       regex_features.

Definition save_regex_features (regex_features : list RegexFeature) (bot user : string)
  : M unit :=
  match regex_features with
  | [] => mret tt
  | _ :: _ => extract_regex_features regex_features bot user ≫= insert RegexFeatures
  end.

Definition fetch_regex_features (bot : string) (status : bool)
  : M (list RegexFeatureFetched) :=
  regex_features ← objects RegexFeatures (by_bot_status bot status);
  mret (map (fun regex_feature =>
               mkRegexFeatureFetched (regex_name (fields regex_feature))
                 (pattern (fields regex_feature)))
            regex_features).

Definition prepare_training_regex_features (bot : string) : M (list RegexFeatureFetched) :=
  fetch_regex_features bot true.

(** *** [save_nlu] and [load_nlu] *)

Definition save_nlu (nlu : TrainingData RegexFeature) (bot user : string) : M unit :=
  save_training_examples (training_examples nlu) bot user ;;
  save_entity_synonyms (entity_synonyms nlu) bot user ;;
  save_lookup_tables (lookup_tables nlu) bot user ;;
  save_regex_features (regex_features nlu) bot user.

Section TrainingDataOfEngine.

(** Outside the sources: [TrainingData.sanitize_examples] of the NLU engine
    (rasa 1.x), which strips the intents and drops duplicate examples. *)
Variable sanitize_examples : list Message -> list Message.

(** [TrainingData(training_examples=.., entity_synonyms=.., lookup_tables=..,
    regex_features=..)] of the NLU engine, as [load_nlu] calls it.  The
    constructor sanitizes the examples when there are any, and sorts the
    regex features by the key ["{}+{}".format(e["name"], e["pattern"])].
    The dicts that [fetch_regex_features] yields have the keys [name] and
    [elements] and no key [pattern]: the key function raises on the first
    of them. *)
Definition TrainingData_init (training_examples : list Message)
    (entity_synonyms : gmap string string) (lookup_tables : list LookupTable)
    (regex_features : list RegexFeatureFetched)
  : result (TrainingData RegexFeatureFetched) :=
  let training_examples :=
    match training_examples with
    | [] => []
    | _ :: _ => sanitize_examples training_examples
    end in
  match regex_features with
  | [] => Ok (mkTrainingData training_examples entity_synonyms lookup_tables [])
  | _ :: _ => Raise (KeyError "pattern")
  end.

Definition load_nlu (bot : string) : M (TrainingData RegexFeatureFetched) :=
  training_examples ← prepare_training_examples bot;
  entity_synonyms ← prepare_training_synonyms bot;
  lookup_tables ← prepare_training_lookup_tables bot;
  regex_features ← prepare_training_regex_features bot;
  lift_result
    (TrainingData_init training_examples entity_synonyms lookup_tables regex_features).

End TrainingDataOfEngine.

(** *** Domain entities and slots, as [add_training_example] needs them *)

Definition fetch_domain_entities (bot : string) (status : bool)
  : M (list (string * list string)) :=
  entities ← objects Entities (by_bot_status bot status);
  mret (aggregate_group (map (fun d => (DataObjects.bot d, name (fields d))) entities)).

Definition prepare_training_domain_entities (bot : string) : M (list string) :=
  entities ← fetch_domain_entities bot true;
  match entities with
  | g :: _ => mret (snd g)
  | [] => mret []
  end.

Definition extract_domain_entities (entities : list string) (bot user : string)
  : M (list (Document NameF)) :=
  mapM (fun entity => new_document bot user (mkName entity)) entities.

Definition save_domain_entities (entities : list string) (bot user : string) : M unit :=
  match entities with
  | [] => mret tt
  | _ :: _ =>
      saved_entities ← prepare_training_domain_entities bot;
      extracted ← extract_domain_entities entities bot user;
      let new_entities :=
        List.filter (fun entity =>
                       negb (existsb (String.eqb (name (fields entity))) saved_entities))
                    extracted in
      match new_entities with
      | [] => mret tt
      | _ :: _ => insert Entities new_entities
      end
  end.

Definition fetch_slot_names (bot : string) : M (list string) :=
  docs ← objects Slots (by_bot bot);
  let saved_slots :=
    aggregate_group (map (fun d => (DataObjects.bot d, slot_name (fields d))) docs) in
  match saved_slots with
  | g :: _ => mret (snd g)
  | [] => mret []
  end.

(** [Slots(name=.., type=.., bot=.., user=..)]: the other fields at their
    defaults. *)
Definition new_slot (name type : string) : SlotsF :=
  mkSlots name type PyNone None true None [] None None.

Definition add_slots_from_entities (entities : list string) (bot user : string) : M unit :=
  slot_name_list ← fetch_slot_names bot;
  slots ← mapM (fun entity => new_document bot user (new_slot entity "text"))
               (List.filter (fun entity => negb (existsb (String.eqb entity) slot_name_list))
                            entities);
  match slots with
  | [] => mret tt
  | _ :: _ => insert Slots slots
  end.

(** *** Session configuration *)

Definition extract_session_config (session_config : SessionConfig) (bot user : string)
  : M (Document SessionConfigsF) :=
  new_document bot user
    (mkSessionConfigs (session_expiration_time session_config)
       (carry_over_slots session_config)).

Definition save_session_config (session_config : option SessionConfig) (bot user : string)
  : M unit :=
  try_except
    match session_config with
    | Some session_config =>
        extract_session_config session_config bot user ≫= insert_one SessionConfigs
    | None => mret tt
    end
    (fun e =>
       match e with
       | NotUniqueError => raise (Exception_ "Session Config already exist for the bot")
       | _ => raise (Exception_ "Internal Server Error")
       end).

Definition fetch_session_config (bot : string) : M (option (Document SessionConfigsF)) :=
  try_except
    (get SessionConfigs (by_bot bot) ≫= fun session_config => mret (Some session_config))
    (fun e =>
       match e with
       | DoesNotExist => mret None
       | _ => raise e
       end).

Definition prepare_training_session_config (bot : string) : M SessionConfig :=
  session_config ← fetch_session_config bot;
  match session_config with
  | Some session_config =>
      mret (mkSessionConfig (sesssionExpirationTime (fields session_config))
              (carryOverSlots (fields session_config)))
  | None =>
      let default_session := SessionConfig_default in
      mret (mkSessionConfig (session_expiration_time default_session)
              (carry_over_slots default_session))
  end.

(** *** Stories *)

(** [UserUttered.type_name] and [ActionExecuted.type_name] *)
Definition UserUttered_type_name : string := "user".
Definition ActionExecuted_type_name : string := "action".

Fixpoint extract_story_events (events : list event_object) : list StoryEvents :=
  match events with
  | [] => []
  | UserUttered text :: rest =>
      mkStoryEvents text UserUttered_type_name :: extract_story_events rest
  | ActionExecuted action_name :: rest =>
      mkStoryEvents action_name ActionExecuted_type_name :: extract_story_events rest
  | _ :: rest => extract_story_events rest
  end.

Definition extract_story_step (story_steps : list StoryStep) (bot user : string)
  : M (list (Document StoriesF)) :=
  mapM (fun story_step =>
          let story_events := extract_story_events (step_events story_step) in
          new_document bot user
            (mkStories (step_block_name story_step) (map StoryEventsObj story_events)))
       story_steps.

(** *** Single-item operations *)

(** [__isExist]; the result is Python's [True], [False] or [None]. *)
Definition isExist {F} (document : DocumentClass F) (bot : string) (query : F -> bool)
    (exp_message : string) (raise_error : bool) : M (option bool) :=
  doc ← objects document (fun d => by_bot bot d && query (fields d));
  if negb (Nat.eqb (length doc) 0) then
    if raise_error then
      if check_empty_string exp_message
      then raise (Exception_ "Exception message cannot be empty")
      else raise (Exception_ exp_message)
    else mret (Some true)
  else
    if negb raise_error then mret (Some false) else mret None.

(** [not r] for the result of [__isExist]. *)
Definition not_ (r : option bool) : bool :=
  match r with Some true => false | _ => true end.

(** [__prepare_document_list]: [{'_id': str(id), field: value}] per document. *)
Fixpoint prepare_document_list {F} (documents : list (Document F)) (field : F -> string)
  : M (list (ObjectId * string)) :=
  match documents with
  | [] => mret []
  | document :: rest =>
      match pk document with
      | None => raise (KeyError "_id")
      | Some i =>
          tl ← prepare_document_list rest field;
          mret ((i, field (fields document)) :: tl)
      end
  end.

Definition add_intent (text bot user : string) : M unit :=
  isExist Intents bot (fun f => String.eqb (name f) text) "Intent already exist!" true ;;
  new_document bot user (mkName text) ≫= save Intents.

Definition get_intents (bot : string) : M (list (ObjectId * string)) :=
  intents ← objects Intents (by_bot bot);
  prepare_document_list intents name.

Definition add_entity (name bot user : string) : M unit :=
  isExist Entities bot (fun f => String.eqb (DataObjects.name f) name)
    "Entity already exist!" true ;;
  new_document bot user (mkName name) ≫= save Entities ;;
  slot_exists ← isExist Slots bot (fun f => String.eqb (slot_name f) name) "" false;
  if not_ slot_exists
  then new_document bot user (new_slot name "text") ≫= save Slots
  else mret tt.

Definition get_entities (bot : string) : M (list (ObjectId * string)) :=
  entities ← objects Entities (by_bot bot);
  prepare_document_list entities name.

Definition add_action (name bot user : string) : M unit :=
  isExist Actions bot (fun f => String.eqb (DataObjects.name f) name)
    "Entity already exist!" true ;;
  new_document bot user (mkName name) ≫= save Actions.

Definition get_actions (bot : string) : M (list (ObjectId * string)) :=
  actions ← objects Actions (by_bot bot);
  prepare_document_list actions name.

Definition remove_document {F} (document : DocumentClass F) (id : ObjectId) : M unit :=
  try_except
    (doc ← get document (has_pk id);
     update_status document doc false)
    (fun e =>
       match e with
       | DoesNotExist => raise (Exception_ "Unable to remove document")
       | _ => raise (Exception_ "Unable to remove document")
       end).

Section TrainingExampleText.

(** The markdown reader of the NLU engine and the text helper of
    [bot_trainer/utils] are outside the sources:
    [MarkdownReader._find_entities_in_training_example], the substitution
    [re.sub(ent_regex, entity_text, _)] and [Utility.prepare_nlu_text]. *)
Variable find_entities_in_training_example : string -> list EntityDict.
Variable sub_ent_regex : string -> string.
Variable prepare_nlu_text : string -> list Entity -> string.

Definition add_training_example (example intent bot user : string) : M unit :=
  isExist TrainingExamples bot (fun f => String.eqb (text f) example)
    "Training Example already exist!" true ;;
  intent_exists ← isExist Intents bot (fun f => String.eqb (name f) intent) "" false;
  (if not_ intent_exists
   then new_document bot user (mkName intent) ≫= save Intents
   else mret tt) ;;
  training_example ← new_document bot user (mkTrainingExamples intent example []);
  training_example ←
    (if negb (check_empty_string example) then
       let entities := find_entities_in_training_example example in
       match entities with
       | [] => mret training_example
       | _ :: _ =>
           let ext_entity := map ed_entity entities in
           save_domain_entities ext_entity bot user ;;
           add_slots_from_entities ext_entity bot user ;;
           mret (set_fields training_example
                   (mkTrainingExamples intent (sub_ent_regex example)
                      (extract_entities entities)))
       end
     else mret training_example);
  save TrainingExamples training_example.

(** [get_training_examples]: per example [{'_id': str(id), 'text': ..}], the
    text being [Utility.prepare_nlu_text(text, entities)]. *)
Definition get_training_examples (intent bot : string) : M (list (ObjectId * string)) :=
  training_examples ←
    objects TrainingExamples
      (fun d => by_bot bot d && String.eqb (DataObjects.intent (fields d)) intent);
  prepare_document_list training_examples
    (fun example => prepare_nlu_text (text example) (entities example)).

End TrainingExampleText.

(** *** What the round trip of the NLU data is stated with *)

(** The number of entries of a list of lookup tables. *)
Definition lookup_entries (tables : list LookupTable) : nat :=
  length (concat (map lt_elements tables)).



(** The elements that a list of lookup tables holds under a name. *)
Definition table_elements (k : string) (tables : list LookupTable) : list string :=
  values_of k (map (fun t => (lt_name t, lt_elements t)) tables).

(** No document of the four NLU collections is active for the bot: the bot
    is new, or what it had was soft-deleted. *)
Definition no_active_nlu (b : string) (db : DB) : Prop :=
  (forall d, d ∈ TrainingExamples_docs db -> by_bot_status b true d = false)
  /\ (forall d, d ∈ EntitySynonyms_docs db -> by_bot_status b true d = false)
  /\ (forall d, d ∈ LookupTables_docs db -> by_bot_status b true d = false)
  /\ (forall d, d ∈ RegexFeatures_docs db -> by_bot_status b true d = false).

(** The fields under which [save_nlu] stores a training example, a synonym
    pair, the entries of the lookup tables and a regex feature. *)
Definition stored_example (m : Message) : TrainingExamplesF :=
  mkTrainingExamples (data_intent m) (message_text m)
    match data_entities m with
    | Some ents => extract_entities ents
    | None => []
    end.

Definition stored_synonym (kv : string * string) : EntitySynonymsF :=
  mkEntitySynonyms (snd kv) (fst kv).

Definition lookup_rows (tables : list LookupTable) : list (string * string) :=
  concat (map (fun lookup_table =>
                 map (fun element => (lt_name lookup_table, element))
                     (lt_elements lookup_table))
              tables).

Definition stored_lookup (ne : string * string) : LookupTablesF :=
  mkLookupTables (fst ne) (snd ne).

Definition stored_regex (r : RegexFeature) : RegexFeaturesF :=
  mkRegexFeatures (rf_name r) (rf_pattern r).

(** A training example as [fetch_training_examples] rebuilds it: an empty
    list of entities comes back as no [entities] key. *)
Definition fetched_example (m : Message) : Message :=
  mkMessage (message_text m) (data_intent m)
    match data_entities m with
    | Some (e :: ents) => Some (e :: ents)
    | _ => None
    end.

(** *** Intents and actions of the domain *)

Definition extract_intents (intents : list string) (bot user : string)
  : M (list (Document NameF)) :=
  mapM (fun intent => new_document bot user (mkName intent)) intents.

Definition save_intents (intents : list string) (bot user : string) : M unit :=
  match intents with
  | [] => mret tt
  | _ :: _ => extract_intents intents bot user ≫= insert Intents
  end.

Definition fetch_intents (bot : string) (status : bool)
  : M (list (string * list string)) :=
  intents ← objects Intents (by_bot_status bot status);
  mret (aggregate_group (map (fun d => (DataObjects.bot d, name (fields d))) intents)).

Definition prepare_training_intents (bot : string) : M (list string) :=
  intents ← fetch_intents bot true;
  match intents with
  | g :: _ => mret (snd g)
  | [] => mret []
  end.

Definition extract_actions (actions : list string) (bot user : string)
  : M (list (Document NameF)) :=
  mapM (fun action => new_document bot user (mkName action)) actions.

Definition save_actions (actions : list string) (bot user : string) : M unit :=
  match actions with
  | [] => mret tt
  | _ :: _ => extract_actions actions bot user ≫= insert Actions
  end.

Definition fetch_actions (bot : string) (status : bool)
  : M (list (string * list string)) :=
  actions ← objects Actions (by_bot_status bot status);
  mret (aggregate_group (map (fun d => (DataObjects.bot d, name (fields d))) actions)).

Definition prepare_training_actions (bot : string) : M (list string) :=
  actions ← fetch_actions bot true;
  match actions with
  | g :: _ => mret (snd g)
  | [] => mret []
  end.

(** *** Slots of the domain, as they are loaded *)


(** *** Stories, as they are loaded *)

(** The events that [__prepare_training_story_events] constructs, over a
    type [T] of time stamps: [UserUttered(text=.., intent={'name': ..,
    'confidence': ..}, timestamp=..)] and
    [ActionExecuted(action_name=.., timestamp=..)]. *)
Inductive TrainingEvent (T : Type) : Type :=
| TrainingUserUttered (text intent_name : string) (confidence : Q) (timestamp : T)
| TrainingActionExecuted (action_name : string) (timestamp : T).
Arguments TrainingUserUttered {T}.
Arguments TrainingActionExecuted {T}.

Fixpoint prepare_training_story_events {T} (events : list StoryEvents) (timestamp : T)
  : list (TrainingEvent T) :=
  match events with
  | [] => []
  | event :: rest =>
      if String.eqb (event_type event) "user" then
        TrainingUserUttered (event_name event) (event_name event) 1 timestamp
        :: prepare_training_story_events rest timestamp
      else if String.eqb (event_type event) "action" then
        TrainingActionExecuted (event_name event) timestamp
        :: prepare_training_story_events rest timestamp
      else prepare_training_story_events rest timestamp
  end.

(** *** What the loading of stories is stated with *)

(** An event of the engine as it comes back from the store, if it does. *)
Definition reloaded_event {T} (timestamp : T) (event : event_object)
  : option (TrainingEvent T) :=
  match event with
  | UserUttered text => Some (TrainingUserUttered text text 1 timestamp)
  | ActionExecuted action_name => Some (TrainingActionExecuted action_name timestamp)
  | _ => None
  end.

End Processor.

(** ** [whatsapp.py]: the WhatsApp channel *)

Module Whatsapp.

(** A decoded JSON value; a JSON object is a [dict] with string keys. *)
#[warnings="-register-all"]
Inductive json : Type :=
| JNull
| JBool (b : bool)
| JNum (n : number)
| JStr (s : string)
| JArr (l : list json)
| JObj (m : gmap string json).

Abbreviation dict := (gmap string json).

#[export] Instance result_ret : MRet result := fun A a => Ok a.
#[export] Instance result_bind : MBind result := fun A B k r =>
  match r with
  | Ok a => k a
  | Raise e => Raise e
  end.

(** A [UserMessage] of the dialogue engine: its text, its sender, its
    input channel and its metadata. *)
Record UserMessage : Type := mkUserMessage {
  um_text : json;
  um_sender_id : string;
  um_input_channel : string;
  um_metadata : dict
}.

(** A callback handed to [IOLoop.current().spawn_callback]: the arguments
    of [__handle_meta_payload]. *)
Record Callback : Type := mkCallback {
  cb_payload : json;
  cb_metadata : dict;
  cb_bot : string
}.

(** What the channel does to its surroundings: the read receipts sent
    through the client, the messages handed to the agent of a bot, and the
    callbacks waiting on the event loop. *)
Record World : Type := mkWorld {
  marked_as_read : list json;
  handled : list (string * UserMessage);
  spawned : list Callback
}.

Definition IO (A : Type) : Type := World -> result A * World.

#[export] Instance IO_ret : MRet IO := fun A a w => (Ok a, w).
#[export] Instance IO_bind : MBind IO := fun A B k m w =>
  match m w with
  | (Ok a, w') => k a w'
  | (Raise e, w') => (Raise e, w')
  end.

Definition io_raise {A} (e : exn) : IO A := fun w => (Raise e, w).

(** An HTTP request: its decoded body and its headers. *)
Record Request : Type := mkRequest {
  request_json : json;
  headers : gmap string string
}.

(** The double quote, for the marker text. *)
Definition dquote : string := String (ascii_of_nat 34) EmptyString.

(** [v.get(k)] on a value [v] that may not be a dict. *)
Definition get_ (v : option json) (k : string) : result (option json) :=
  match v with
  | Some (JObj m) => Ok (m !! k)
  | _ => Raise (AttributeError "get")
  end.

(** [v[k]] for a string key [k]. *)
Definition getitem (v : json) (k : string) : result json :=
  match v with
  | JObj m =>
      match m !! k with
      | Some x => Ok x
      | None => Raise (KeyError k)
      end
  | _ => Raise (TypeError "value is not subscriptable by a string")
  end.

(** The text of the media branch, a command with a JSON object for its
    argument: [/k_multimedia_msg{"<kind>": "<id>"}]. *)
Definition multimedia_marker (kind id : string) : string :=
  "/k_multimedia_msg{" +:+ dquote +:+ kind +:+ dquote +:+ ": "
  +:+ dquote +:+ id +:+ dquote +:+ "}".

(** [bool(v)] *)
Definition truthy (v : json) : bool :=
  match v with
  | JNull => false
  | JBool b => b
  | JNum n => number_truthy n
  | JStr s => negb (String.eqb s "")
  | JArr l => match l with [] => false | _ :: _ => true end
  | JObj m => match map_to_list m with [] => false | _ :: _ => true end
  end.

(** The kinds of the media branch. *)
Definition media_kinds : list string := ["image"; "audio"; "document"; "video"; "voice"].

(** [message.get("type") == t] *)
Definition type_is (message : dict) (t : string) : bool :=
  match message !! "type" with
  | Some (JStr s) => String.eqb s t
  | _ => false
  end.

Section Channel.

(** Outside the sources: [str()] of a JSON value inside an f-string, the
    check [MessengerHandler.validate_hub_signature] and the constant
    [ChannelTypes.WHATSAPP.value]. *)
Variable str_ : json -> string.
Variable validate_hub_signature : json -> json -> string -> bool.
Variable WHATSAPP : string.

(** [d[k]] where the key [k] is itself a value read from the payload. *)
Definition getitem_dyn (d : dict) (k : option json) : result json :=
  match k with
  | Some (JStr s) =>
      match d !! s with
      | Some x => Ok x
      | None => Raise (KeyError s)
      end
  | Some (JArr _) | Some (JObj _) => Raise (TypeError "unhashable type")
  | Some other => Raise (KeyError (str_ other))
  | None => Raise (KeyError "None")
  end.

(** The dispatch of [Whatsapp.message] on the declared type: the text and
    the message as the branch leaves it, or [None] where the code logs a
    warning and returns. *)
Definition message_text (message : dict) : result (option (json * dict)) :=
  if type_is message "interactive" then
    interactive_type ← get_ (message !! "interactive") "type";
    match message !! "interactive" with
    | Some (JObj interactive) =>
        reply ← getitem_dyn interactive interactive_type;
        text ← getitem reply "id";
        mret (Some (text, message))
    | _ => Raise (KeyError "interactive")
    end
  else if type_is message "text" then
    match message !! "text" with
    | Some body =>
        text ← getitem body "body";
        mret (Some (text, message))
    | None => Raise (KeyError "text")
    end
  else if type_is message "button" then
    match message !! "button" with
    | Some button =>
        text ← getitem button "text";
        mret (Some (text, message))
    | None => Raise (KeyError "button")
    end
  else
    match message !! "type" with
    | Some (JArr _) | Some (JObj _) => Raise (TypeError "unhashable type")
    | Some (JStr kind) =>
        if existsb (String.eqb kind) media_kinds then
          let message :=
            if String.eqb kind "voice" then <["type" := JStr "audio"]> message
            else message in
          let kind := if String.eqb kind "voice" then "audio" else kind in
          match message !! kind with
          | Some media =>
              id ← getitem media "id";
              mret (Some (JStr (multimedia_marker kind (str_ id)), message))
          | None => Raise (KeyError kind)
          end
        else mret None
    | _ => mret None
    end.

(** [UserMessage(text, out_channel, sender_id, input_channel=.., metadata=..)]
    of the dialogue engine, outside the sources: the text is
    [text.strip() if text else text], which raises for a text that is true
    and not a string, and the sender is [str(sender_id)], or "default" when
    it is [None]. *)
Definition UserMessage_init (text sender_id : json) (input_channel : string)
    (metadata : dict) : result UserMessage :=
  text ← (if truthy text then
            match text with
            | JStr s => Ok (JStr (strip s))
            | _ => Raise (AttributeError "strip")
            end
          else Ok text);
  let sender_id :=
    match sender_id with
    | JNull => "default"
    | _ => str_ sender_id
    end in
  Ok (mkUserMessage text sender_id input_channel metadata).

(** [out_channel.mark_as_read(msg_id)] *)
Definition mark_as_read (msg_id : json) : IO unit := fun w =>
  (Ok tt, mkWorld (marked_as_read w ++ [msg_id]) (handled w) (spawned w)).

(** [self.process_message(bot, user_msg)] inside its [try]: the message
    goes to the agent of the bot, and what the agent raises is logged and
    dropped. *)
Definition process_message (bot : string) (user_msg : UserMessage) : IO unit := fun w =>
  (Ok tt, mkWorld (marked_as_read w) (handled w ++ [(bot, user_msg)]) (spawned w)).

(** [_handle_user_message]: the read receipt, then the construction of the
    user message, then the hand-over. *)
Definition handle_user_message (text sender_id : json) (metadata : dict) (bot : string)
  : IO unit :=
  match metadata !! "id" with
  | None => io_raise (KeyError "id")
  | Some msg_id =>
      mark_as_read msg_id ;;
      match UserMessage_init text sender_id WHATSAPP metadata with
      | Raise e => io_raise e
      | Ok user_msg => process_message bot user_msg
      end
  end.

(** [Whatsapp.message] *)
Definition message (message : dict) (metadata : dict) (bot : string) : IO unit :=
  match message_text message with
  | Raise e => io_raise e
  | Ok None => mret tt
  | Ok (Some (text, message)) =>
      let message := metadata ∪ message in
      match message !! "from" with
      | Some sender => handle_user_message text sender message bot
      | None => io_raise (KeyError "from")
      end
  end.

(** [IOLoop.current().spawn_callback(self.__handle_meta_payload, ..)] *)
Definition spawn_callback (payload : json) (metadata : dict) (bot : string) : IO unit :=
  fun w => (Ok tt, mkWorld (marked_as_read w) (handled w)
                     (spawned w ++ [mkCallback payload metadata bot])).

(** [Whatsapp.handle_payload], for a channel with configuration [config]. *)
Definition handle_payload (config : dict) (request : Request) (metadata : dict)
    (bot : string) : IO string :=
  let msg := "success" in
  let payload := request_json request in
  let provider := default (JStr "meta") (config !! "bsp_type") in
  let metadata :=
    ({[ "channel_type" := JStr WHATSAPP; "bsp_type" := provider;
        "tabname" := JStr "default" ]} : dict) ∪ metadata in
  let signature := default "" (headers request !! "X-Hub-Signature") in
  let is_meta := match provider with JStr p => String.eqb p "meta" | _ => false end in
  if is_meta then
    match config !! "app_secret" with
    | None => io_raise (KeyError "app_secret")
    | Some app_secret =>
        if negb (validate_hub_signature app_secret payload signature)
        then mret "not validated"
        else spawn_callback payload metadata bot ;; mret msg
    end
  else spawn_callback payload metadata bot ;; mret msg.

End Channel.

(** The effect of a read receipt alone. *)
Definition read_receipt (w : World) (msg_id : json) : World :=
  mkWorld (marked_as_read w ++ [msg_id]) (handled w) (spawned w).

(** The effect of one delivery: the read receipt for [msg_id], and the
    message handed to the agent of [bot]. *)
Definition delivered (w : World) (bot : string) (um : UserMessage) (msg_id : json)
  : World :=
  mkWorld (marked_as_read w ++ [msg_id]) (handled w ++ [(bot, um)]) (spawned w).

(** The metadata that [handle_payload] hands to the scheduled callback:
    the three fixed entries over the metadata of the request. *)
Definition callback_metadata (WHATSAPP : string) (provider : json) (metadata : dict)
  : dict :=
  ({[ "channel_type" := JStr WHATSAPP; "bsp_type" := provider;
      "tabname" := JStr "default" ]} : dict) ∪ metadata.

(** The kinds that [Whatsapp.message] handles. *)
Definition recognized_kinds : list string :=
  ["interactive"; "text"; "button"] ++ media_kinds.

(** *** The webhook delivery: [Whatsapp.__handle_meta_payload] *)

(** The body of a webhook delivery of the provider, as
    [__handle_meta_payload] reads it: [payload["entry"]] is a list of
    entries, [entry["changes"]] a list of changes, and a change may carry a
    [value] with the [metadata] of the business number and a list of
    [messages].  A key that the code reads with a subscript is optional
    here, and its absence raises [KeyError]; a key read with [get] is
    optional and has a default. *)
Record Value : Type := mkValue {
  value_metadata : option dict;
  value_messages : option (list dict)
}.

Record Change : Type := mkChange {
  change_value : option Value
}.

Record Entry : Type := mkEntry {
  entry_changes : option (list Change)
}.

Record Payload : Type := mkPayload {
  payload_entry : option (list Entry)
}.

(** [changes.get("value", {}).get("metadata", {})] *)
Definition change_metadata (changes : Change) : dict :=
  default ∅ (change_value changes ≫= value_metadata).

(** [changes.get("value", {}).get("messages") or []] *)
Definition change_messages (changes : Change) : list dict :=
  default [] (change_value changes ≫= value_messages).

(** [get_business_phone_number_id], on [self.last_message]. *)
Definition get_business_phone_number_id (last_message : Change) : json :=
  default (JStr "") (change_metadata last_message !! "phone_number_id").

(** [provider == "meta"] *)
Definition provider_is_meta (provider : json) : bool :=
  match provider with
  | JStr p => String.eqb p "meta"
  | _ => false
  end.

(** [__get_access_token] *)
Definition get_access_token (config : dict) : option json :=
  let provider := default (JStr "meta") (config !! "bsp_type") in
  if provider_is_meta provider then config !! "access_token"
  else config !! "api_key".

Section Delivery.

(** Outside the sources: the client of a provider, and its construction
    [WhatsappFactory.get_client(provider)(access_token,
    from_phone_number_id=..)], which may raise. *)
Variable Client : Type.
Variable new_client : json -> option json -> json -> result Client.
Variable str_ : json -> string.
Variable WHATSAPP : string.

(** The attributes of the channel object that the delivery assigns;
    [__init__] sets [last_message] to the empty dict and no client. *)
Record Self : Type := mkSelf {
  last_message : Change;
  client : option Client
}.

Definition init : Self := mkSelf (mkChange None) None.

(** [for message in messages or []: await self.message(message, metadata, bot)] *)
Fixpoint handle_messages (messages : list dict) (metadata : dict) (bot : string)
  : IO unit :=
  match messages with
  | [] => mret tt
  | m :: rest =>
      message str_ WHATSAPP m metadata bot ;; handle_messages rest metadata bot
  end.

(** [for changes in entry["changes"]: ..]; the dict [metadata] is one
    object that every change updates, so the loop returns it as the last
    change left it. *)
Fixpoint handle_changes (provider : json) (access_token : option json)
    (changes : list Change) (metadata : dict) (bot : string)
    (self : Self) (w : World) : result dict * Self * World :=
  match changes with
  | [] => (Ok metadata, self, w)
  | change :: rest =>
      let self := mkSelf change (client self) in
      match new_client provider access_token
              (get_business_phone_number_id (last_message self)) with
      | Raise e => (Raise e, self, w)
      | Ok c =>
          let self := mkSelf change (Some c) in
          let msg_metadata := change_metadata change in
          let metadata := msg_metadata ∪ metadata in
          match handle_messages (change_messages change) metadata bot w with
          | (Raise e, w') => (Raise e, self, w')
          | (Ok _, w') =>
              handle_changes provider access_token rest metadata bot self w'
          end
      end
  end.

(** [for entry in payload["entry"]: ..] *)
Fixpoint handle_entries (provider : json) (access_token : option json)
    (entries : list Entry) (metadata : dict) (bot : string)
    (self : Self) (w : World) : result dict * Self * World :=
  match entries with
  | [] => (Ok metadata, self, w)
  | entry :: rest =>
      match entry_changes entry with
      | None => (Raise (KeyError "changes"), self, w)
      | Some changes =>
          match handle_changes provider access_token changes metadata bot self w with
          | (Raise e, self', w') => (Raise e, self', w')
          | (Ok metadata', self', w') =>
              handle_entries provider access_token rest metadata' bot self' w'
          end
      end
  end.

(** [Whatsapp.__handle_meta_payload], for a channel with configuration
    [config]. *)
Definition handle_meta_payload (config : dict) (payload : Payload) (metadata : dict)
    (bot : string) (self : Self) (w : World) : result unit * Self * World :=
  let provider := default (JStr "meta") (config !! "bsp_type") in
  let access_token := get_access_token config in
  match payload_entry payload with
  | None => (Raise (KeyError "entry"), self, w)
  | Some entries =>
      match handle_entries provider access_token entries metadata bot self w with
      | (Raise e, self', w') => (Raise e, self', w')
      | (Ok _, self', w') => (Ok tt, self', w')
      end
  end.

End Delivery.

(** The metadata after a run of changes: each change's own metadata over
    what was there before. *)
Definition merged_metadata (changes : list Change) (metadata : dict) : dict :=
  foldl (fun md change => change_metadata change ∪ md) metadata changes.

(** *** The webhook endpoint: [WhatsappHandler.handle_message] *)

Section Handler.

(** Outside the sources: the signature check, the channel's name and
    [MessengerHandler.get_metadata]. *)
Variable validate_hub_signature : json -> json -> string -> bool.
Variable WHATSAPP : string.
Variable get_metadata : Request -> option dict.

(** [WhatsappHandler.handle_message], for a handler of [bot] and of a user
    of [account]; [channel_conf] is what
    [ChatDataProcessor.get_channel_config] returned. *)
Definition handle_message (channel_conf : json) (bot : string) (account : json)
    (request : Request) : IO string :=
  match getitem channel_conf "config" with
  | Raise e => io_raise e
  | Ok config =>
      let metadata := default ∅ (get_metadata request) in
      let metadata :=
        ({[ "is_integration_user" := JBool true; "bot" := JStr bot;
            "account" := account ]} : dict) ∪ metadata in
      match config with
      | JObj config =>
          handle_payload validate_hub_signature WHATSAPP config request metadata bot
      | _ => io_raise (AttributeError "get")
      end
  end.

End Handler.

(** The entries that [handle_message] and [handle_payload] set on the
    metadata of a request. *)
Definition handler_keys : list string :=
  ["is_integration_user"; "bot"; "account"; "channel_type"; "bsp_type"; "tabname"].

(** *** The output channel: [WhatsappBot] *)

(** A call of the client's [send(element, recipient_id, messaging_type)];
    what the client does with it is outside the sources. *)
Record Sent : Type := mkSent {
  sent_element : json;
  sent_recipient : json;
  sent_type : option string
}.

Definition Out (A : Type) : Type := list Sent -> result A * list Sent.

Definition client_send (element recipient_id : json) (messaging_type : option string)
  : Out unit :=
  fun sent => (Ok tt, sent ++ [mkSent element recipient_id messaging_type]).

(** [WhatsappBot.send] *)
Definition send (recipient_id element : json) : Out unit :=
  client_send element recipient_id (Some "text").

(** [WhatsappBot.send_text_message] *)
Definition send_text_message (recipient_id text : json) : Out unit :=
  send recipient_id (JObj {[ "preview_url" := JBool true; "body" := text ]}).

(** [WhatsappBot.send_image_url]; [kwargs] are the keyword arguments. *)
Definition send_image_url (recipient_id image : json) (kwargs : dict) : Out unit :=
  let link := default JNull (kwargs !! "link") in
  send recipient_id (JObj {[ "link" := link ]}).

(** The table [content_type] of [send_custom_json]. *)
Definition content_type : list (string * string) :=
  [("link", "text"); ("video", "text"); ("image", "image");
   ("button", "interactive"); ("dropdown", "interactive")].

Definition content_type_get (messagetype : string) : option string :=
  snd <$> List.find (fun kv => String.eqb (fst kv) messagetype) content_type.

Section OutputChannel.

(** Outside the sources: [str()], the list
    [Utility.system_metadata.get("type_list")] of the type names with a
    converter, and the conversion
    [ConverterFactory.getConcreteInstance(messagetype, ..).messageConverter(message)],
    which may raise. *)
Variable str_ : json -> string.
Variable type_list : list string.
Variable messageConverter : string -> option json -> result json.

(** [WhatsappBot.send_custom_json] *)
Definition send_custom_json (recipient_id json_message : json) : Out unit :=
  match json_message with
  | JObj d =>
      let message := d !! "data" in
      let messagetype := d !! "type" in
      let plain :=
        send recipient_id
          (JObj {[ "preview_url" := JBool true;
                   "body" := JStr (str_ json_message) ]}) in
      match messagetype with
      | Some (JStr t) =>
          if existsb (String.eqb t) type_list then
            let messaging_type := content_type_get t in
            match messageConverter t message with
            | Raise e => fun sent => (Raise e, sent)
            | Ok response => client_send response recipient_id messaging_type
            end
          else plain
      | _ => plain
      end
  | _ => fun sent => (Raise (AttributeError "get"), sent)
  end.

End OutputChannel.

(** The effect of a run of deliveries, in order. *)
Definition delivered_all (w : World) (bot : string) (ds : list (UserMessage * json))
  : World :=
  foldl (fun w d => delivered w bot (fst d) (snd d)) w ds.

End Whatsapp.

(** ** Concrete inputs, for the examples below *)

Module Inputs.
Import DataObjects Mongo Processor Whatsapp.

(** A document that was built and not stored yet. *)
Definition fresh {F} (f : F) : Document F := mkDocument None "bot" "user" 0 true f.

Definition example_in_delhi : Document TrainingExamplesF :=
  fresh (mkTrainingExamples "inform" "I am in Delhi" [mkEntity 8 13 "Delhi" "city"]).

Definition example_off_by_one : Document TrainingExamplesF :=
  fresh (mkTrainingExamples "inform" "I am in Delhi" [mkEntity 7 13 "Delhi" "city"]).

(** A story that starts with an action and ends with a user event, and
    one that starts with an intent and ends with an action. *)
Definition story_action_first : Document StoriesF :=
  fresh (mkStories "greet path"
           [StoryEventsObj (mkStoryEvents "utter_greet" "action");
            StoryEventsObj (mkStoryEvents "greet" "user")]).

Definition story_intent_first : Document StoriesF :=
  fresh (mkStories "greet path"
           [StoryEventsObj (mkStoryEvents "greet" "user");
            StoryEventsObj (mkStoryEvents "utter_greet" "action")]).

(** The same path, holding the events of the engine themselves. *)
Definition story_of_engine_events : Document StoriesF :=
  fresh (mkStories "greet path" [UserUttered "greet"; ActionExecuted "utter_greet"]).

(** A float slot with [min_value=5] and [max_value=1]. *)
Definition slot_min_above_max : Document SlotsF :=
  fresh (mkSlots "rating" "float" (PyNum (PyInt 0)) None true None []
           (Some (PyInt 1)) (Some (PyInt 5))).

(** A float slot that sets neither bound, and a categorical slot without
    categories. *)
Definition slot_float_unset : Document SlotsF :=
  fresh (mkSlots "rating" "float" (PyNum (PyInt 0)) None true None [] None None).

Definition slot_categorical_empty : Document SlotsF :=
  fresh (mkSlots "mood" "categorical" PyNone None true None [] None None).

(** A store with one intent "greet" of the bot, and the same store after
    the soft delete of that intent. *)
Definition greet_intent (s : bool) : Document NameF :=
  mkDocument (Some 0%N) "bot" "user" 0 s (mkName "greet").

Definition db_greet : DB := mkDB [] [] [] [] [greet_intent true] [] [] [] [] 1%N 0%Z.

Definition db_greet_removed : DB :=
  mkDB [] [] [] [] [greet_intent false] [] [] [] [] 1%N 0%Z.

(** Stand-ins for the text helpers that lie outside the sources, for the
    examples only: no entity markup is found, and the text is listed as it
    is stored. *)
Definition no_entities (example : string) : list EntityDict := [].
Definition plain_text (text : string) (entities : list Entity) : string := text.

(** A store in which the bot has a session configuration, and the store
    after a second one was saved for the same bot. *)
Definition session_doc (i : ObjectId) (minutes : Z) (carry : bool)
  : Document SessionConfigsF :=
  mkDocument (Some i) "bot" "user" 0 true (mkSessionConfigs minutes carry).

Definition db_session : DB :=
  mkDB [] [] [] [] [] [] [] [] [session_doc 0%N 60 true] 1%N 0%Z.

Definition db_session_twice : DB :=
  mkDB [] [] [] [] [] [] [] [] [session_doc 0%N 60 true; session_doc 1%N 30 false] 2%N 0%Z.

(** A small set of NLU data: two examples, two synonyms, two lookup tables
    with three entries in all, one regex feature. *)
Definition nlu_small : TrainingData RegexFeature :=
  mkTrainingData
    [mkMessage "hello" "greet" None;
     mkMessage "I am in Delhi" "inform" (Some [mkEntityDict 8 13 "Delhi" "city"])]
    {[ "NYC" := "New York"; "Big Apple" := "New York" ]}
    [mkLookupTable "city" ["Delhi"; "Mumbai"]; mkLookupTable "fruit" ["mango"]]
    [mkRegexFeature "zipcode" "[0-9]{6}"].

(** The same data with the lists in another order. *)
Definition nlu_small_reordered : TrainingData RegexFeature :=
  mkTrainingData
    [mkMessage "I am in Delhi" "inform" (Some [mkEntityDict 8 13 "Delhi" "city"]);
     mkMessage "hello" "greet" None]
    {[ "Big Apple" := "New York"; "NYC" := "New York" ]}
    [mkLookupTable "fruit" ["mango"]; mkLookupTable "city" ["Delhi"; "Mumbai"]]
    [mkRegexFeature "zipcode" "[0-9]{6}"].

(** A store in which the bot has one soft-deleted training example. *)
Definition db_removed_example : DB :=
  mkDB [mkDocument (Some 0%N) "bot" "user" 0 false (mkTrainingExamples "greet" "hi" [])]
       [] [] [] [] [] [] [] [] 1%N 0%Z.

(** The payloads of the channel examples. *)
Definition text_payload : dict :=
  {[ "type" := JStr "text"; "text" := JObj {[ "body" := JStr "hello" ]} ]}.

Definition voice_payload : dict :=
  {[ "type" := JStr "voice"; "voice" := JObj {[ "id" := JStr "abc" ]} ]}.

Definition unknown_payload : dict := {[ "type" := JStr "unknown_kind" ]}.

(** A button reply that also carries a [text] field. *)
Definition button_payload : dict :=
  {[ "type" := JStr "button"; "button" := JObj {[ "text" := JStr "Yes" ]};
     "text" := JObj {[ "body" := JStr "not this" ]} ]}.

(** What every message of a webhook delivery carries besides: its sender
    and its id. *)
Definition envelope : dict :=
  {[ "from" := JStr "919876543210"; "id" := JStr "wamid.1" ]}.

Definition no_world : World := mkWorld [] [] [].

(** Stand-ins for what lies outside the sources, for the examples only:
    [str()] on strings, and a signature check that accepts one signature. *)
Definition str_of_string (v : json) : string :=
  match v with JStr s => s | _ => "" end.

Definition accept_good (secret payload : json) (signature : string) : bool :=
  String.eqb signature "sha1=good".

Definition config_meta : dict := {[ "app_secret" := JStr "secret" ]}.

Definition config_other_provider : dict :=
  {[ "bsp_type" := JStr "360dialog"; "app_secret" := JStr "secret" ]}.

Definition webhook_body : json :=
  JObj {[ "object" := JStr "whatsapp_business_account" ]}.

Definition request_good : Request :=
  mkRequest webhook_body {[ "X-Hub-Signature" := "sha1=good" ]}.

Definition request_bad : Request :=
  mkRequest webhook_body {[ "X-Hub-Signature" := "sha1=bad" ]}.

(** An audio message, with its media under [audio]. *)
Definition audio_payload : dict :=
  {[ "type" := JStr "audio"; "audio" := JObj {[ "id" := JStr "abc" ]} ]}.

(** A store in which the bot has a soft-deleted slot "city". *)
Definition db_removed_slot : DB :=
  mkDB [] [] [] [] [] [] []
       [mkDocument (Some 0%N) "bot" "user" 0 false (new_slot "city" "text")]
       [] 1%N 0%Z.

(** Stand-ins for the markdown reader, for the examples only: the example
    "I am in [Delhi](city)" has one entity, and its text without the markup
    is "I am in Delhi". *)
Definition find_city (example : string) : list EntityDict :=
  if String.eqb example "I am in [Delhi](city)"
  then [mkEntityDict 8 13 "Delhi" "city"]
  else [].

Definition strip_city (example : string) : string :=
  if String.eqb example "I am in [Delhi](city)" then "I am in Delhi" else example.

(** A story step of the engine with a slot event between its two turns,
    and a step without any user or action event. *)
Definition step_greet : StoryStep :=
  mkStoryStep "greet path" [UserUttered "greet"; OtherEvent; ActionExecuted "utter_greet"].

Definition step_without_turns : StoryStep := mkStoryStep "empty path" [OtherEvent].

(** A float slot with [min_value=0] and [max_value=0], one with only
    [max_value=5], and a categorical slot with two categories. *)
Definition slot_float_zero : Document SlotsF :=
  fresh (mkSlots "rating" "float" (PyNum (PyInt 0)) None true None []
           (Some (PyInt 0)) (Some (PyInt 0))).

Definition slot_float_max_only : Document SlotsF :=
  fresh (mkSlots "rating" "float" (PyNum (PyInt 0)) None true None []
           (Some (PyInt 5)) None).

Definition slot_categorical_two : Document SlotsF :=
  fresh (mkSlots "mood" "categorical" PyNone None true None ["happy"; "sad"] None None).

(** A store with a session configuration of another bot. *)
Definition db_session_other_bot : DB :=
  mkDB [] [] [] [] [] [] [] []
       [mkDocument (Some 0%N) "other" "user" 0 true (mkSessionConfigs 5 false)] 1%N 0%Z.

(** Stand-ins for what lies outside the sources, for the examples only: a
    client that records how it was built, and a converter that returns the
    data it is given. *)
Definition client_of (provider : json) (access_token : option json)
    (from_phone_number_id : json) : result (json * option json * json) :=
  Ok (provider, access_token, from_phone_number_id).

Definition convert_data (messagetype : string) (message : option json) : result json :=
  match message with
  | Some data => Ok data
  | None => Raise (KeyError "data")
  end.

(** A change that reports statuses only, and a change with messages. *)
Definition change_statuses : Change :=
  mkChange (Some (mkValue (Some {[ "phone_number_id" := JStr "1055" ]}) None)).

Definition change_hello : Change :=
  mkChange (Some (mkValue (Some {[ "display_phone_number" := JStr "15550001" ]})
                    (Some [text_payload ∪ envelope]))).

Definition change_hello_voice_hello : Change :=
  mkChange (Some (mkValue None
                    (Some [text_payload ∪ envelope; voice_payload ∪ envelope;
                           text_payload ∪ envelope]))).

Definition payload_statuses : Payload :=
  mkPayload (Some [mkEntry (Some [change_statuses; mkChange None])]).

(** A reply without a type. *)
Definition custom_reply : json := JObj {[ "text" := JStr "hi" ]}.

End Inputs.

(** * Properties *)

Import DataObjects Inputs.

(** ** Validation of the documents *)

Section Validation.

(** The loop over the entities stops at the first span that differs from
    its value, and only there. *)
Lemma validate_entities_Ok text ents :
  Forall (fun ent => slice text (start ent) (end_ ent) = value ent) ents ->
  validate_entities text ents = Ok tt.
Proof.
  induction 1 as [|ent ents Hent _ IH]; simpl; [reflexivity|].
  rewrite Hent, String.eqb_refl. exact IH.
Qed.

Lemma validate_entities_Raise text ents :
  Exists (fun ent => slice text (start ent) (end_ ent) <> value ent) ents ->
  exists msg, validate_entities text ents = Raise (ValidationError msg).
Proof.
  induction ents as [|ent ents IH]; intros Hex.
  - inversion Hex.
  - simpl. destruct (String.eqb_spec (slice text (start ent) (end_ ent)) (value ent))
      as [Heq|Hne]; simpl.
    + apply IH. inversion Hex; subst; [contradiction|assumption].
    + eexists. reflexivity.
Qed.

(** C2. A training example with a non-empty list of entities is refused
    with a [ValidationError] as soon as one entity has
    [text[start:end] != value], and it is accepted when every entity has
    [text[start:end] == value]. *)
Theorem TrainingExamples_validate_spans (self : Document TrainingExamplesF) :
  entities (fields self) <> [] ->
  (Exists (fun ent => slice (text (fields self)) (start ent) (end_ ent) <> value ent)
          (entities (fields self)) ->
   exists msg, TrainingExamples_validate self = Raise (ValidationError msg))
  /\ (Forall (fun ent => slice (text (fields self)) (start ent) (end_ ent) = value ent)
             (entities (fields self)) ->
      TrainingExamples_validate self = Ok self).
Proof.
  intros Hne. unfold TrainingExamples_validate.
  destruct (entities (fields self)) as [|ent ents] eqn:E; [contradiction|].
  split; intros H.
  - destruct (validate_entities_Raise _ _ H) as [msg Hmsg].
    exists msg. rewrite Hmsg. reflexivity.
  - rewrite (validate_entities_Ok _ _ H). reflexivity.
Qed.

Lemma TrainingExamples_validate_spans_witness :
  TrainingExamples_validate example_in_delhi = Ok example_in_delhi
  /\ exists msg, TrainingExamples_validate example_off_by_one = Raise (ValidationError msg).
Proof.
  split.
  - apply (TrainingExamples_validate_spans example_in_delhi).
    + simpl. discriminate.
    + repeat constructor.
  - apply (TrainingExamples_validate_spans example_off_by_one).
    + simpl. discriminate.
    + constructor. vm_compute. discriminate.
Defined.

(** Negative offsets count from the end of the text, as Python slices do. *)
Example slice_negative : slice "I am in Delhi" (-5) 13 = "Delhi".
Proof. reflexivity. Qed.

(** Without entities the same method checks the text and the intent. *)
Lemma TrainingExamples_validate_no_entities (self : Document TrainingExamplesF) :
  entities (fields self) = [] ->
  TrainingExamples_validate self =
    if check_empty_string (text (fields self)) || check_empty_string (intent (fields self))
    then Raise (ValidationError
                  "Training Example name and text cannot be empty or blank spaces")
    else Ok self.
Proof. intros E. unfold TrainingExamples_validate. rewrite E. reflexivity. Qed.

End Validation.

(** ** Stories *)

Section StoriesValidation.
Import Processor.

(** What [__extract_story_step] stores holds embedded documents only. *)
Lemma extract_story_events_docs (evs : list StoryEvents) :
  Forall (fun o => isinstance_UserUttered o = false /\ isinstance_ActionExecuted o = false)
         (map StoryEventsObj evs).
Proof. induction evs; simpl; constructor; auto. Qed.

(** On the documents that the repository builds, neither test of
    [Stories.validate] can fire: a story with a name and at least one event
    is accepted, whatever its first and last events are. *)
Lemma Stories_validate_stored (self : Document StoriesF) (evs : list StoryEvents) :
  check_empty_string (block_name (fields self)) = false ->
  events (fields self) = map StoryEventsObj evs ->
  evs <> [] ->
  Stories_validate self = Ok self.
Proof.
  intros Hname Hev Hne. unfold Stories_validate. rewrite Hname, Hev.
  destruct evs as [|e evs]; [contradiction|].
  destruct (last (map StoryEventsObj (e :: evs))) as [final|] eqn:El.
  - assert (Hin : final ∈ map StoryEventsObj (e :: evs)).
    { apply last_Some in El as [l' ->]. set_solver. }
    apply list_elem_of_fmap in Hin as [e' [-> _]]. reflexivity.
  - apply last_None in El. discriminate El.
Qed.

(** C3. The code does not enforce "begins with an intent, ends with an
    action": a stored story that begins with an action and ends with a user
    event passes [Stories.validate]. *)
Theorem Stories_validate_accepts_action_first :
  Stories_validate story_action_first = Ok story_action_first.
Proof. reflexivity. Qed.

(** The well-formed story passes too, and the same path written with the
    events of the engine is refused under the message for a bad start: the
    two tests read the opposite of their messages. *)
Example Stories_validate_accepts_intent_first :
  Stories_validate story_intent_first = Ok story_intent_first.
Proof. reflexivity. Qed.

Example Stories_validate_refuses_engine_events :
  Stories_validate story_of_engine_events
  = Raise (ValidationError "Stories must start with intent").
Proof. reflexivity. Qed.

End StoriesValidation.

(** ** Slots *)

Section SlotsValidation.

(** C8. A float slot whose [min_value] is above its [max_value] passes
    [Slots.validate] unchanged: the comparison is the wrong way round and the
    error it prepares is never raised. *)
Theorem Slots_validate_accepts_min_above_max :
  Slots_validate slot_min_above_max = Ok slot_min_above_max.
Proof. reflexivity. Qed.

(** Whatever the bounds of a float slot are, [validate] returns. *)
Lemma Slots_validate_float_bounds (self : Document SlotsF) (lo hi : number) :
  check_empty_string (slot_name (fields self)) = false ->
  type (fields self) = FloatSlot_type_name ->
  min_value (fields self) = Some lo ->
  max_value (fields self) = Some hi ->
  is_ok (Slots_validate self) = true.
Proof.
  intros Hname Hty Hlo Hhi. unfold Slots_validate.
  rewrite Hname, Hty. simpl.
  destruct (not_number (min_value (fields self)) && not_number (max_value (fields self)));
    simpl; rewrite ?Hlo, ?Hhi; reflexivity.
Qed.

(** A float slot that sets neither bound gets [0.0] and [1.0]. *)
Lemma Slots_validate_float_defaults (self : Document SlotsF) :
  check_empty_string (slot_name (fields self)) = false ->
  type (fields self) = FloatSlot_type_name ->
  min_value (fields self) = None ->
  max_value (fields self) = None ->
  exists self',
    Slots_validate self = Ok self'
    /\ min_value (fields self') = Some (PyFloat 0)
    /\ max_value (fields self') = Some (PyFloat 1)
    /\ slot_name (fields self') = slot_name (fields self)
    /\ values (fields self') = values (fields self).
Proof.
  intros Hname Hty Hlo Hhi. unfold Slots_validate.
  rewrite Hname, Hty, Hlo, Hhi. simpl. eexists. split; [reflexivity|]. simpl. auto.
Qed.

(** A categorical slot without categories is refused. *)
Lemma Slots_validate_categorical_empty (self : Document SlotsF) :
  check_empty_string (slot_name (fields self)) = false ->
  type (fields self) = CategoricalSlot_type_name ->
  values (fields self) = [] ->
  Slots_validate self
  = Raise (ValidationError "CategoricalSlot must have list of categories in values field").
Proof.
  intros Hname Hty Hv. unfold Slots_validate. rewrite Hname, Hty, Hv. reflexivity.
Qed.

Example Slots_validate_float_unset :
  exists self', Slots_validate slot_float_unset = Ok self'
    /\ min_value (fields self') = Some (PyFloat 0)
    /\ max_value (fields self') = Some (PyFloat 1).
Proof. eexists. split; [reflexivity|]. split; reflexivity. Qed.

Example Slots_validate_categorical_no_values :
  Slots_validate slot_categorical_empty
  = Raise (ValidationError "CategoricalSlot must have list of categories in values field").
Proof. reflexivity. Qed.

(** A blank name is refused first, with a [ValueError]. *)
Lemma Slots_validate_blank_name (self : Document SlotsF) :
  check_empty_string (slot_name (fields self)) = true ->
  Slots_validate self
  = Raise (ValueError "Slot name and type cannot be empty or blank spaces").
Proof. intros H. unfold Slots_validate. rewrite H. reflexivity. Qed.

End SlotsValidation.

(** ** The store *)

Section StoreFacts.
Import Mongo.

#[export] Instance TrainingExamples_lawful : Lawful TrainingExamples.
Proof. split; intros; reflexivity. Qed.
#[export] Instance EntitySynonyms_lawful : Lawful EntitySynonyms.
Proof. split; intros; reflexivity. Qed.
#[export] Instance LookupTables_lawful : Lawful LookupTables.
Proof. split; intros; reflexivity. Qed.
#[export] Instance RegexFeatures_lawful : Lawful RegexFeatures.
Proof. split; intros; reflexivity. Qed.
#[export] Instance Intents_lawful : Lawful Intents.
Proof. split; intros; reflexivity. Qed.
#[export] Instance Entities_lawful : Lawful Entities.
Proof. split; intros; reflexivity. Qed.
#[export] Instance Actions_lawful : Lawful Actions.
Proof. split; intros; reflexivity. Qed.
#[export] Instance Slots_lawful : Lawful Slots.
Proof. split; intros; reflexivity. Qed.
#[export] Instance SessionConfigs_lawful : Lawful SessionConfigs.
Proof. split; intros; reflexivity. Qed.

#[export] Instance TrainingExamples_status : SoftDeletable TrainingExamples.
Proof. reflexivity. Qed.
#[export] Instance EntitySynonyms_status : SoftDeletable EntitySynonyms.
Proof. reflexivity. Qed.
#[export] Instance LookupTables_status : SoftDeletable LookupTables.
Proof. reflexivity. Qed.
#[export] Instance RegexFeatures_status : SoftDeletable RegexFeatures.
Proof. reflexivity. Qed.
#[export] Instance Intents_status : SoftDeletable Intents.
Proof. reflexivity. Qed.
#[export] Instance Entities_status : SoftDeletable Entities.
Proof. reflexivity. Qed.
#[export] Instance Actions_status : SoftDeletable Actions.
Proof. reflexivity. Qed.
#[export] Instance Slots_status : SoftDeletable Slots.
Proof. reflexivity. Qed.

Context {F : Type}.
Implicit Types (l : list (Document F)) (d : Document F) (i : ObjectId).

Lemma has_pk_true i d : has_pk i d = true <-> pk d = Some i.
Proof.
  unfold has_pk. destruct (pk d) as [j|]; [|split; discriminate].
  rewrite N.eqb_eq. split; congruence.
Qed.

Lemma has_pk_false i d : has_pk i d = false <-> pk d <> Some i.
Proof.
  rewrite <- has_pk_true. destruct (has_pk i d); split; congruence.
Qed.

(** A key that no document carries selects nothing. *)
Lemma filter_has_pk_absent i l :
  (forall d, d ∈ l -> pk d <> Some i) -> List.filter (has_pk i) l = [].
Proof.
  induction l as [|d l IH]; intros Habs; simpl; [reflexivity|].
  assert (Hd : has_pk i d = false) by (apply has_pk_false, Habs; set_solver).
  rewrite Hd. apply IH. intros d' Hin. apply Habs. set_solver.
Qed.

(** Under the unique index a key selects the one document that carries it. *)
Lemma filter_has_pk_unique i l d :
  NoDup (map pk l) -> d ∈ l -> pk d = Some i -> List.filter (has_pk i) l = [d].
Proof.
  induction l as [|d' l IH]; intros Hnd Hin Hpk; [set_solver|].
  simpl in Hnd. apply NoDup_cons in Hnd as [Hnotin Hnd].
  apply elem_of_cons in Hin as [->|Hin]; simpl.
  - rewrite (proj2 (has_pk_true i d') Hpk). f_equal.
    apply filter_has_pk_absent. intros d Hd Hpkd. apply Hnotin.
    rewrite Hpk, <- Hpkd. apply list_elem_of_fmap. eauto.
  - assert (Hd' : has_pk i d' = false).
    { apply has_pk_false. intros Hpk'. apply Hnotin.
      rewrite Hpk', <- Hpk. apply list_elem_of_fmap. eauto. }
    rewrite Hd'. apply IH; assumption.
Qed.

Lemma soft_delete_pk i l : map pk (soft_delete i l) = map pk l.
Proof.
  unfold soft_delete. rewrite map_map. apply map_ext.
  intros d. destruct (has_pk i d); reflexivity.
Qed.


Lemma soft_delete_elem i l d :
  d ∈ l -> pk d = Some i ->
  mkDocument (pk d) (bot d) (user d) (timestamp d) false (fields d) ∈ soft_delete i l.
Proof.
  intros Hin Hpk. unfold soft_delete. apply list_elem_of_fmap. exists d.
  rewrite (proj2 (has_pk_true i d) Hpk). auto.
Qed.


(** The queries without a [status] filter still see it. *)
Lemma filter_soft_delete_blind i l (q : Document F -> bool) :
  (forall d s, q (mkDocument (pk d) (bot d) (user d) (timestamp d) s (fields d)) = q d) ->
  List.filter q (soft_delete i l)
  = soft_delete i (List.filter q l).
Proof.
  intros Hq. induction l as [|d l IH]; simpl; [reflexivity|].
  destruct (has_pk i d) eqn:Ei.
  - rewrite Hq. destruct (q d); simpl; rewrite ?Ei, IH; reflexivity.
  - destruct (q d); simpl; rewrite ?Ei, IH; reflexivity.
Qed.

End StoreFacts.

(** ** [remove_document] *)

Section RemoveDocument.
Import Mongo Processor.

Context {F : Type} (document : DocumentClass F)
        `{!Lawful document, !SoftDeletable document}.

Lemma update_status_soft_delete (doc : Document F) (id : ObjectId) (db : DB) :
  pk doc = Some id ->
  update_status document doc false db
  = (Ok tt, set_collection document (soft_delete id (collection document db)) db).
Proof.
  intros Hpk. unfold update_status, soft_delete.
  rewrite soft_deletable, Hpk. reflexivity.
Qed.

Lemma remove_document_found (db : DB) (id : ObjectId) (d : Document F) :
  NoDup (map pk (collection document db)) ->
  d ∈ collection document db -> pk d = Some id ->
  remove_document document id db
  = (Ok tt, set_collection document (soft_delete id (collection document db)) db).
Proof.
  intros Hnd Hin Hpk.
  unfold remove_document, try_except, mbind, M_bind, get.
  rewrite (filter_has_pk_unique id _ d Hnd Hin Hpk).
  rewrite (update_status_soft_delete d id db Hpk). reflexivity.
Qed.






End RemoveDocument.

(** The loaders after a removal. *)
Section LoadersAfterRemove.
Import Mongo Processor.








End LoadersAfterRemove.

Lemma well_stored_db_greet :
  Mongo.well_stored (Mongo.next_oid db_greet) (Mongo.collection Mongo.Intents db_greet).
Proof.
  split.
  - simpl. apply NoDup_singleton.
  - repeat constructor. exists 0%N. split; [reflexivity|]. reflexivity.
Qed.


(** The removed intent is loaded before the removal and not after it. *)
Example prepare_training_intents_after_remove :
  fst (Processor.prepare_training_intents "bot" db_greet) = Ok ["greet"]
  /\ fst (Processor.prepare_training_intents "bot"
            (snd (Processor.remove_document Mongo.Intents 0%N db_greet))) = Ok [].
Proof. split; reflexivity. Qed.


(** The other collections are not touched: here for the four of the NLU
    data when an intent is removed. *)
Lemma remove_document_Intents_frame (db : Mongo.DB) (id : ObjectId) :
  let db' := snd (Processor.remove_document Mongo.Intents id db) in
  Mongo.TrainingExamples_docs db' = Mongo.TrainingExamples_docs db
  /\ Mongo.EntitySynonyms_docs db' = Mongo.EntitySynonyms_docs db
  /\ Mongo.LookupTables_docs db' = Mongo.LookupTables_docs db
  /\ Mongo.RegexFeatures_docs db' = Mongo.RegexFeatures_docs db
  /\ Mongo.next_oid db' = Mongo.next_oid db.
Proof.
  unfold Processor.remove_document, Mongo.try_except, mbind, Mongo.M_bind, Mongo.get.
  destruct (List.filter (Mongo.has_pk id) (Mongo.collection Mongo.Intents db))
    as [|d [|d' l]]; simpl; auto.
Qed.

(** ** The existence check and the listings *)

Section KeyedRecords.
Import Mongo Processor.

Context {F : Type}.

Lemma prepare_document_list_keyed (docs : list (Document F)) (field : F -> string) (db : DB) :
  Forall (fun d => exists i, pk d = Some i) docs ->
  prepare_document_list docs field db = (Ok (keyed_records field docs), db).
Proof.
  induction 1 as [|d docs [i Hi] _ IH]; simpl; [reflexivity|].
  rewrite Hi. unfold mbind, M_bind. rewrite IH. reflexivity.
Qed.

Lemma keyed_records_app (field : F -> string) (l1 l2 : list (Document F)) :
  keyed_records field (l1 ++ l2) = keyed_records field l1 ++ keyed_records field l2.
Proof.
  induction l1 as [|d l1 IH]; simpl; [reflexivity|].
  destruct (pk d); simpl; rewrite IH; reflexivity.
Qed.

Lemma keyed_records_elem (field : F -> string) (l : list (Document F)) d i :
  d ∈ l -> pk d = Some i -> (i, field (fields d)) ∈ keyed_records field l.
Proof.
  induction l as [|d' l IH]; intros Hin Hpk; [set_solver|].
  apply elem_of_cons in Hin as [<-|Hin]; simpl.
  - rewrite Hpk. set_solver.
  - destruct (pk d'); [apply elem_of_cons; right|]; apply IH; assumption.
Qed.

Lemma keyed_records_none (field : F -> string) (l : list (Document F)) (v : string) :
  (forall d, d ∈ l -> field (fields d) <> v) ->
  List.filter (fun r => String.eqb (snd r) v) (keyed_records field l) = [].
Proof.
  induction l as [|d l IH]; intros Hne; simpl; [reflexivity|].
  assert (IH' : List.filter (fun r => String.eqb (snd r) v) (keyed_records field l) = []).
  { apply IH. intros d' Hd'. apply Hne. set_solver. }
  destruct (pk d); [|exact IH']. simpl.
  destruct (String.eqb_spec (field (fields d)) v) as [Heq|_]; [|exact IH'].
  exfalso. apply (Hne d); [set_solver|assumption].
Qed.

Lemma Forall_keyed_filter (q : Document F -> bool) (next : N) (l : list (Document F)) :
  well_stored next l -> Forall (fun d => exists i, pk d = Some i) (List.filter q l).
Proof.
  intros [_ Hk]. apply List.Forall_forall. intros d Hd.
  apply filter_In in Hd as [Hd _].
  rewrite List.Forall_forall in Hk. destruct (Hk d Hd) as [i [Hi _]]. eauto.
Qed.

End KeyedRecords.

Section ExistenceAndListing.
Import Mongo Processor.

Context {F : Type} (document : DocumentClass F)
        `{!Lawful document, !SoftDeletable document}.

Lemma isExist_found (db : DB) (b : string) (q : F -> bool) (msg : string) (d : Document F) :
  d ∈ collection document db -> bot d = b -> q (fields d) = true ->
  check_empty_string msg = false ->
  isExist document b q msg true db = (Raise (Exception_ msg), db).
Proof.
  intros Hin Hb Hq Hmsg. unfold isExist, mbind, M_bind, objects.
  destruct (List.filter (fun d0 => by_bot b d0 && q (fields d0)) (collection document db))
    as [|d0 l] eqn:E.
  - exfalso. assert (Hd : In d (List.filter (fun d0 => by_bot b d0 && q (fields d0))
                                  (collection document db))).
    { apply filter_In. split; [apply list_elem_of_In; assumption|].
      unfold by_bot. rewrite Hb, String.eqb_refl, Hq. reflexivity. }
    rewrite E in Hd. destruct Hd.
  - simpl. rewrite Hmsg. reflexivity.
Qed.

Lemma isExist_absent (db : DB) (b : string) (q : F -> bool) (msg : string) (r : bool) :
  (forall d, d ∈ collection document db -> bot d = b -> q (fields d) = false) ->
  isExist document b q msg r db = (Ok (if r then None else Some false), db).
Proof.
  intros Habs. unfold isExist, mbind, M_bind, objects.
  destruct (List.filter (fun d0 => by_bot b d0 && q (fields d0)) (collection document db))
    as [|d0 l] eqn:E.
  - simpl. destruct r; reflexivity.
  - exfalso. assert (Hd : In d0 (d0 :: l)) by (left; reflexivity).
    rewrite <- E in Hd. apply filter_In in Hd as [Hin Hq].
    apply andb_prop in Hq as [Hb Hq]. apply String.eqb_eq in Hb.
    rewrite (Habs d0) in Hq; [discriminate| apply list_elem_of_In; assumption | assumption].
Qed.

(** After the soft delete of [d], a listing that does not filter on
    [status] still shows it, and an existence check still finds it. *)
Lemma listing_after_remove (db : DB) (id : ObjectId) (d : Document F)
    (q : Document F -> bool) (field : F -> string) :
  well_stored (next_oid db) (collection document db) ->
  d ∈ collection document db -> pk d = Some id ->
  (forall d s, q (mkDocument (pk d) (bot d) (user d) (timestamp d) s (fields d)) = q d) ->
  q d = true ->
  let db' := snd (remove_document document id db) in
  exists l, (objects document q ≫= fun docs => prepare_document_list docs field) db'
            = (Ok l, db')
            /\ (id, field (fields d)) ∈ l.
Proof.
  intros Hws Hin Hpk Hblind Hq db'. subst db'.
  rewrite (remove_document_found document db id d (proj1 Hws) Hin Hpk). simpl.
  unfold mbind, M_bind, objects. rewrite collection_set.
  rewrite prepare_document_list_keyed.
  - eexists. split; [reflexivity|].
    rewrite (filter_soft_delete_blind id _ q Hblind).
    apply (keyed_records_elem field _
             (mkDocument (pk d) (bot d) (user d) (timestamp d) false (fields d)) id);
      [|assumption].
    apply soft_delete_elem; [|assumption].
    apply list_elem_of_In, filter_In. split; [apply list_elem_of_In|]; assumption.
  - apply (Forall_keyed_filter q (next_oid db)).
    destruct Hws as [Hnd Hk]. split.
    + rewrite soft_delete_pk. assumption.
    + unfold soft_delete. apply List.Forall_forall. intros x Hx.
      apply in_map_iff in Hx as [y [<- Hy]].
      rewrite List.Forall_forall in Hk. destruct (Hk y Hy) as [i Hi].
      exists i. destruct (has_pk id y); exact Hi.
Qed.

Lemma isExist_after_remove (db : DB) (id : ObjectId) (d : Document F)
    (q : F -> bool) (msg : string) :
  well_stored (next_oid db) (collection document db) ->
  d ∈ collection document db -> pk d = Some id ->
  q (fields d) = true -> check_empty_string msg = false ->
  let db' := snd (remove_document document id db) in
  isExist document (bot d) q msg true db' = (Raise (Exception_ msg), db').
Proof.
  intros Hws Hin Hpk Hq Hmsg db'. subst db'.
  rewrite (remove_document_found document db id d (proj1 Hws) Hin Hpk). simpl.
  apply (isExist_found _ _ _ _
           (mkDocument (pk d) (bot d) (user d) (timestamp d) false (fields d)));
    try assumption; try reflexivity.
  rewrite collection_set. apply soft_delete_elem; assumption.
Qed.

End ExistenceAndListing.

(** ** [add_intent] and [get_intents] *)

Section AddIntent.
Import Mongo Processor.

(** What a first [add_intent] does to the store. *)
Lemma add_intent_new (db : DB) (text b u : string) :
  check_empty_string text = false ->
  (forall d, d ∈ Intents_docs db -> bot d = b -> name (fields d) <> text) ->
  add_intent text b u db
  = (Ok tt,
     set_next_oid (N.succ (next_oid db))
       (set_collection Intents
          (Intents_docs db
           ++ [mkDocument (Some (next_oid db)) b u (utcnow db) true (mkName text)]) db)).
Proof.
  intros Hne Habs. unfold add_intent, mbind, M_bind.
  rewrite (isExist_absent Intents db b _ _ true).
  - unfold new_document, save, mbind, M_bind, lift_result. simpl.
    unfold Intents_validate. simpl. rewrite Hne. reflexivity.
  - intros d Hin Hb. apply String.eqb_neq. apply Habs; assumption.
Qed.

(** An intent of that name and bot, active or not, blocks [add_intent]. *)
Lemma add_intent_exists (db : DB) (text b u : string) (d : Document NameF) :
  d ∈ Intents_docs db -> bot d = b -> name (fields d) = text ->
  add_intent text b u db = (Raise (Exception_ "Intent already exist!"), db).
Proof.
  intros Hin Hb Hn. unfold add_intent, mbind, M_bind.
  rewrite (isExist_found Intents db b _ _ d Hin Hb); [reflexivity| |reflexivity].
  rewrite Hn. apply String.eqb_refl.
Qed.

(** C6. When the bot has no intent [text] yet, a first [add_intent] stores
    one; a second [add_intent] of the same name raises "Intent already
    exist!" and leaves the store as it is; and [get_intents] then lists
    exactly one record of that name.  In any store, an intent of that name
    makes [add_intent] raise and insert nothing. *)
Theorem add_intent_twice (db : DB) (text b u : string) :
  well_stored (next_oid db) (Intents_docs db) ->
  check_empty_string text = false ->
  (forall d, d ∈ Intents_docs db -> bot d = b -> name (fields d) <> text) ->
  let db1 := snd (add_intent text b u db) in
  fst (add_intent text b u db) = Ok tt
  /\ add_intent text b u db1 = (Raise (Exception_ "Intent already exist!"), db1)
  /\ (exists l, get_intents b db1 = (Ok l, db1)
                /\ List.filter (fun r => String.eqb (snd r) text) l = [(next_oid db, text)])
  /\ (forall db0 d, d ∈ Intents_docs db0 -> bot d = b -> name (fields d) = text ->
        add_intent text b u db0 = (Raise (Exception_ "Intent already exist!"), db0)).
Proof.
  intros Hws Hne Habs db1. subst db1.
  rewrite (add_intent_new db text b u Hne Habs). simpl.
  split; [reflexivity|]. split; [|split].
  - apply (add_intent_exists _ _ _ _
             (mkDocument (Some (next_oid db)) b u (utcnow db) true (mkName text)));
      [|reflexivity|reflexivity].
    simpl. apply elem_of_app. right. set_solver.
  - unfold get_intents, mbind, M_bind, objects. simpl.
    rewrite prepare_document_list_keyed.
    + eexists. split; [reflexivity|].
      rewrite List.filter_app, keyed_records_app, List.filter_app. simpl.
      unfold by_bot at 2. simpl. rewrite !String.eqb_refl. simpl.
      rewrite String.eqb_refl.
      rewrite keyed_records_none; [reflexivity|].
      intros d Hd. apply list_elem_of_In, filter_In in Hd as [Hd Hb].
      apply Habs; [apply list_elem_of_In; assumption|].
      apply String.eqb_eq. exact Hb.
    + apply List.Forall_forall. intros d Hd. apply filter_In in Hd as [Hd _].
      apply in_app_iff in Hd as [Hd|[<-|[]]]; [|simpl; eauto].
      destruct Hws as [_ Hk]. rewrite List.Forall_forall in Hk.
      destruct (Hk d Hd) as [i [Hi _]]. eauto.
  - intros db0 d. apply add_intent_exists.
Qed.

End AddIntent.

Lemma add_intent_twice_witness :
  fst (Processor.add_intent "greet" "bot" "user" Mongo.empty_db) = Ok tt
  /\ Processor.add_intent "greet" "bot" "user" db_greet
     = (Raise (Exception_ "Intent already exist!"), db_greet)
  /\ Processor.get_intents "bot" db_greet = (Ok [(0%N, "greet")], db_greet).
Proof.
  destruct (add_intent_twice Mongo.empty_db "greet" "bot" "user") as [H1 [H2 _]].
  - split; [apply NoDup_nil_2|constructor].
  - reflexivity.
  - intros d Hd. simpl in Hd. set_solver.
  - split; [exact H1|]. split; [exact H2|]. reflexivity.
Defined.

(** ** The [status] flag, the listings and the existence check *)

Section StatusIgnored.
Import Mongo Processor.

Variable find_entities_in_training_example : string -> list EntityDict.
Variable sub_ent_regex : string -> string.
Variable prepare_nlu_text : string -> list Entity -> string.

Lemma removed_inactive {F} (document : DocumentClass F)
    `{!Lawful document, !SoftDeletable document}
    (db : DB) (id : ObjectId) (d : Document F) :
  well_stored (next_oid db) (collection document db) ->
  d ∈ collection document db -> pk d = Some id ->
  mkDocument (pk d) (bot d) (user d) (timestamp d) false (fields d)
  ∈ collection document (snd (remove_document document id db)).
Proof.
  intros Hws Hin Hpk.
  rewrite (remove_document_found document db id d (proj1 Hws) Hin Hpk). simpl.
  rewrite collection_set. apply soft_delete_elem; assumption.
Qed.

(** C10. A document that [remove_document] has set to [status=False] is
    still listed by [get_intents], [get_entities], [get_actions] and
    [get_training_examples], and it still makes [add_intent], [add_entity],
    [add_action] and [add_training_example] raise their "already exist"
    error, the store being left as it is. *)
Theorem status_ignored_by_listing_and_existence (db : DB) (id : ObjectId) (u : string) :
  (forall d, well_stored (next_oid db) (Intents_docs db) ->
     d ∈ Intents_docs db -> pk d = Some id ->
     let db' := snd (remove_document Intents id db) in
     mkDocument (pk d) (bot d) (user d) (timestamp d) false (fields d) ∈ Intents_docs db'
     /\ (exists l, get_intents (bot d) db' = (Ok l, db') /\ (id, name (fields d)) ∈ l)
     /\ add_intent (name (fields d)) (bot d) u db'
        = (Raise (Exception_ "Intent already exist!"), db'))
  /\ (forall d, well_stored (next_oid db) (Entities_docs db) ->
     d ∈ Entities_docs db -> pk d = Some id ->
     let db' := snd (remove_document Entities id db) in
     mkDocument (pk d) (bot d) (user d) (timestamp d) false (fields d) ∈ Entities_docs db'
     /\ (exists l, get_entities (bot d) db' = (Ok l, db') /\ (id, name (fields d)) ∈ l)
     /\ add_entity (name (fields d)) (bot d) u db'
        = (Raise (Exception_ "Entity already exist!"), db'))
  /\ (forall d, well_stored (next_oid db) (Actions_docs db) ->
     d ∈ Actions_docs db -> pk d = Some id ->
     let db' := snd (remove_document Actions id db) in
     mkDocument (pk d) (bot d) (user d) (timestamp d) false (fields d) ∈ Actions_docs db'
     /\ (exists l, get_actions (bot d) db' = (Ok l, db') /\ (id, name (fields d)) ∈ l)
     /\ add_action (name (fields d)) (bot d) u db'
        = (Raise (Exception_ "Entity already exist!"), db'))
  /\ (forall d any_intent, well_stored (next_oid db) (TrainingExamples_docs db) ->
     d ∈ TrainingExamples_docs db -> pk d = Some id ->
     let db' := snd (remove_document TrainingExamples id db) in
     mkDocument (pk d) (bot d) (user d) (timestamp d) false (fields d)
     ∈ TrainingExamples_docs db'
     /\ (exists l, get_training_examples prepare_nlu_text (intent (fields d)) (bot d) db'
                   = (Ok l, db')
                   /\ (id, prepare_nlu_text (text (fields d)) (entities (fields d))) ∈ l)
     /\ add_training_example find_entities_in_training_example sub_ent_regex
          (text (fields d)) any_intent (bot d) u db'
        = (Raise (Exception_ "Training Example already exist!"), db')).
Proof.
  split; [|split; [|split]].
  - intros d Hws Hin Hpk db'. split; [|split].
    + exact (removed_inactive Intents db id d Hws Hin Hpk).
    + apply (listing_after_remove Intents db id d (by_bot (bot d)) name Hws Hin Hpk).
      * reflexivity.
      * apply String.eqb_refl.
    + unfold add_intent, mbind, M_bind. subst db'.
      rewrite (isExist_after_remove Intents db id d _ _ Hws Hin Hpk); [reflexivity| |reflexivity].
      apply String.eqb_refl.
  - intros d Hws Hin Hpk db'. split; [|split].
    + exact (removed_inactive Entities db id d Hws Hin Hpk).
    + apply (listing_after_remove Entities db id d (by_bot (bot d)) name Hws Hin Hpk).
      * reflexivity.
      * apply String.eqb_refl.
    + unfold add_entity, mbind, M_bind. subst db'.
      rewrite (isExist_after_remove Entities db id d _ _ Hws Hin Hpk); [reflexivity| |reflexivity].
      apply String.eqb_refl.
  - intros d Hws Hin Hpk db'. split; [|split].
    + exact (removed_inactive Actions db id d Hws Hin Hpk).
    + apply (listing_after_remove Actions db id d (by_bot (bot d)) name Hws Hin Hpk).
      * reflexivity.
      * apply String.eqb_refl.
    + unfold add_action, mbind, M_bind. subst db'.
      rewrite (isExist_after_remove Actions db id d _ _ Hws Hin Hpk); [reflexivity| |reflexivity].
      apply String.eqb_refl.
  - intros d any_intent Hws Hin Hpk db'. split; [|split].
    + exact (removed_inactive TrainingExamples db id d Hws Hin Hpk).
    + apply (listing_after_remove TrainingExamples db id d
               (fun x => by_bot (bot d) x && String.eqb (intent (fields x)) (intent (fields d)))
               (fun example => prepare_nlu_text (text example) (entities example))
               Hws Hin Hpk).
      * reflexivity.
      * unfold by_bot. rewrite !String.eqb_refl. reflexivity.
    + unfold add_training_example, mbind, M_bind. subst db'.
      rewrite (isExist_after_remove TrainingExamples db id d _ _ Hws Hin Hpk);
        [reflexivity| |reflexivity].
      apply String.eqb_refl.
Qed.

End StatusIgnored.

Lemma status_ignored_by_listing_and_existence_witness :
  Processor.get_intents "bot" db_greet_removed = (Ok [(0%N, "greet")], db_greet_removed)
  /\ Processor.add_intent "greet" "bot" "user" db_greet_removed
     = (Raise (Exception_ "Intent already exist!"), db_greet_removed).
Proof.
  destruct (status_ignored_by_listing_and_existence no_entities id plain_text
              db_greet 0%N "user") as [Hintents _].
  assert (Hin : greet_intent true ∈ Mongo.Intents_docs db_greet) by constructor.
  pose proof (Hintents (greet_intent true) well_stored_db_greet Hin eq_refl)
    as [_ [_ Hadd]].
  split; [reflexivity|exact Hadd].
Defined.

(** ** The session configuration *)

Section SessionConfiguration.
Import Mongo Processor.

(** Saving a session configuration stores one more document, whatever the
    store holds for the bot: [SessionConfigs] has no unique index that could
    raise [NotUniqueError]. *)
Lemma save_session_config_appends (db : DB) (c : SessionConfig) (b u : string) :
  save_session_config (Some c) b u db
  = (Ok tt,
     set_next_oid (N.succ (next_oid db))
       (set_collection SessionConfigs
          (SessionConfigs_docs db
           ++ [mkDocument (Some (next_oid db)) b u (utcnow db) true
                 (mkSessionConfigs (session_expiration_time c) (carry_over_slots c))])
          db)).
Proof. reflexivity. Qed.

(** C9. Saving a second session configuration for a bot that has one does
    not fail: the store then holds two, and loading the configuration of
    that bot raises. *)
Theorem save_session_config_duplicate :
  save_session_config (Some (mkSessionConfig 30 false)) "bot" "user" db_session
  = (Ok tt, db_session_twice)
  /\ fst (prepare_training_session_config "bot" db_session_twice)
     = Raise MultipleObjectsReturned.
Proof. split; reflexivity. Qed.

(** Loading falls back to the default of the engine when the bot has no
    configuration, and returns the stored one when there is exactly one. *)
Lemma prepare_training_session_config_default (db : DB) (b : string) :
  (forall d, d ∈ SessionConfigs_docs db -> bot d <> b) ->
  prepare_training_session_config b db = (Ok SessionConfig_default, db).
Proof.
  intros Habs.
  unfold prepare_training_session_config, fetch_session_config, try_except,
    mbind, M_bind, get.
  assert (E : List.filter (by_bot b) (collection SessionConfigs db) = []).
  { simpl. induction (SessionConfigs_docs db) as [|d l IH]; simpl; [reflexivity|].
    assert (Hd : by_bot b d = false).
    { apply String.eqb_neq, Habs. constructor. }
    rewrite Hd. apply IH. intros d' Hd'. apply Habs. constructor. assumption. }
  rewrite E. reflexivity.
Qed.

Example prepare_training_session_config_stored :
  prepare_training_session_config "bot" db_session
  = (Ok (mkSessionConfig 60 true), db_session).
Proof. reflexivity. Qed.

Example prepare_training_session_config_empty :
  prepare_training_session_config "bot" empty_db = (Ok (mkSessionConfig 0 true), empty_db).
Proof. reflexivity. Qed.

End SessionConfiguration.

(** ** Bulk inserts *)

Section BulkInsert.
Import Mongo Processor.

Context {F : Type} (document : DocumentClass F) `{!Lawful document}.

(** A bulk insert of new documents returns, appends them under fresh keys
    and advances the key generator. *)
Lemma insert_new (docs : list (Document F)) (db : DB) :
  Forall (fun d => pk d = None) docs ->
  fst (insert document docs db) = Ok tt
  /\ collection document (snd (insert document docs db))
     = collection document db ++ assign_keys (next_oid db) docs
  /\ next_oid (snd (insert document docs db)) = (next_oid db + N.of_nat (length docs))%N.
Proof.
  intros Hnew. revert db.
  induction Hnew as [|d docs Hd _ IH]; intros db.
  - simpl. rewrite app_nil_r, N.add_0_r. auto.
  - cbn [insert]. unfold mbind, M_bind, insert_one. rewrite Hd.
    match goal with |- context [insert document docs ?db1] =>
      destruct (IH db1) as [Hr [Hc Hn]]; set (db' := db1) in * end.
    split; [exact Hr|]. split.
    + rewrite Hc. subst db'.
      rewrite collection_set_next_oid, collection_set. simpl.
      rewrite <- app_assoc. reflexivity.
    + rewrite Hn. subst db'. simpl. lia.
Qed.

(** It leaves alone whatever does not depend on the collection and on the
    key generator. *)
Lemma insert_frame {X} (g : DB -> X) (docs : list (Document F)) (db : DB) :
  (forall l db0, g (set_collection document l db0) = g db0) ->
  (forall n db0, g (set_next_oid n db0) = g db0) ->
  g (snd (insert document docs db)) = g db.
Proof.
  intros Hc Hn. revert db. induction docs as [|d docs IH]; intros db; [reflexivity|].
  cbn [insert]. unfold mbind, M_bind, insert_one.
  destruct (pk d) as [i|].
  - destruct (existsb (has_pk i) (collection document db)); [reflexivity|].
    rewrite IH, Hc. reflexivity.
  - rewrite IH, Hn, Hc. reflexivity.
Qed.

Lemma assign_keys_fields (n : N) (docs : list (Document F)) :
  map fields (assign_keys n docs) = map fields docs.
Proof. revert n. induction docs as [|d docs IH]; intros n; simpl; [|rewrite IH]; reflexivity. Qed.

Lemma assign_keys_length (n : N) (docs : list (Document F)) :
  length (assign_keys n docs) = length docs.
Proof. revert n. induction docs as [|d docs IH]; intros n; simpl; [|rewrite IH]; reflexivity. Qed.

Lemma assign_keys_active (n : N) (docs : list (Document F)) (b : string) :
  Forall (fun d => bot d = b /\ status d = true) docs ->
  List.filter (by_bot_status b true) (assign_keys n docs) = assign_keys n docs.
Proof.
  intros H. revert n. induction H as [|d docs [Hb Hs] _ IH]; intros n; simpl; [reflexivity|].
  unfold by_bot_status at 1. simpl. rewrite Hb, Hs, String.eqb_refl. simpl.
  rewrite IH. reflexivity.
Qed.

(** Building the documents of a bulk insert reads the clock and nothing
    else. *)
Lemma mapM_new_document {A} (f : A -> F) (b u : string) (l : list A) (db : DB) :
  mapM (fun x => new_document b u (f x)) l db
  = (Ok (map (fun x => mkDocument None b u (utcnow db) true (f x)) l), db).
Proof.
  induction l as [|x l IH]; [reflexivity|].
  cbn [mapM]. unfold mbind, M_bind, mret, M_ret in *. simpl. rewrite IH. reflexivity.
Qed.

Lemma new_documents_new {A} (f : A -> F) (b u : string) (now : Z) (l : list A) :
  Forall (fun d => pk d = None) (map (fun x => mkDocument None b u now true (f x)) l)
  /\ Forall (fun d => bot d = b /\ status d = true)
            (map (fun x => mkDocument None b u now true (f x)) l).
Proof. induction l as [|x l [IH1 IH2]]; simpl; split; constructor; auto. Qed.

(** What a query with [status=True] for a bot returns once new documents
    of the bot were stored, when none of its documents was active before. *)
Lemma filter_after_insert {A} (f : A -> F) (b u : string) (now : Z) (n : N) (l : list A)
    (old : list (Document F)) :
  (forall d, d ∈ old -> by_bot_status b true d = false) ->
  map fields
    (List.filter (by_bot_status b true)
       (old ++ assign_keys n (map (fun x => mkDocument None b u now true (f x)) l)))
  = map f l.
Proof.
  intros Hold. rewrite List.filter_app.
  assert (E : List.filter (by_bot_status b true) old = []).
  { induction old as [|d old IH]; simpl; [reflexivity|].
    rewrite (Hold d) by constructor. apply IH. intros d' Hd'. apply Hold.
    constructor. assumption. }
  rewrite E. simpl.
  rewrite assign_keys_active by apply new_documents_new.
  rewrite assign_keys_fields, map_map. reflexivity.
Qed.

End BulkInsert.

(** ** Grouping *)

Section Grouping.
Import Mongo Processor.

Lemma push_group_entries (k v : string) (groups : list (string * list string)) :
  length (concat (map snd (push_group k v groups)))
  = S (length (concat (map snd groups))).
Proof.
  induction groups as [|[k' vs] groups IH]; simpl; [reflexivity|].
  destruct (String.eqb k' k); simpl.
  - rewrite !length_app. simpl. lia.
  - rewrite !length_app, IH. lia.
Qed.

Lemma push_group_keys (k v : string) (groups : list (string * list string)) (x : string) :
  In x (map fst (push_group k v groups)) <-> x = k \/ In x (map fst groups).
Proof.
  induction groups as [|[k' vs] groups IH]; simpl; [intuition congruence|].
  destruct (String.eqb_spec k' k) as [->|Hne]; simpl; [intuition congruence|].
  rewrite IH. tauto.
Qed.

Lemma push_group_NoDup (k v : string) (groups : list (string * list string)) :
  List.NoDup (map fst groups) -> List.NoDup (map fst (push_group k v groups)).
Proof.
  induction groups as [|[k' vs] groups IH]; simpl; intros Hnd.
  - constructor; [intros []|constructor].
  - inversion Hnd as [|? ? Hnotin Hnd']; subst.
    destruct (String.eqb_spec k' k) as [->|Hne]; simpl.
    + constructor; assumption.
    + constructor; [|apply IH; assumption].
      rewrite push_group_keys. intros [->|Hin]; [apply Hne; reflexivity|contradiction].
Qed.

(** Grouping keeps every row, once, and yields each name once. *)
Lemma aggregate_group_entries (rows : list (string * string)) :
  length (concat (map snd (aggregate_group rows))) = length rows.
Proof.
  unfold aggregate_group.
  assert (H : forall acc,
             length (concat (map snd
               (fold_left (fun groups kv => push_group (fst kv) (snd kv) groups) rows acc)))
             = length rows + length (concat (map snd acc))).
  { induction rows as [|[k v] rows IH]; intros acc; simpl; [reflexivity|].
    rewrite IH, push_group_entries. lia. }
  rewrite H. simpl. lia.
Qed.

Lemma aggregate_group_NoDup (rows : list (string * string)) :
  List.NoDup (map fst (aggregate_group rows)).
Proof.
  unfold aggregate_group.
  assert (H : forall acc, List.NoDup (map fst acc) ->
             List.NoDup (map fst
               (fold_left (fun groups kv => push_group (fst kv) (snd kv) groups) rows acc))).
  { induction rows as [|[k v] rows IH]; intros acc Hacc; simpl; [assumption|].
    apply IH, push_group_NoDup, Hacc. }
  apply H. constructor.
Qed.

(** Every name of the result is the name of a row, and conversely. *)
Lemma aggregate_group_keys (rows : list (string * string)) (x : string) :
  In x (map fst (aggregate_group rows)) <-> In x (map fst rows).
Proof.
  unfold aggregate_group.
  assert (H : forall acc,
             In x (map fst
               (fold_left (fun groups kv => push_group (fst kv) (snd kv) groups) rows acc))
             <-> In x (map fst rows) \/ In x (map fst acc)).
  { induction rows as [|[k v] rows IH]; intros acc; simpl; [tauto|].
    rewrite IH, push_group_keys. simpl. intuition congruence. }
  rewrite H. simpl. tauto.
Qed.

(** The dictionary rebuilt from one-entry maps, one per stored pair. *)
Lemma ChainMap_dict_pairs (l : list (string * string)) :
  ChainMap_dict (map (fun kv => {[ fst kv := snd kv ]}) l) = list_to_map l.
Proof.
  induction l as [|[k v] l IH]; simpl; [reflexivity|].
  rewrite IH. symmetry. apply insert_union_singleton_l.
Qed.

Lemma lookup_entries_Permutation (t1 t2 : list LookupTable) :
  t1 ≡ₚ t2 -> lookup_entries t1 = lookup_entries t2.
Proof.
  unfold lookup_entries. induction 1 as [|x l l' _ IH|x y l|l l' l'' _ IH1 _ IH2]; simpl.
  - reflexivity.
  - rewrite !length_app, IH. reflexivity.
  - rewrite !length_app. lia.
  - congruence.
Qed.

End Grouping.

(** ** [save_nlu] followed by [load_nlu] *)

Section NluRoundTrip.
Import Mongo Processor.

Lemma insert_ok {F} (document : DocumentClass F) `{!Lawful document}
    (docs : list (Document F)) (db : DB) :
  Forall (fun d => pk d = None) docs ->
  insert document docs db = (Ok tt, snd (insert document docs db)).
Proof.
  intros H. destruct (insert_new document docs db H) as [Hr _].
  destruct (insert document docs db) as [r db']. simpl in Hr. subst r. reflexivity.
Qed.

(** Each of the four savers is one bulk insert of new documents. *)
Lemma store_all {A F} (document : DocumentClass F) (f : A -> F) (b u : string)
    (l : list A) (db : DB) :
  (mapM (fun x => new_document b u (f x)) l ≫= insert document) db
  = insert document (map (fun x => mkDocument None b u (utcnow db) true (f x)) l) db.
Proof. unfold mbind, M_bind. rewrite mapM_new_document. reflexivity. Qed.

Lemma save_training_examples_insert (l : list Message) (b u : string) (db : DB) :
  save_training_examples l b u db
  = insert TrainingExamples
      (map (fun x => mkDocument None b u (utcnow db) true (stored_example x)) l) db.
Proof. destruct l; [reflexivity|]. apply (store_all TrainingExamples stored_example). Qed.

Lemma save_entity_synonyms_insert (m : gmap string string) (b u : string) (db : DB) :
  save_entity_synonyms m b u db
  = insert EntitySynonyms
      (map (fun x => mkDocument None b u (utcnow db) true (stored_synonym x))
           (map_to_list m)) db.
Proof.
  unfold save_entity_synonyms. destruct (decide (m = ∅)) as [->|_].
  - rewrite map_to_list_empty. reflexivity.
  - apply (store_all EntitySynonyms stored_synonym).
Qed.

Lemma save_lookup_tables_insert (l : list LookupTable) (b u : string) (db : DB) :
  save_lookup_tables l b u db
  = insert LookupTables
      (map (fun x => mkDocument None b u (utcnow db) true (stored_lookup x))
           (lookup_rows l)) db.
Proof. destruct l; [reflexivity|]. apply (store_all LookupTables stored_lookup). Qed.

Lemma save_regex_features_insert (l : list RegexFeature) (b u : string) (db : DB) :
  save_regex_features l b u db
  = insert RegexFeatures
      (map (fun x => mkDocument None b u (utcnow db) true (stored_regex x)) l) db.
Proof. destruct l; [reflexivity|]. apply (store_all RegexFeatures stored_regex). Qed.

(** The active documents of the bot after a bulk insert into a collection
    in which it had none. *)
Lemma insert_then_active {A F} (document : DocumentClass F) `{!Lawful document}
    (f : A -> F) (b u : string) (now : Z) (l : list A) (db : DB) :
  (forall d, d ∈ collection document db -> by_bot_status b true d = false) ->
  map fields
    (List.filter (by_bot_status b true)
       (collection document
          (snd (insert document
                  (map (fun x => mkDocument None b u now true (f x)) l) db))))
  = map f l.
Proof.
  intros Hold.
  destruct (insert_new document
              (map (fun x => mkDocument None b u now true (f x)) l) db) as [_ [Hc _]].
  - apply (new_documents_new f b u now l).
  - rewrite Hc. apply filter_after_insert. exact Hold.
Qed.

Lemma lookup_rows_length (tables : list LookupTable) :
  length (lookup_rows tables) = lookup_entries tables.
Proof.
  unfold lookup_rows, lookup_entries.
  induction tables as [|t tables IH]; simpl; [reflexivity|].
  rewrite !length_app, length_map, IH. reflexivity.
Qed.

End NluRoundTrip.

Section NluRoundTripLaw.
Import Mongo Processor.

Lemma map_fields {F B} (g : F -> B) (l : list (Document F)) :
  map (fun d => g (fields d)) l = map g (map fields l).
Proof. symmetry. apply map_map. Qed.

(** One saver of [save_nlu]: it returns; the bot's active documents of its
    collection are then the new ones, if the bot had none; and whatever
    does not depend on that collection and on the key generator is as it
    was. *)
Lemma saver_step {A F} (document : DocumentClass F) `{!Lawful document}
    (f : A -> F) (b u : string) (l : list A) (db : DB) :
  exists db1,
    insert document (map (fun x => mkDocument None b u (utcnow db) true (f x)) l) db
    = (Ok tt, db1)
    /\ ((forall d, d ∈ collection document db -> by_bot_status b true d = false) ->
        map fields (List.filter (by_bot_status b true) (collection document db1))
        = map f l)
    /\ (forall X (g : DB -> X),
          (forall l0 db0, g (set_collection document l0 db0) = g db0) ->
          (forall n db0, g (set_next_oid n db0) = g db0) ->
          g db1 = g db).
Proof.
  eexists. split; [apply (insert_ok document), new_documents_new|]. split.
  - apply insert_then_active. assumption.
  - intros X g Hc Hn. apply insert_frame; assumption.
Qed.

(** The store after [save_nlu], seen through the queries of [load_nlu]. *)
Lemma save_nlu_stored (db : DB) (nlu : TrainingData RegexFeature) (b u : string) :
  no_active_nlu b db ->
  exists db',
    save_nlu nlu b u db = (Ok tt, db')
    /\ map fields (List.filter (by_bot_status b true) (TrainingExamples_docs db'))
       = map stored_example (training_examples nlu)
    /\ map fields (List.filter (by_bot_status b true) (EntitySynonyms_docs db'))
       = map stored_synonym (map_to_list (entity_synonyms nlu))
    /\ map fields (List.filter (by_bot_status b true) (LookupTables_docs db'))
       = map stored_lookup (lookup_rows (lookup_tables nlu))
    /\ map fields (List.filter (by_bot_status b true) (RegexFeatures_docs db'))
       = map stored_regex (regex_features nlu).
Proof.
  intros (Hte & Hsyn & Hlt & Hrf).
  destruct (saver_step TrainingExamples stored_example b u (training_examples nlu) db)
    as (db1 & E1 & A1 & F1).
  destruct (saver_step EntitySynonyms stored_synonym b u
              (map_to_list (entity_synonyms nlu)) db1) as (db2 & E2 & A2 & F2).
  destruct (saver_step LookupTables stored_lookup b u
              (lookup_rows (lookup_tables nlu)) db2) as (db3 & E3 & A3 & F3).
  destruct (saver_step RegexFeatures stored_regex b u (regex_features nlu) db3)
    as (db4 & E4 & A4 & F4).
  exists db4. split.
  { unfold save_nlu, mbind, M_bind.
    rewrite save_training_examples_insert, E1.
    rewrite save_entity_synonyms_insert, E2.
    rewrite save_lookup_tables_insert, E3.
    rewrite save_regex_features_insert, E4. reflexivity. }
  split; [|split; [|split]].
  - rewrite (F4 _ TrainingExamples_docs), (F3 _ TrainingExamples_docs),
      (F2 _ TrainingExamples_docs) by reflexivity.
    apply A1, Hte.
  - rewrite (F4 _ EntitySynonyms_docs), (F3 _ EntitySynonyms_docs) by reflexivity.
    apply A2. simpl. rewrite (F1 _ EntitySynonyms_docs) by reflexivity. exact Hsyn.
  - rewrite (F4 _ LookupTables_docs) by reflexivity.
    apply A3. simpl.
    rewrite (F2 _ LookupTables_docs), (F1 _ LookupTables_docs) by reflexivity. exact Hlt.
  - apply A4. simpl.
    rewrite (F3 _ RegexFeatures_docs), (F2 _ RegexFeatures_docs),
      (F1 _ RegexFeatures_docs) by reflexivity.
    exact Hrf.
Qed.

Lemma fetched_stored_example (l : list Message) :
  map (fun f => mkMessage (text f) (intent f)
                  match entities f with
                  | [] => None
                  | ents => Some (prepare_entities ents)
                  end)
      (map stored_example l)
  = map fetched_example l.
Proof.
  rewrite map_map. apply map_ext. intros [t i [[|[s e v n] ents]|]]; try reflexivity.
  unfold fetched_example, stored_example. simpl. do 3 f_equal.
  induction ents as [|[s' e' v' n'] ents IH]; simpl; [reflexivity|].
  f_equal. exact IH.
Qed.

(** What [save_nlu] stored comes back from the four queries of [load_nlu]:
    for a bot without active NLU documents (a new bot, or one whose
    documents were all soft-deleted), they give as many training examples,
    synonym pairs, lookup entries and regex features as were saved: the
    examples and the regex features are those saved, up to their order; the
    synonym dict is the one saved; the lookup entries come back grouped
    under each name once; and saving the lists in any other order [nlu']
    gives the same. *)
Lemma save_nlu_prepare_training (db : DB) (nlu nlu' : TrainingData RegexFeature)
    (b u : string) :
  no_active_nlu b db ->
  training_examples nlu' ≡ₚ training_examples nlu ->
  entity_synonyms nlu' = entity_synonyms nlu ->
  lookup_tables nlu' ≡ₚ lookup_tables nlu ->
  regex_features nlu' ≡ₚ regex_features nlu ->
  exists db' examples synonyms lookups regexes,
    save_nlu nlu' b u db = (Ok tt, db')
    /\ prepare_training_examples b db' = (Ok examples, db')
    /\ prepare_training_synonyms b db' = (Ok synonyms, db')
    /\ prepare_training_lookup_tables b db' = (Ok lookups, db')
    /\ prepare_training_regex_features b db' = (Ok regexes, db')
    /\ length examples = length (training_examples nlu)
    /\ examples ≡ₚ map fetched_example (training_examples nlu)
    /\ synonyms = entity_synonyms nlu
    /\ size synonyms = size (entity_synonyms nlu)
    /\ lookup_entries lookups = lookup_entries (lookup_tables nlu)
    /\ List.NoDup (map lt_name lookups)
    /\ length regexes = length (regex_features nlu)
    /\ regexes
       ≡ₚ map (fun r => mkRegexFeatureFetched (rf_name r) (rf_pattern r))
            (regex_features nlu).
Proof.
  intros Hno Pte Esyn Plt Prf.
  destruct (save_nlu_stored db nlu' b u Hno) as (db' & Esave & Ste & Ssyn & Slt & Srf).
  exists db'. do 4 eexists. split; [exact Esave|].
  do 4 (split; [reflexivity|]).
  unfold objects. cbn [collection TrainingExamples EntitySynonyms LookupTables RegexFeatures fst].
  assert (Eex : map (fun trainingExample : Document TrainingExamplesF =>
                       mkMessage (text (fields trainingExample))
                         (intent (fields trainingExample))
                         match entities (fields trainingExample) with
                         | [] => None
                         | ents => Some (prepare_entities ents)
                         end)
                    (List.filter (by_bot_status b true) (TrainingExamples_docs db'))
                = map fetched_example (training_examples nlu')).
  { rewrite (map_fields (fun f => mkMessage (text f) (intent f)
                                    match entities f with
                                    | [] => None
                                    | ents => Some (prepare_entities ents)
                                    end)).
    rewrite Ste. apply fetched_stored_example. }
  assert (Esy : ChainMap_dict
                  (map (fun entitySynonym : Document EntitySynonymsF =>
                          {[ syn_value (fields entitySynonym)
                             := synonym (fields entitySynonym) ]})
                       (List.filter (by_bot_status b true) (EntitySynonyms_docs db')))
                = entity_synonyms nlu).
  { rewrite (map_fields (fun f => ({[ syn_value f := synonym f ]} : gmap string string))).
    rewrite Ssyn, map_map. simpl.
    rewrite ChainMap_dict_pairs, Esyn. apply list_to_map_to_list. }
  assert (Erows : map (fun d : Document LookupTablesF =>
                         (lookup_name (fields d), lookup_value (fields d)))
                      (List.filter (by_bot_status b true) (LookupTables_docs db'))
                  = lookup_rows (lookup_tables nlu')).
  { rewrite (map_fields (fun f => (lookup_name f, lookup_value f))).
    rewrite Slt, map_map. simpl. rewrite <- (map_id (lookup_rows _)) at 2.
    apply map_ext. intros [k v]. reflexivity. }
  assert (Erx : map (fun regex_feature : Document RegexFeaturesF =>
                       mkRegexFeatureFetched (regex_name (fields regex_feature))
                         (pattern (fields regex_feature)))
                    (List.filter (by_bot_status b true) (RegexFeatures_docs db'))
                = map (fun r => mkRegexFeatureFetched (rf_name r) (rf_pattern r))
                      (regex_features nlu')).
  { rewrite (map_fields (fun f => mkRegexFeatureFetched (regex_name f) (pattern f))).
    rewrite Srf, map_map. reflexivity. }
  rewrite Eex, Esy, Erows, Erx.
  repeat split.
  - rewrite length_map. apply Permutation_length. exact Pte.
  - apply Permutation_map. exact Pte.
  - unfold lookup_entries. rewrite map_map. simpl.
    rewrite aggregate_group_entries, lookup_rows_length.
    apply lookup_entries_Permutation. exact Plt.
  - rewrite map_map. simpl. apply aggregate_group_NoDup.
  - rewrite length_map. apply Permutation_length. exact Prf.
  - apply Permutation_map. exact Prf.
Qed.

End NluRoundTripLaw.

Lemma no_active_nlu_removed_example : Processor.no_active_nlu "bot" db_removed_example.
Proof.
  repeat split; intros d Hd; simpl in Hd.
  - apply list_elem_of_singleton in Hd as ->. reflexivity.
  - inversion Hd.
  - inversion Hd.
  - inversion Hd.
Qed.

Example save_nlu_prepare_training_small :
  exists db' examples synonyms lookups regexes,
    Processor.save_nlu nlu_small_reordered "bot" "user" db_removed_example = (Ok tt, db')
    /\ Processor.prepare_training_examples "bot" db' = (Ok examples, db')
    /\ Processor.prepare_training_synonyms "bot" db' = (Ok synonyms, db')
    /\ Processor.prepare_training_lookup_tables "bot" db' = (Ok lookups, db')
    /\ Processor.prepare_training_regex_features "bot" db' = (Ok regexes, db')
    /\ length examples = 2
    /\ size synonyms = 2
    /\ Processor.lookup_entries lookups = 3
    /\ length regexes = 1.
Proof.
  destruct (save_nlu_prepare_training db_removed_example nlu_small nlu_small_reordered
              "bot" "user")
    as (db' & ex & sy & lt & rx & Hs & H1 & H2 & H3 & H4 & Hn & _ & _ & Hm & Hk & _ & Hj & _).
  - exact no_active_nlu_removed_example.
  - apply perm_swap.
  - vm_compute. reflexivity.
  - apply perm_swap.
  - reflexivity.
  - exists db', ex, sy, lt, rx. repeat split; assumption.
Qed.

(** ** The store stays well stored *)

Section StoreInvariant.
Import Mongo Processor.

Context {F : Type} (document : DocumentClass F) `{!Lawful document}.

(** A soft delete keeps the keys as they are. *)
Lemma well_stored_soft_delete (next : N) (id : ObjectId) (l : list (Document F)) :
  well_stored next l -> well_stored next (soft_delete id l).
Proof.
  intros [Hnd Hk]. split.
  - rewrite soft_delete_pk. exact Hnd.
  - unfold soft_delete. apply List.Forall_forall. intros x Hx.
    apply in_map_iff in Hx as [y [<- Hy]].
    rewrite List.Forall_forall in Hk. destruct (Hk y Hy) as [i Hi].
    exists i. destruct (has_pk id y); exact Hi.
Qed.

(** Storing a new document keeps the collection well stored: its key is
    the next one of the generator, above every key handed out before. *)
Lemma well_stored_insert_one (d : Document F) (db : DB) :
  pk d = None ->
  well_stored (next_oid db) (collection document db) ->
  well_stored (next_oid (snd (insert_one document d db)))
              (collection document (snd (insert_one document d db))).
Proof.
  intros Hpk [Hnd Hk]. unfold insert_one. rewrite Hpk. simpl.
  rewrite collection_set_next_oid, collection_set.
  rewrite List.Forall_forall in Hk. split.
  - rewrite map_app. simpl. apply NoDup_app. split; [exact Hnd|]. split.
    + intros k Hin Hk'. apply list_elem_of_singleton in Hk'. subst k.
      apply list_elem_of_In, in_map_iff in Hin as [y [Hy Hin]].
      destruct (Hk y Hin) as [i [Hi Hlt]]. rewrite Hi in Hy.
      injection Hy as ->. lia.
    + apply NoDup_singleton.
  - apply List.Forall_forall. intros x Hx. apply in_app_iff in Hx as [Hx|[<-|[]]].
    + destruct (Hk x Hx) as [i [Hi Hlt]]. exists i. split; [exact Hi|lia].
    + exists (next_oid db). split; [reflexivity|lia].
Qed.

End StoreInvariant.

(** ** The WhatsApp channel: [Whatsapp.message] *)

Section MessageNormalization.
Import Whatsapp.

Variable str_ : json -> string.
Variable WHATSAPP : string.
Hypothesis str_string : forall s, str_ (JStr s) = s.

Abbreviation message_text := (Whatsapp.message_text str_).
Abbreviation message := (Whatsapp.message str_ WHATSAPP).

Lemma type_is_string (m : dict) (t k : string) :
  m !! "type" = Some (JStr t) -> type_is m k = String.eqb t k.
Proof. intros H. unfold type_is. rewrite H. reflexivity. Qed.

(** A plain text message yields its body. *)
Lemma message_text_plain (m body : dict) (t : json) :
  m !! "type" = Some (JStr "text") ->
  m !! "text" = Some (JObj body) ->
  body !! "body" = Some t ->
  message_text m = Ok (Some (t, m)).
Proof.
  intros Hty Htext Hbody. unfold Whatsapp.message_text.
  rewrite !(type_is_string m "text") by assumption. simpl.
  rewrite Htext. simpl. rewrite Hbody. reflexivity.
Qed.

(** A button reply yields the text of the button, and an interactive reply
    the id of the selected item, whether or not the payload also has a
    [text] field. *)
Lemma message_text_button (m button : dict) (t : json) :
  m !! "type" = Some (JStr "button") ->
  m !! "button" = Some (JObj button) ->
  button !! "text" = Some t ->
  message_text m = Ok (Some (t, m)).
Proof.
  intros Hty Hb Ht. unfold Whatsapp.message_text.
  rewrite !(type_is_string m "button") by assumption. simpl.
  rewrite Hb. simpl. rewrite Ht. reflexivity.
Qed.

Lemma message_text_interactive (m interactive reply : dict) (kind : string) (t : json) :
  m !! "type" = Some (JStr "interactive") ->
  m !! "interactive" = Some (JObj interactive) ->
  interactive !! "type" = Some (JStr kind) ->
  interactive !! kind = Some (JObj reply) ->
  reply !! "id" = Some t ->
  message_text m = Ok (Some (t, m)).
Proof.
  intros Hty Hi Hk Hr Ht. unfold Whatsapp.message_text.
  rewrite !(type_is_string m "interactive") by assumption. simpl.
  rewrite Hi. simpl. rewrite Hk. simpl. rewrite Hr. simpl. rewrite Ht. reflexivity.
Qed.

(** A media message of a kind other than [voice] yields the marker text
    for its kind and id. *)
Lemma message_text_media (m media : dict) (kind id : string) :
  In kind ["image"; "audio"; "document"; "video"] ->
  m !! "type" = Some (JStr kind) ->
  m !! kind = Some (JObj media) ->
  media !! "id" = Some (JStr id) ->
  message_text m = Ok (Some (JStr (multimedia_marker kind id), m)).
Proof.
  intros Hkind Hty Hm Hid. unfold Whatsapp.message_text.
  rewrite !(type_is_string m kind) by assumption. rewrite Hty.
  simpl in Hkind. destruct Hkind as [<-|[<-|[<-|[<-|[]]]]]; simpl;
    rewrite Hm; simpl; rewrite Hid; simpl; rewrite str_string; reflexivity.
Qed.

(** A [voice] message is renamed to [audio], and its media is then looked
    up under [audio]: with the media under [voice], that lookup raises. *)
Lemma message_text_voice (m : dict) :
  m !! "type" = Some (JStr "voice") ->
  m !! "audio" = None ->
  message_text m = Raise (KeyError "audio").
Proof.
  intros Hty Hno. unfold Whatsapp.message_text.
  rewrite !(type_is_string m "voice") by assumption. rewrite Hty. simpl.
  rewrite lookup_insert_ne by discriminate. rewrite Hno. reflexivity.
Qed.

(** Anything else is skipped: a type that is a string outside the
    recognized kinds, or no type at all. *)
Lemma message_text_unrecognized (m : dict) (t : string) :
  m !! "type" = Some (JStr t) ->
  ~ In t recognized_kinds ->
  message_text m = Ok None.
Proof.
  intros Hty Hno. unfold Whatsapp.message_text.
  rewrite !(type_is_string m t) by assumption. rewrite Hty.
  assert (Hne : forall k, In k recognized_kinds -> String.eqb t k = false).
  { intros k Hk. apply String.eqb_neq. intros ->. contradiction. }
  rewrite !Hne by (simpl; tauto).
  unfold media_kinds. simpl. rewrite !Hne by (simpl; tauto). reflexivity.
Qed.

Lemma message_text_no_type (m : dict) :
  m !! "type" = None -> message_text m = Ok None.
Proof.
  intros Hty. unfold Whatsapp.message_text, type_is. rewrite Hty. reflexivity.
Qed.

(** Once the dispatch has produced a text that is a string, the message is
    delivered when the merged payload has a sender and an id: the text
    without the white space at its ends, for the sender as a string.  A text
    that is true and not a string is refused by the engine after the read
    receipt was sent.  A skipped payload changes nothing and raises nothing. *)
Lemma message_delivers (m m' metadata : dict) (text : string) (sender msg_id : json)
    (bot : string) (w : World) :
  message_text m = Ok (Some (JStr text, m')) ->
  (metadata ∪ m') !! "from" = Some sender ->
  (metadata ∪ m') !! "id" = Some msg_id ->
  message m metadata bot w
  = (Ok tt,
     delivered w bot
       (mkUserMessage (JStr (strip text))
          match sender with JNull => "default" | _ => str_ sender end
          WHATSAPP (metadata ∪ m')) msg_id).
Proof.
  intros Ht Hfrom Hid. unfold Whatsapp.message. rewrite Ht. simpl.
  rewrite Hfrom. unfold handle_user_message. rewrite Hid.
  unfold UserMessage_init, truthy.
  destruct (String.eqb_spec text "") as [->|_]; reflexivity.
Qed.

Lemma message_refused (m m' metadata : dict) (text sender msg_id : json)
    (bot : string) (w : World) :
  message_text m = Ok (Some (text, m')) ->
  (metadata ∪ m') !! "from" = Some sender ->
  (metadata ∪ m') !! "id" = Some msg_id ->
  truthy text = true ->
  (forall s, text <> JStr s) ->
  message m metadata bot w = (Raise (AttributeError "strip"), read_receipt w msg_id).
Proof.
  intros Ht Hfrom Hid Htrue Hns. unfold Whatsapp.message. rewrite Ht. simpl.
  rewrite Hfrom. unfold handle_user_message. rewrite Hid.
  unfold UserMessage_init. rewrite Htrue.
  destruct text; try reflexivity. exfalso. exact (Hns s eq_refl).
Qed.

Lemma message_skips (m metadata : dict) (bot : string) (w : World) :
  message_text m = Ok None -> message m metadata bot w = (Ok tt, w).
Proof. intros Ht. unfold Whatsapp.message. rewrite Ht. reflexivity. Qed.

Lemma message_raises (m metadata : dict) (bot : string) (w : World) (e : exn) :
  message_text m = Raise e -> message m metadata bot w = (Raise e, w).
Proof. intros Ht. unfold Whatsapp.message. rewrite Ht. reflexivity. Qed.

End MessageNormalization.

(** C4. The voice payload of the specification, with the sender and the id
    that a webhook message carries, is not turned into the marker text for
    [audio]: the type is renamed, the media is looked up under the new name,
    and [Whatsapp.message] raises [KeyError('audio')] without delivering
    anything. *)
Theorem message_voice_raises (str_ : Whatsapp.json -> string) (WHATSAPP : string)
    (metadata : Whatsapp.dict) (bot : string) (w : Whatsapp.World) :
  Whatsapp.message str_ WHATSAPP (voice_payload ∪ envelope) metadata bot w
  = (Raise (KeyError "audio"), w).
Proof. apply message_raises, message_text_voice; reflexivity. Qed.

(** The other payloads of the specification, with sender and id. *)
Example message_text_hello :
  Whatsapp.message str_of_string "whatsapp" (text_payload ∪ envelope) ∅ "bot" no_world
  = (Ok tt,
     Whatsapp.mkWorld [Whatsapp.JStr "wamid.1"]
       [("bot", Whatsapp.mkUserMessage (Whatsapp.JStr "hello")
                  "919876543210" "whatsapp"
                  (∅ ∪ (text_payload ∪ envelope)))] []).
Proof. reflexivity. Qed.

Example message_unknown_kind (metadata : Whatsapp.dict) :
  Whatsapp.message str_of_string "whatsapp" unknown_payload metadata "bot" no_world
  = (Ok tt, no_world).
Proof. reflexivity. Qed.

Example message_button_with_text :
  Whatsapp.message_text str_of_string (button_payload ∪ envelope)
  = Ok (Some (Whatsapp.JStr "Yes", button_payload ∪ envelope)).
Proof. reflexivity. Qed.

(** Without the sender, a recognized payload is refused before delivery. *)
Example message_without_sender :
  Whatsapp.message str_of_string "whatsapp" text_payload ∅ "bot" no_world
  = (Raise (KeyError "from"), no_world).
Proof. reflexivity. Qed.

Example message_audio_marker :
  Whatsapp.message_text str_of_string (audio_payload ∪ envelope)
  = Ok (Some (Whatsapp.JStr (Whatsapp.multimedia_marker "audio" "abc"),
              audio_payload ∪ envelope)).
Proof. reflexivity. Qed.

(** ** The WhatsApp channel: [Whatsapp.handle_payload] *)

Section WebhookDispatch.
Import Whatsapp.

Variable validate_hub_signature : json -> json -> string -> bool.
Variable WHATSAPP : string.

Abbreviation handle_payload := (Whatsapp.handle_payload validate_hub_signature WHATSAPP).

(** C5, as the code has it.  For the provider [meta], which is also the
    provider when [bsp_type] is not configured, and with a configured
    [app_secret]: a request whose signature passes the check is acknowledged
    with "success" and its payload is scheduled on the event loop; a request
    whose signature fails the check is acknowledged with "not validated" and
    nothing is scheduled.  Either way no message was marked as read or
    handed to an agent when the call returns. *)
Theorem handle_payload_signature (config metadata : dict) (request : Request)
    (bot : string) (w : World) (app_secret : json) :
  default (JStr "meta") (config !! "bsp_type") = JStr "meta" ->
  config !! "app_secret" = Some app_secret ->
  let signature := default "" (headers request !! "X-Hub-Signature") in
  (validate_hub_signature app_secret (request_json request) signature = true ->
   handle_payload config request metadata bot w
   = (Ok "success",
      mkWorld (marked_as_read w) (handled w)
        (spawned w ++ [mkCallback (request_json request)
                         (callback_metadata WHATSAPP (JStr "meta") metadata) bot])))
  /\ (validate_hub_signature app_secret (request_json request) signature = false ->
      handle_payload config request metadata bot w = (Ok "not validated", w)).
Proof.
  intros Hprov Hsecret signature. unfold Whatsapp.handle_payload.
  rewrite Hprov, Hsecret. simpl. fold signature.
  split; intros Hv; rewrite Hv; reflexivity.
Qed.

(** For any other provider the signature is not looked at. *)
Lemma handle_payload_other_provider (config metadata : dict) (request : Request)
    (bot : string) (w : World) (provider : string) :
  config !! "bsp_type" = Some (JStr provider) ->
  provider <> "meta" ->
  handle_payload config request metadata bot w
  = (Ok "success",
     mkWorld (marked_as_read w) (handled w)
       (spawned w ++ [mkCallback (request_json request)
                        (callback_metadata WHATSAPP (JStr provider) metadata) bot])).
Proof.
  intros Hprov Hne. unfold Whatsapp.handle_payload. rewrite Hprov. simpl.
  apply String.eqb_neq in Hne. rewrite Hne. reflexivity.
Qed.

(** With the provider [meta] and no [app_secret], the call raises. *)
Lemma handle_payload_no_secret (config metadata : dict) (request : Request)
    (bot : string) (w : World) :
  default (JStr "meta") (config !! "bsp_type") = JStr "meta" ->
  config !! "app_secret" = None ->
  handle_payload config request metadata bot w = (Raise (KeyError "app_secret"), w).
Proof.
  intros Hprov Hsecret. unfold Whatsapp.handle_payload.
  rewrite Hprov, Hsecret. reflexivity.
Qed.

End WebhookDispatch.

Lemma handle_payload_signature_witness :
  Whatsapp.handle_payload accept_good "whatsapp" config_meta request_good ∅ "bot" no_world
  = (Ok "success",
     Whatsapp.mkWorld [] []
       [Whatsapp.mkCallback webhook_body
          (Whatsapp.callback_metadata "whatsapp" (Whatsapp.JStr "meta") ∅) "bot"])
  /\ Whatsapp.handle_payload accept_good "whatsapp" config_meta request_bad ∅ "bot" no_world
     = (Ok "not validated", no_world).
Proof.
  split.
  - apply (handle_payload_signature accept_good "whatsapp" config_meta ∅ request_good
             "bot" no_world (Whatsapp.JStr "secret")); reflexivity.
  - apply (handle_payload_signature accept_good "whatsapp" config_meta ∅ request_bad
             "bot" no_world (Whatsapp.JStr "secret")); reflexivity.
Defined.

(** With a configured secret and another provider, a request whose
    signature fails the check is acknowledged with "success" and its payload
    is scheduled. *)
Lemma handle_payload_unchecked_provider :
  accept_good (Whatsapp.JStr "secret") webhook_body "sha1=bad" = false
  /\ Whatsapp.handle_payload accept_good "whatsapp" config_other_provider request_bad ∅
       "bot" no_world
     = (Ok "success",
        Whatsapp.mkWorld [] []
          [Whatsapp.mkCallback webhook_body
             (Whatsapp.callback_metadata "whatsapp" (Whatsapp.JStr "360dialog") ∅)
             "bot"]).
Proof. split; reflexivity. Qed.

(** ** More of the grouping queries *)

Section GroupingMore.
Import Mongo Processor.

Lemma values_of_push_group (k k' v : string) (groups : list (string * list string)) :
  values_of k (push_group k' v groups)
  = values_of k groups ++ (if String.eqb k' k then [v] else []).
Proof.
  unfold values_of. induction groups as [|[k0 vs] groups IH]; simpl.
  - destruct (String.eqb k' k); reflexivity.
  - destruct (String.eqb_spec k0 k') as [->|Hne]; simpl.
    + destruct (String.eqb k' k); simpl; [reflexivity|]. rewrite app_nil_r. reflexivity.
    + destruct (String.eqb_spec k0 k) as [->|Hne']; simpl; [|exact IH].
      apply String.eqb_neq in Hne. rewrite String.eqb_sym in Hne. rewrite Hne.
      rewrite app_nil_r. reflexivity.
Qed.

Lemma values_of_aggregate_group (k : string) (rows : list (string * string)) :
  values_of k (aggregate_group rows)
  = map snd (List.filter (fun r => String.eqb (fst r) k) rows).
Proof.
  unfold aggregate_group.
  assert (H : forall acc,
             values_of k (fold_left (fun groups kv => push_group (fst kv) (snd kv) groups)
                            rows acc)
             = values_of k acc ++ map snd (List.filter (fun r => String.eqb (fst r) k) rows)).
  { induction rows as [|[k' v] rows IH]; intros acc; simpl.
    - rewrite app_nil_r. reflexivity.
    - rewrite IH, values_of_push_group.
      destruct (String.eqb k' k); simpl; rewrite <- ?app_assoc; reflexivity. }
  rewrite H. reflexivity.
Qed.

Lemma values_of_member (k : string) (vs : list string)
    (groups : list (string * list string)) :
  List.NoDup (map fst groups) -> In (k, vs) groups -> values_of k groups = vs.
Proof.
  unfold values_of. induction groups as [|[k0 vs0] groups IH]; intros Hnd Hin; [destruct Hin|].
  simpl in Hnd. inversion Hnd as [|? ? Hnotin Hnd']; subst. simpl.
  destruct Hin as [Heq|Hin].
  - injection Heq as -> ->. rewrite String.eqb_refl. reflexivity.
  - destruct (String.eqb_spec k0 k) as [->|_].
    + exfalso. apply Hnotin. apply in_map_iff. exists (k, vs). auto.
    + apply IH; assumption.
Qed.

(** A query grouped by [$bot] over the documents of one bot has one group,
    with the pushed values in the order of the documents. *)
Lemma aggregate_group_one_key (b : string) (rows : list (string * string)) :
  Forall (fun r => fst r = b) rows ->
  match aggregate_group rows with
  | g :: _ => snd g
  | [] => []
  end = map snd rows.
Proof.
  intros Hb. unfold aggregate_group. destruct Hb as [|[k v] rows Hk Hrows]; [reflexivity|].
  simpl in Hk. subst k. simpl.
  assert (H : forall vs,
             fold_left (fun groups kv => push_group (fst kv) (snd kv) groups) rows [(b, vs)]
             = [(b, vs ++ map snd rows)]).
  { induction Hrows as [|[k' v'] rows Hk' _ IH]; intros vs; simpl.
    - rewrite app_nil_r. reflexivity.
    - simpl in Hk'. subst k'. rewrite String.eqb_refl, IH, <- app_assoc. reflexivity. }
  rewrite H. reflexivity.
Qed.

Lemma filter_by_bot_status_bot {F} (b : string) (s : bool) (l : list (Document F)) :
  Forall (fun d => bot d = b) (List.filter (by_bot_status b s) l).
Proof.
  apply List.Forall_forall. intros d Hd. apply filter_In in Hd as [_ Hd].
  unfold by_bot_status in Hd. apply andb_prop in Hd as [Hd _].
  apply String.eqb_eq. exact Hd.
Qed.

Lemma filter_by_bot_bot {F} (b : string) (l : list (Document F)) :
  Forall (fun d => bot d = b) (List.filter (by_bot b) l).
Proof.
  apply List.Forall_forall. intros d Hd. apply filter_In in Hd as [_ Hd].
  apply String.eqb_eq. exact Hd.
Qed.

Lemma names_grouped_by_bot {F} (g : F -> string) (b : string) (docs : list (Document F)) :
  Forall (fun d => bot d = b) docs ->
  match aggregate_group (map (fun d => (bot d, g (fields d))) docs) with
  | g0 :: _ => snd g0
  | [] => []
  end = map (fun d => g (fields d)) docs.
Proof.
  intros Hb. rewrite (aggregate_group_one_key b).
  - rewrite map_map. reflexivity.
  - apply List.Forall_forall. intros r Hr. apply in_map_iff in Hr as [d [<- Hd]].
    rewrite List.Forall_forall in Hb. apply Hb. assumption.
Qed.

(** What the name listings of the domain return. *)
Lemma prepare_training_domain_entities_names (b : string) (db : DB) :
  prepare_training_domain_entities b db
  = (Ok (map (fun d => name (fields d))
           (List.filter (by_bot_status b true) (Entities_docs db))), db).
Proof.
  unfold prepare_training_domain_entities, fetch_domain_entities, mbind, M_bind, objects.
  simpl.
  rewrite <- (names_grouped_by_bot name b) by apply filter_by_bot_status_bot.
  destruct (aggregate_group _); reflexivity.
Qed.

Lemma prepare_training_intents_names (b : string) (db : DB) :
  prepare_training_intents b db
  = (Ok (map (fun d => name (fields d))
           (List.filter (by_bot_status b true) (Intents_docs db))), db).
Proof.
  unfold prepare_training_intents, fetch_intents, mbind, M_bind, objects. simpl.
  rewrite <- (names_grouped_by_bot name b) by apply filter_by_bot_status_bot.
  destruct (aggregate_group _); reflexivity.
Qed.

Lemma prepare_training_actions_names (b : string) (db : DB) :
  prepare_training_actions b db
  = (Ok (map (fun d => name (fields d))
           (List.filter (by_bot_status b true) (Actions_docs db))), db).
Proof.
  unfold prepare_training_actions, fetch_actions, mbind, M_bind, objects. simpl.
  rewrite <- (names_grouped_by_bot name b) by apply filter_by_bot_status_bot.
  destruct (aggregate_group _); reflexivity.
Qed.

Lemma fetch_slot_names_names (b : string) (db : DB) :
  fetch_slot_names b db
  = (Ok (map (fun d => slot_name (fields d)) (List.filter (by_bot b) (Slots_docs db))), db).
Proof.
  unfold fetch_slot_names, mbind, M_bind, objects. simpl.
  rewrite <- (names_grouped_by_bot slot_name b) by apply filter_by_bot_bot.
  destruct (aggregate_group _); reflexivity.
Qed.

End GroupingMore.

(** ** What the loaders return from any store *)

Section LoadersAnyStore.
Import Mongo Processor.

Lemma lookup_rows_of_name (k : string) (docs : list (Document LookupTablesF)) :
  map snd
    (List.filter (fun r => String.eqb (fst r) k)
       (map (fun d : Document LookupTablesF =>
               (lookup_name (fields d), lookup_value (fields d))) docs))
  = map (fun d => lookup_value (fields d))
      (List.filter (fun d => String.eqb (lookup_name (fields d)) k) docs).
Proof.
  induction docs as [|d docs IH]; simpl; [reflexivity|].
  destruct (String.eqb (lookup_name (fields d)) k); simpl; rewrite IH; reflexivity.
Qed.

(** X1. [fetch_lookup_tables] returns one table per name that has an active
    entry for the bot: the names are distinct, no table is empty, and the
    elements of a table are the values of the active entries of its name, in
    the order of the store. *)
Theorem fetch_lookup_tables_groups (b : string) (db : DB) :
  exists tables,
    fetch_lookup_tables b true db = (Ok tables, db)
    /\ List.NoDup (map lt_name tables)
    /\ (forall d, In d (List.filter (by_bot_status b true) (LookupTables_docs db)) ->
          In (lookup_name (fields d)) (map lt_name tables))
    /\ (forall t, In t tables ->
          lt_elements t <> []
          /\ lt_elements t
             = map (fun d => lookup_value (fields d))
                 (List.filter (fun d => String.eqb (lookup_name (fields d)) (lt_name t))
                    (List.filter (by_bot_status b true) (LookupTables_docs db)))).
Proof.
  eexists. split; [reflexivity|].
  set (docs := List.filter (by_bot_status b true) (collection LookupTables db)).
  set (rows := map (fun d : Document LookupTablesF =>
                      (lookup_name (fields d), lookup_value (fields d))) docs).
  assert (Hnames : map lt_name
                     (map (fun g => mkLookupTable (fst g) (snd g)) (aggregate_group rows))
                   = map fst (aggregate_group rows)).
  { rewrite map_map. reflexivity. }
  assert (Hvalues : forall k,
             map snd (List.filter (fun r => String.eqb (fst r) k) rows)
             = map (fun d => lookup_value (fields d))
                 (List.filter (fun d => String.eqb (lookup_name (fields d)) k) docs))
    by (intros k; apply lookup_rows_of_name).
  split; [|split].
  - rewrite Hnames. apply aggregate_group_NoDup.
  - intros d Hd. rewrite Hnames. apply aggregate_group_keys. unfold rows.
    rewrite map_map. simpl. apply in_map_iff. exists d. auto.
  - intros t Ht. apply in_map_iff in Ht as [[k vs] [<- Hg]]. simpl.
    assert (Hvs : vs = map snd (List.filter (fun r => String.eqb (fst r) k) rows)).
    { rewrite <- values_of_aggregate_group. symmetry.
      apply values_of_member; [apply aggregate_group_NoDup|assumption]. }
    split; [|rewrite Hvs; apply Hvalues].
    assert (Hk : In k (map fst rows)).
    { apply aggregate_group_keys. apply in_map_iff. exists (k, vs). auto. }
    apply in_map_iff in Hk as [[k' v] [Hk' Hr]]. simpl in Hk'. subst k'.
    rewrite Hvs. intros Hnil.
    assert (Hin : In v (map snd (List.filter (fun r => String.eqb (fst r) k) rows))).
    { apply in_map_iff. exists (k, v). split; [reflexivity|].
      apply filter_In. split; [assumption|]. apply String.eqb_refl. }
    rewrite Hnil in Hin. destruct Hin.
Qed.

Lemma ChainMap_dict_first {A} (key val : A -> string) (l : list A) (k : string) :
  ChainMap_dict (map (fun x => {[ key x := val x ]}) l) !! k
  = val <$> List.find (fun x => String.eqb (key x) k) l.
Proof.
  induction l as [|x l IH]; simpl; [apply lookup_empty|].
  rewrite lookup_union. destruct (String.eqb_spec (key x) k) as [->|Hne]; simpl.
  - rewrite lookup_singleton_eq. destruct (ChainMap_dict _ !! k); reflexivity.
  - rewrite lookup_singleton_ne by assumption. rewrite IH.
    destruct (val <$> List.find _ l); reflexivity.
Qed.

(** X2. In the dict that [__prepare_training_synonyms] returns, a key has
    the synonym of the first active row of the bot that carries it: rows
    stored later for the same key do not show. *)
Theorem prepare_training_synonyms_first_row (b : string) (db : DB) (k : string) :
  exists m,
    prepare_training_synonyms b db = (Ok m, db)
    /\ m !! k
       = (fun d => synonym (fields d))
         <$> List.find (fun d => String.eqb (syn_value (fields d)) k)
               (List.filter (by_bot_status b true) (EntitySynonyms_docs db)).
Proof.
  eexists. split; [reflexivity|].
  apply (ChainMap_dict_first (fun d : Document EntitySynonymsF => syn_value (fields d))
           (fun d => synonym (fields d))).
Qed.

End LoadersAnyStore.

(** ** Saving into a store that already holds documents of the bot *)

Section SavingMore.
Import Mongo Processor.

Lemma insert_active_app {A F} (document : DocumentClass F) `{!Lawful document}
    (f : A -> F) (b u : string) (now : Z) (l : list A) (db : DB) :
  map fields
    (List.filter (by_bot_status b true)
       (collection document
          (snd (insert document
                  (map (fun x => mkDocument None b u now true (f x)) l) db))))
  = map fields (List.filter (by_bot_status b true) (collection document db)) ++ map f l.
Proof.
  destruct (insert_new document
              (map (fun x => mkDocument None b u now true (f x)) l) db) as [_ [Hc _]].
  - apply (new_documents_new f b u now l).
  - rewrite Hc, List.filter_app, map_app.
    rewrite assign_keys_active by apply new_documents_new.
    rewrite assign_keys_fields, map_map. reflexivity.
Qed.

Lemma active_names_after_insert {A F} (document : DocumentClass F) `{!Lawful document}
    (g : F -> string) (f : A -> F) (b u : string) (now : Z) (l : list A) (db : DB) :
  map (fun d => g (fields d))
    (List.filter (by_bot_status b true)
       (collection document
          (snd (insert document
                  (map (fun x => mkDocument None b u now true (f x)) l) db))))
  = map (fun d => g (fields d))
      (List.filter (by_bot_status b true) (collection document db))
    ++ map (fun x => g (f x)) l.
Proof.
  rewrite (map_fields g), (insert_active_app document f), map_app, !map_map.
  reflexivity.
Qed.

Lemma insert_or_skip {F} (document : DocumentClass F) (docs : list (Document F)) (db : DB) :
  match docs with
  | [] => mret tt
  | _ :: _ => insert document docs
  end db = insert document docs db.
Proof. destruct docs; reflexivity. Qed.

Lemma save_intents_insert (names : list string) (b u : string) (db : DB) :
  save_intents names b u db
  = insert Intents (map (fun x => mkDocument None b u (utcnow db) true (mkName x)) names) db.
Proof. destruct names; [reflexivity|]. apply (store_all Intents mkName). Qed.

Lemma save_actions_insert (names : list string) (b u : string) (db : DB) :
  save_actions names b u db
  = insert Actions (map (fun x => mkDocument None b u (utcnow db) true (mkName x)) names) db.
Proof. destruct names; [reflexivity|]. apply (store_all Actions mkName). Qed.

(** X3. [__save_intents] and [__save_actions] store every name they are
    given, also one that is already active for the bot: the list that
    [load_domain] reads afterwards is the old one followed by the saved one. *)
Theorem save_intents_actions_append (names : list string) (b u : string) (db : DB) :
  (exists db',
     save_intents names b u db = (Ok tt, db')
     /\ fst (prepare_training_intents b db')
        = Ok (map (fun d => name (fields d))
                (List.filter (by_bot_status b true) (Intents_docs db)) ++ names))
  /\ (exists db',
        save_actions names b u db = (Ok tt, db')
        /\ fst (prepare_training_actions b db')
           = Ok (map (fun d => name (fields d))
                   (List.filter (by_bot_status b true) (Actions_docs db)) ++ names)).
Proof.
  split.
  - eexists. split.
    + rewrite save_intents_insert. apply (insert_ok Intents), new_documents_new.
    + rewrite prepare_training_intents_names. simpl fst. f_equal.
      rewrite (active_names_after_insert Intents name mkName). simpl.
      rewrite map_id. reflexivity.
  - eexists. split.
    + rewrite save_actions_insert. apply (insert_ok Actions), new_documents_new.
    + rewrite prepare_training_actions_names. simpl fst. f_equal.
      rewrite (active_names_after_insert Actions name mkName). simpl.
      rewrite map_id. reflexivity.
Qed.

(** The names among [entities] that are not in [saved]. *)
Lemma filter_new_documents (b u : string) (now : Z) (saved entities : list string) :
  List.filter (fun entity : Document NameF =>
                 negb (existsb (String.eqb (name (fields entity))) saved))
    (map (fun x => mkDocument None b u now true (mkName x)) entities)
  = map (fun x => mkDocument None b u now true (mkName x))
      (List.filter (fun e => negb (existsb (String.eqb e) saved)) entities).
Proof.
  induction entities as [|e entities IH]; simpl; [reflexivity|].
  destruct (negb (existsb (String.eqb e) saved)); simpl; rewrite IH; reflexivity.
Qed.

Lemma save_domain_entities_insert (entities : list string) (b u : string) (db : DB) :
  save_domain_entities entities b u db
  = insert Entities
      (map (fun x => mkDocument None b u (utcnow db) true (mkName x))
         (List.filter
            (fun e => negb (existsb (String.eqb e)
                              (map (fun d => name (fields d))
                                 (List.filter (by_bot_status b true) (Entities_docs db)))))
            entities))
      db.
Proof.
  unfold save_domain_entities. destruct entities as [|e entities]; [reflexivity|].
  unfold mbind, M_bind. rewrite prepare_training_domain_entities_names.
  unfold extract_domain_entities. rewrite mapM_new_document.
  rewrite filter_new_documents. apply insert_or_skip.
Qed.

Lemma existsb_eqb_In (e : string) (l : list string) :
  existsb (String.eqb e) l = true <-> In e l.
Proof.
  rewrite existsb_exists. split.
  - intros [x [Hx He]]. apply String.eqb_eq in He. subst. assumption.
  - intros H. exists e. split; [assumption|apply String.eqb_refl].
Qed.

(** X4. [__save_domain_entities] stores the listed names that are not yet
    active for the bot, and only those; afterwards every listed name is
    active, and saving the same list again stores nothing. *)
Theorem save_domain_entities_skips_active (entities : list string) (b u : string) (db : DB) :
  let saved := map (fun d => name (fields d))
                 (List.filter (by_bot_status b true) (Entities_docs db)) in
  exists db',
    save_domain_entities entities b u db = (Ok tt, db')
    /\ fst (prepare_training_domain_entities b db')
       = Ok (saved ++ List.filter (fun e => negb (existsb (String.eqb e) saved)) entities)
    /\ save_domain_entities entities b u db' = (Ok tt, db').
Proof.
  intros saved. eexists. split; [|split].
  - rewrite save_domain_entities_insert. apply (insert_ok Entities), new_documents_new.
  - rewrite prepare_training_domain_entities_names. simpl fst. f_equal.
    rewrite (active_names_after_insert Entities name mkName). simpl.
    rewrite map_id. reflexivity.
  - rewrite save_domain_entities_insert.
    rewrite (active_names_after_insert Entities name mkName). simpl.
    rewrite map_id. fold saved.
    assert (E : List.filter
                  (fun e => negb (existsb (String.eqb e)
                     (saved ++ List.filter
                        (fun e0 => negb (existsb (String.eqb e0) saved)) entities)))
                  entities = []).
    { assert (H : forall l, (forall e, In e l -> In e entities) ->
                  List.filter
                    (fun e => negb (existsb (String.eqb e)
                       (saved ++ List.filter
                          (fun e0 => negb (existsb (String.eqb e0) saved)) entities)))
                    l = []).
      { induction l as [|e l IH]; intros Hl; simpl; [reflexivity|].
        assert (He : existsb (String.eqb e)
                       (saved ++ List.filter
                          (fun e0 => negb (existsb (String.eqb e0) saved)) entities) = true).
        { apply existsb_eqb_In, in_app_iff.
          destruct (existsb (String.eqb e) saved) eqn:Es.
          - left. apply existsb_eqb_In. assumption.
          - right. apply filter_In. split; [apply Hl; left; reflexivity|].
            rewrite Es. reflexivity. }
        rewrite He. simpl. apply IH. intros e' He'. apply Hl. right. assumption. }
      apply H. auto. }
    rewrite E. reflexivity.
Qed.

End SavingMore.

(** ** [save_nlu] into any store *)

Section SaveNluAnyStore.
Import Mongo Processor.

(** One saver of [save_nlu], from any store: the bot's active documents of
    its collection are the old ones followed by the new ones. *)
Lemma saver_step_app {A F} (document : DocumentClass F) `{!Lawful document}
    (f : A -> F) (b u : string) (l : list A) (db : DB) :
  exists db1,
    insert document (map (fun x => mkDocument None b u (utcnow db) true (f x)) l) db
    = (Ok tt, db1)
    /\ map fields (List.filter (by_bot_status b true) (collection document db1))
       = map fields (List.filter (by_bot_status b true) (collection document db))
         ++ map f l
    /\ (forall X (g : DB -> X),
          (forall l0 db0, g (set_collection document l0 db0) = g db0) ->
          (forall n db0, g (set_next_oid n db0) = g db0) ->
          g db1 = g db).
Proof.
  eexists. split; [apply (insert_ok document), new_documents_new|]. split.
  - apply (insert_active_app document f).
  - intros X g Hc Hn. apply insert_frame; assumption.
Qed.

Lemma save_nlu_stored_app (db : DB) (nlu : TrainingData RegexFeature) (b u : string) :
  exists db',
    save_nlu nlu b u db = (Ok tt, db')
    /\ map fields (List.filter (by_bot_status b true) (TrainingExamples_docs db'))
       = map fields (List.filter (by_bot_status b true) (TrainingExamples_docs db))
         ++ map stored_example (training_examples nlu)
    /\ map fields (List.filter (by_bot_status b true) (EntitySynonyms_docs db'))
       = map fields (List.filter (by_bot_status b true) (EntitySynonyms_docs db))
         ++ map stored_synonym (map_to_list (entity_synonyms nlu))
    /\ map fields (List.filter (by_bot_status b true) (LookupTables_docs db'))
       = map fields (List.filter (by_bot_status b true) (LookupTables_docs db))
         ++ map stored_lookup (lookup_rows (lookup_tables nlu))
    /\ map fields (List.filter (by_bot_status b true) (RegexFeatures_docs db'))
       = map fields (List.filter (by_bot_status b true) (RegexFeatures_docs db))
         ++ map stored_regex (regex_features nlu).
Proof.
  destruct (saver_step_app TrainingExamples stored_example b u (training_examples nlu) db)
    as (db1 & E1 & A1 & F1).
  destruct (saver_step_app EntitySynonyms stored_synonym b u
              (map_to_list (entity_synonyms nlu)) db1) as (db2 & E2 & A2 & F2).
  destruct (saver_step_app LookupTables stored_lookup b u
              (lookup_rows (lookup_tables nlu)) db2) as (db3 & E3 & A3 & F3).
  destruct (saver_step_app RegexFeatures stored_regex b u (regex_features nlu) db3)
    as (db4 & E4 & A4 & F4).
  exists db4. split.
  { unfold save_nlu, mbind, M_bind.
    rewrite save_training_examples_insert, E1.
    rewrite save_entity_synonyms_insert, E2.
    rewrite save_lookup_tables_insert, E3.
    rewrite save_regex_features_insert, E4. reflexivity. }
  simpl in A1, A2, A3, A4.
  split; [|split; [|split]].
  - rewrite (F4 _ TrainingExamples_docs), (F3 _ TrainingExamples_docs),
      (F2 _ TrainingExamples_docs) by reflexivity.
    exact A1.
  - rewrite (F4 _ EntitySynonyms_docs), (F3 _ EntitySynonyms_docs) by reflexivity.
    rewrite A2, (F1 _ EntitySynonyms_docs) by reflexivity. reflexivity.
  - rewrite (F4 _ LookupTables_docs) by reflexivity.
    rewrite A3, (F2 _ LookupTables_docs), (F1 _ LookupTables_docs) by reflexivity.
    reflexivity.
  - rewrite A4, (F3 _ RegexFeatures_docs), (F2 _ RegexFeatures_docs),
      (F1 _ RegexFeatures_docs) by reflexivity.
    reflexivity.
Qed.

Lemma ChainMap_dict_app (l1 l2 : list (gmap string string)) :
  ChainMap_dict (l1 ++ l2) = ChainMap_dict l1 ∪ ChainMap_dict l2.
Proof.
  induction l1 as [|m l1 IH]; simpl.
  - symmetry. apply (left_id_L ∅ (∪)).
  - rewrite IH. apply (assoc_L (∪)).
Qed.

Lemma aggregate_group_entries_app (r1 r2 : list (string * string)) :
  length (concat (map snd (aggregate_group (r1 ++ r2))))
  = length (concat (map snd (aggregate_group r1)))
    + length (concat (map snd (aggregate_group r2))).
Proof. rewrite !aggregate_group_entries. apply length_app. Qed.

Lemma table_elements_grouped (k : string) (rows : list (string * string)) :
  table_elements k
    (map (fun g => mkLookupTable (fst g) (snd g)) (aggregate_group rows))
  = map snd (List.filter (fun r => String.eqb (fst r) k) rows).
Proof.
  unfold table_elements. rewrite map_map. simpl.
  rewrite <- values_of_aggregate_group. f_equal.
  rewrite <- (map_id (aggregate_group rows)) at 2.
  apply map_ext. intros [k' vs]. reflexivity.
Qed.

(** X5. From any store, [save_nlu] returns, and the four queries of
    [load_nlu] afterwards return what they returned before, extended by
    what was saved: the training examples and the regex features of before
    followed by the saved ones; the synonym dict of before completed by the
    saved one, a key that was already there keeping its old value; and the
    lookup tables with distinct names, each holding under its name the
    elements of before followed by the saved elements of that name. *)
Theorem save_nlu_extends (db : DB) (nlu : TrainingData RegexFeature) (b u : string) :
  exists examples synonyms lookups regexes db' lookups',
    prepare_training_examples b db = (Ok examples, db)
    /\ prepare_training_synonyms b db = (Ok synonyms, db)
    /\ prepare_training_lookup_tables b db = (Ok lookups, db)
    /\ prepare_training_regex_features b db = (Ok regexes, db)
    /\ save_nlu nlu b u db = (Ok tt, db')
    /\ prepare_training_examples b db'
       = (Ok (examples ++ map fetched_example (training_examples nlu)), db')
    /\ prepare_training_synonyms b db' = (Ok (synonyms ∪ entity_synonyms nlu), db')
    /\ prepare_training_lookup_tables b db' = (Ok lookups', db')
    /\ List.NoDup (map lt_name lookups')
    /\ (forall k,
          table_elements k lookups'
          = table_elements k lookups
            ++ map snd (List.filter (fun r => String.eqb (fst r) k)
                          (lookup_rows (lookup_tables nlu))))
    /\ lookup_entries lookups'
       = lookup_entries lookups + lookup_entries (lookup_tables nlu)
    /\ prepare_training_regex_features b db'
       = (Ok (regexes
              ++ map (fun r => mkRegexFeatureFetched (rf_name r) (rf_pattern r))
                   (regex_features nlu)), db').
Proof.
  destruct (save_nlu_stored_app db nlu b u) as (db' & Esave & Ste & Ssyn & Slt & Srf).
  do 4 eexists. exists db'. eexists.
  do 4 (split; [reflexivity|]). split; [exact Esave|].
  unfold prepare_training_examples, fetch_training_examples, prepare_training_synonyms,
    fetch_synonyms, prepare_training_lookup_tables, fetch_lookup_tables,
    prepare_training_regex_features, fetch_regex_features, mbind, M_bind, objects,
    mret, M_ret.
  cbn [collection TrainingExamples EntitySynonyms LookupTables RegexFeatures fst].
  assert (Erows : map (fun d : Document LookupTablesF =>
                         (lookup_name (fields d), lookup_value (fields d)))
                      (List.filter (by_bot_status b true) (LookupTables_docs db'))
                  = map (fun d : Document LookupTablesF =>
                           (lookup_name (fields d), lookup_value (fields d)))
                        (List.filter (by_bot_status b true) (LookupTables_docs db))
                    ++ lookup_rows (lookup_tables nlu)).
  { rewrite !(map_fields (fun f => (lookup_name f, lookup_value f))).
    rewrite Slt, map_app. f_equal. rewrite map_map. simpl.
    rewrite <- (map_id (lookup_rows _)) at 2. apply map_ext. intros [k v]. reflexivity. }
  split; [|split; [|split; [reflexivity|split; [|split; [|split]]]]].
  - do 2 f_equal.
    rewrite !(map_fields (fun f => mkMessage (text f) (intent f)
                                     match entities f with
                                     | [] => None
                                     | ents => Some (prepare_entities ents)
                                     end)).
    rewrite Ste, map_app, fetched_stored_example. reflexivity.
  - do 2 f_equal.
    rewrite !(map_fields (fun f => ({[ syn_value f := synonym f ]} : gmap string string))).
    rewrite Ssyn, map_app, ChainMap_dict_app. f_equal.
    rewrite map_map. simpl. rewrite ChainMap_dict_pairs. apply list_to_map_to_list.
  - rewrite map_map. simpl. apply aggregate_group_NoDup.
  - intros k. rewrite !table_elements_grouped, Erows, List.filter_app, map_app.
    reflexivity.
  - unfold lookup_entries. rewrite !map_map. simpl.
    rewrite Erows, aggregate_group_entries_app. f_equal.
    rewrite aggregate_group_entries. apply lookup_rows_length.
  - do 2 f_equal.
    rewrite !(map_fields (fun f => mkRegexFeatureFetched (regex_name f) (pattern f))).
    rewrite Srf, map_app, !map_map. reflexivity.
Qed.

End SaveNluAnyStore.

(** ** [load_nlu] and the regex features *)

Section LoadNlu.
Import Mongo Processor.

Variable sanitize_examples : list Message -> list Message.

(** With an active regex feature of the bot in the store, [load_nlu]
    raises: the engine looks for the key [pattern] in what
    [fetch_regex_features] yields. *)
Lemma load_nlu_regex_raises (b : string) (db : DB) :
  List.filter (by_bot_status b true) (RegexFeatures_docs db) <> [] ->
  load_nlu sanitize_examples b db = (Raise (KeyError "pattern"), db).
Proof.
  intros Hrx. unfold load_nlu, mbind, M_bind. simpl.
  destruct (List.filter (by_bot_status b true) (RegexFeatures_docs db)) as [|d l];
    [contradiction|reflexivity].
Qed.

(** Without one, it returns what the queries give, the examples sanitized. *)
Lemma load_nlu_no_regex (b : string) (db : DB) :
  List.filter (by_bot_status b true) (RegexFeatures_docs db) = [] ->
  exists loaded,
    load_nlu sanitize_examples b db = (Ok loaded, db)
    /\ fst (prepare_training_synonyms b db) = Ok (entity_synonyms loaded)
    /\ fst (prepare_training_lookup_tables b db) = Ok (lookup_tables loaded)
    /\ regex_features loaded = [].
Proof.
  intros Hrx. unfold load_nlu, mbind, M_bind. simpl. rewrite Hrx. simpl.
  eexists. split; [reflexivity|]. repeat split.
Qed.

(** C1. [save_nlu] followed by [load_nlu] does not give back training data
    that has a regex feature.  Whatever the store, the bot and the rest of
    the data: the save returns, and [load_nlu] then raises
    [KeyError('pattern')], because [fetch_regex_features] hands the pattern
    to the engine under the key [elements]. *)
Theorem save_nlu_load_nlu_regex_raises (db : DB) (examples : list Message)
    (synonyms : gmap string string) (lookups : list LookupTable)
    (r : RegexFeature) (rs : list RegexFeature) (b u : string) :
  exists db',
    save_nlu (mkTrainingData examples synonyms lookups (r :: rs)) b u db = (Ok tt, db')
    /\ load_nlu sanitize_examples b db' = (Raise (KeyError "pattern"), db').
Proof.
  destruct (save_nlu_stored_app db (mkTrainingData examples synonyms lookups (r :: rs)) b u)
    as (db' & Esave & _ & _ & _ & Srf).
  exists db'. split; [exact Esave|]. apply load_nlu_regex_raises.
  intros Hnil. rewrite Hnil in Srf. simpl in Srf.
  destruct (map fields _); discriminate Srf.
Qed.

End LoadNlu.

(** The training data of the specification's round trip, saved for a new
    bot: the load raises. *)
Example load_nlu_small_raises (sanitize_examples : list Processor.Message -> list Processor.Message) :
  fst (Processor.load_nlu sanitize_examples "bot"
         (snd (Processor.save_nlu nlu_small "bot" "user" Mongo.empty_db)))
  = Raise (KeyError "pattern").
Proof. reflexivity. Qed.

(** ** [add_entity] and the slots made from entities *)

Section EntitiesAndSlots.
Import Mongo Processor.

Lemma filter_nonempty_existsb {A} (p : A -> bool) (l : list A) :
  negb (Nat.eqb (length (List.filter p l)) 0) = existsb p l.
Proof.
  induction l as [|x l IH]; simpl; [reflexivity|].
  destruct (p x); simpl; [reflexivity|exact IH].
Qed.

(** The existence check that does not raise answers whether a document of
    the bot, active or not, satisfies the query. *)
Lemma isExist_quiet {F} (document : DocumentClass F) (b : string) (q : F -> bool)
    (msg : string) (db : DB) :
  isExist document b q msg false db
  = (Ok (Some (existsb (fun d => by_bot b d && q (fields d)) (collection document db))), db).
Proof.
  unfold isExist, mbind, M_bind, objects.
  rewrite filter_nonempty_existsb.
  destruct (existsb _ _); reflexivity.
Qed.

Lemma Slots_validate_text (self : Document SlotsF) :
  check_empty_string (slot_name (fields self)) = false ->
  type (fields self) = "text" ->
  Slots_validate self = Ok self.
Proof. intros Hn Ht. unfold Slots_validate. rewrite Hn, Ht. reflexivity. Qed.

(** X6. [add_entity] of a non-blank name that the bot does not have yet
    stores the entity, and one slot of type [text] of the same name unless
    the bot has a slot of that name already, active or soft-deleted. *)
Theorem add_entity_new (name b u : string) (db : DB) :
  check_empty_string name = false ->
  (forall d, d ∈ Entities_docs db -> bot d = b -> DataObjects.name (fields d) <> name) ->
  exists db',
    add_entity name b u db = (Ok tt, db')
    /\ Entities_docs db'
       = Entities_docs db
         ++ [mkDocument (Some (next_oid db)) b u (utcnow db) true (mkName name)]
    /\ Slots_docs db'
       = if existsb (fun d => by_bot b d && String.eqb (slot_name (fields d)) name)
              (Slots_docs db)
         then Slots_docs db
         else Slots_docs db
              ++ [mkDocument (Some (N.succ (next_oid db))) b u (utcnow db) true
                    (new_slot name "text")].
Proof.
  intros Hne Habs. unfold add_entity, mbind, M_bind.
  rewrite (isExist_absent Entities db b _ _ true).
  2:{ intros d Hin Hb. apply String.eqb_neq. apply Habs; assumption. }
  unfold new_document at 1. unfold save at 1. unfold mbind, M_bind, lift_result.
  cbn [validate Entities]. unfold Entities_validate. cbn [fields DataObjects.name]. rewrite Hne.
  unfold insert_one at 1. cbn [pk].
  rewrite isExist_quiet. cbn [collection Slots set_collection Entities set_next_oid
                                Slots_docs Entities_docs next_oid utcnow].
  destruct (existsb _ (Slots_docs db)) eqn:Es; cbn [not_].
  - eexists. split; [reflexivity|]. split; reflexivity.
  - unfold new_document, save, mbind, M_bind, lift_result.
    cbn [validate Slots utcnow].
    rewrite Slots_validate_text by (try reflexivity; exact Hne).
    eexists. split; [reflexivity|]. split; reflexivity.
Qed.

Lemma add_entity_new_witness :
  exists db',
    add_entity "city" "bot" "user" empty_db = (Ok tt, db')
    /\ map (fun d => slot_name (fields d)) (Slots_docs db') = ["city"]
    /\ fst (add_entity "city" "bot" "user" db_removed_slot) = Ok tt
    /\ Slots_docs (snd (add_entity "city" "bot" "user" db_removed_slot))
       = Slots_docs db_removed_slot.
Proof.
  destruct (add_entity_new "city" "bot" "user" empty_db) as (db' & Hadd & _ & Hslots).
  - reflexivity.
  - intros d Hd. inversion Hd.
  - exists db'. split; [exact Hadd|]. split; [rewrite Hslots; reflexivity|].
    split; reflexivity.
Defined.

Lemma assign_keys_by_bot {F} (n : N) (docs : list (Document F)) (b : string) :
  Forall (fun d => bot d = b /\ status d = true) docs ->
  List.filter (by_bot b) (assign_keys n docs) = assign_keys n docs.
Proof.
  intros H. revert n. induction H as [|d docs [Hb Hs] _ IH]; intros n; simpl; [reflexivity|].
  unfold by_bot at 1. simpl. rewrite Hb, String.eqb_refl. rewrite IH. reflexivity.
Qed.

Lemma add_slots_from_entities_insert (entities : list string) (b u : string) (db : DB) :
  add_slots_from_entities entities b u db
  = insert Slots
      (map (fun x => mkDocument None b u (utcnow db) true (new_slot x "text"))
         (List.filter
            (fun e => negb (existsb (String.eqb e)
                              (map (fun d => slot_name (fields d))
                                 (List.filter (by_bot b) (Slots_docs db)))))
            entities))
      db.
Proof.
  unfold add_slots_from_entities, mbind, M_bind.
  rewrite fetch_slot_names_names, mapM_new_document. apply insert_or_skip.
Qed.

(** X7. [__add_slots_from_entities] stores one slot of type [text] for each
    listed name that names no slot of the bot yet, where a soft-deleted slot
    counts as one; afterwards every listed name is a slot name, and the same
    call again stores nothing. *)
Theorem add_slots_from_entities_skips_present (entities : list string) (b u : string)
    (db : DB) :
  let present := map (fun d => slot_name (fields d))
                   (List.filter (by_bot b) (Slots_docs db)) in
  let missing := List.filter (fun e => negb (existsb (String.eqb e) present)) entities in
  exists db',
    add_slots_from_entities entities b u db = (Ok tt, db')
    /\ Slots_docs db'
       = Slots_docs db
         ++ assign_keys (next_oid db)
              (map (fun x => mkDocument None b u (utcnow db) true (new_slot x "text"))
                 missing)
    /\ fst (fetch_slot_names b db') = Ok (present ++ missing)
    /\ add_slots_from_entities entities b u db' = (Ok tt, db').
Proof.
  intros present missing.
  destruct (insert_new Slots
              (map (fun x => mkDocument None b u (utcnow db) true (new_slot x "text"))
                 missing) db) as (Hr & Hc & _); [apply new_documents_new|].
  assert (Hnames : map (fun d => slot_name (fields d))
                     (List.filter (by_bot b)
                        (Slots_docs (snd (insert Slots
                           (map (fun x => mkDocument None b u (utcnow db) true
                                            (new_slot x "text")) missing) db))))
                   = present ++ missing).
  { change (Slots_docs ?x) with (collection Slots x). rewrite Hc.
    rewrite List.filter_app, map_app.
    rewrite assign_keys_by_bot by apply new_documents_new.
    rewrite (map_fields slot_name (assign_keys _ _)), assign_keys_fields, !map_map.
    simpl. rewrite map_id. reflexivity. }
  exists (snd (insert Slots
                 (map (fun x => mkDocument None b u (utcnow db) true (new_slot x "text"))
                    missing) db)).
  split; [|split; [|split]].
  - rewrite add_slots_from_entities_insert. apply (insert_ok Slots), new_documents_new.
  - exact Hc.
  - rewrite fetch_slot_names_names. simpl fst. f_equal. exact Hnames.
  - rewrite add_slots_from_entities_insert. rewrite Hnames.
    assert (E : List.filter
                  (fun e => negb (existsb (String.eqb e) (present ++ missing))) entities
                = []).
    { assert (H : forall l, (forall e, In e l -> In e entities) ->
                  List.filter
                    (fun e => negb (existsb (String.eqb e) (present ++ missing))) l = []).
      { induction l as [|e l IH]; intros Hl; simpl; [reflexivity|].
        assert (He : existsb (String.eqb e) (present ++ missing) = true).
        { apply existsb_eqb_In, in_app_iff.
          destruct (existsb (String.eqb e) present) eqn:Es.
          - left. apply existsb_eqb_In. assumption.
          - right. apply filter_In. split; [apply Hl; left; reflexivity|].
            rewrite Es. reflexivity. }
        rewrite He. simpl. apply IH. intros e' He'. apply Hl. right. assumption. }
      apply H. auto. }
    rewrite E. reflexivity.
Qed.

End EntitiesAndSlots.

(** ** [add_training_example] *)

Section AddTrainingExample.
Import Mongo Processor.

Variable find_entities_in_training_example : string -> list EntityDict.
Variable sub_ent_regex : string -> string.

Abbreviation add_training_example :=
  (Processor.add_training_example find_entities_in_training_example sub_ent_regex).

(** The first two steps: the example is new for the bot, and its intent is
    stored when the bot does not have it. *)
Lemma add_training_example_intent (example intent b u : string) (db : DB)
    (k : Document TrainingExamplesF -> M unit) :
  (forall d, d ∈ TrainingExamples_docs db -> bot d = b -> text (fields d) <> example) ->
  check_empty_string intent = false ->
  let intent_there :=
    existsb (fun d => by_bot b d && String.eqb (name (fields d)) intent) (Intents_docs db) in
  let db1 :=
    if intent_there then db
    else set_next_oid (N.succ (next_oid db))
           (set_collection Intents
              (Intents_docs db
               ++ [mkDocument (Some (next_oid db)) b u (utcnow db) true (mkName intent)])
              db) in
  (isExist TrainingExamples b (fun f => String.eqb (text f) example)
     "Training Example already exist!" true ;;
   intent_exists ← isExist Intents b (fun f => String.eqb (name f) intent) "" false;
   (if not_ intent_exists
    then new_document b u (mkName intent) ≫= save Intents
    else mret tt) ;;
   training_example ← new_document b u (mkTrainingExamples intent example []);
   k training_example) db
  = k (mkDocument None b u (utcnow db) true (mkTrainingExamples intent example [])) db1.
Proof.
  intros Hnew Hintent intent_there db1. unfold mbind, M_bind.
  rewrite (isExist_absent TrainingExamples db b _ _ true).
  2:{ intros d Hin Hb. apply String.eqb_neq. apply Hnew; assumption. }
  rewrite isExist_quiet. cbn [collection Intents]. fold intent_there.
  subst db1. destruct intent_there; cbn [not_].
  - reflexivity.
  - unfold new_document at 1. unfold save, mbind, M_bind, lift_result.
    cbn [validate Intents]. unfold Intents_validate. cbn [fields name].
    rewrite Hintent. reflexivity.
Qed.

(** X8. [add_training_example] with a blank text fails with the
    [ValidationError] of the example, but only after the intent was stored:
    a non-blank intent that the bot did not have stays in the store. *)
Theorem add_training_example_blank (example intent b u : string) (db : DB) :
  check_empty_string example = true ->
  (forall d, d ∈ TrainingExamples_docs db -> bot d = b -> text (fields d) <> example) ->
  check_empty_string intent = false ->
  (forall d, d ∈ Intents_docs db -> bot d = b -> name (fields d) <> intent) ->
  add_training_example example intent b u db
  = (Raise (ValidationError
              "Training Example name and text cannot be empty or blank spaces"),
     set_next_oid (N.succ (next_oid db))
       (set_collection Intents
          (Intents_docs db
           ++ [mkDocument (Some (next_oid db)) b u (utcnow db) true (mkName intent)])
          db)).
Proof.
  intros Hblank Hnew Hintent Hmissing. unfold Processor.add_training_example.
  rewrite add_training_example_intent by assumption.
  assert (E : existsb (fun d => by_bot b d && String.eqb (name (fields d)) intent)
                (Intents_docs db) = false).
  { apply not_true_is_false. intros He. apply existsb_exists in He as [d [Hd Hq]].
    apply andb_prop in Hq as [Hb Hn]. apply String.eqb_eq in Hb, Hn.
    apply (Hmissing d); [apply list_elem_of_In|..]; assumption. }
  rewrite E, Hblank. cbn [negb]. unfold mbind, M_bind, mret, M_ret, save, lift_result.
  cbn [validate TrainingExamples]. unfold TrainingExamples_validate. cbn [fields entities text].
  rewrite Hblank. reflexivity.
Qed.

(** X9. [add_training_example] with a non-blank text without entity markup,
    new for the bot, and a non-blank intent stores the example as it is, and
    stores the intent first when the bot has no intent of that name, active
    or soft-deleted; entities and slots are left alone. *)
Theorem add_training_example_plain (example intent b u : string) (db : DB) :
  check_empty_string example = false ->
  find_entities_in_training_example example = [] ->
  (forall d, d ∈ TrainingExamples_docs db -> bot d = b -> text (fields d) <> example) ->
  check_empty_string intent = false ->
  let intent_there :=
    existsb (fun d => by_bot b d && String.eqb (name (fields d)) intent) (Intents_docs db) in
  exists db',
    add_training_example example intent b u db = (Ok tt, db')
    /\ Intents_docs db'
       = (if intent_there then Intents_docs db
          else Intents_docs db
               ++ [mkDocument (Some (next_oid db)) b u (utcnow db) true (mkName intent)])
    /\ TrainingExamples_docs db'
       = TrainingExamples_docs db
         ++ [mkDocument
               (Some (if intent_there then next_oid db else N.succ (next_oid db)))
               b u (utcnow db) true (mkTrainingExamples intent example [])]
    /\ Entities_docs db' = Entities_docs db
    /\ Slots_docs db' = Slots_docs db.
Proof.
  intros Hne Hfind Hnew Hintent intent_there. unfold Processor.add_training_example.
  rewrite add_training_example_intent by assumption. fold intent_there.
  rewrite Hne, Hfind. cbn [negb]. unfold mbind, M_bind, mret, M_ret, save, lift_result.
  cbn [validate TrainingExamples]. unfold TrainingExamples_validate.
  cbn [fields entities text DataObjects.intent]. rewrite Hne, Hintent. cbn [orb].
  destruct intent_there; eexists; (split; [reflexivity|]); repeat split; reflexivity.
Qed.

End AddTrainingExample.

Lemma add_training_example_blank_witness :
  Processor.add_training_example no_entities id "  " "greet" "bot" "user" Mongo.empty_db
  = (Raise (ValidationError
              "Training Example name and text cannot be empty or blank spaces"),
     db_greet).
Proof.
  apply (add_training_example_blank no_entities id "  " "greet" "bot" "user"
           Mongo.empty_db).
  - reflexivity.
  - intros d Hd. inversion Hd.
  - reflexivity.
  - intros d Hd. inversion Hd.
Defined.

Lemma add_training_example_plain_witness :
  exists db',
    Processor.add_training_example no_entities id "good morning" "greet" "bot" "user"
      db_greet = (Ok tt, db')
    /\ Mongo.Intents_docs db' = Mongo.Intents_docs db_greet
    /\ map (fun d => text (fields d)) (Mongo.TrainingExamples_docs db') = ["good morning"].
Proof.
  destruct (add_training_example_plain no_entities id "good morning" "greet" "bot" "user"
              db_greet) as (db' & Hadd & Hi & Ht & _).
  - reflexivity.
  - reflexivity.
  - intros d Hd. inversion Hd.
  - reflexivity.
  - exists db'. split; [exact Hadd|]. split; [exact Hi|]. rewrite Ht. reflexivity.
Defined.

Section AddTrainingExampleEntities.
Import Mongo Processor.

Variable find_entities_in_training_example : string -> list EntityDict.
Variable sub_ent_regex : string -> string.

Lemma covered_by_saved_or_missing (saved entities : list string) (e : string) :
  In e entities ->
  In e (saved ++ List.filter (fun x => negb (existsb (String.eqb x) saved)) entities).
Proof.
  intros He. apply in_app_iff.
  destruct (existsb (String.eqb e) saved) eqn:Es.
  - left. apply existsb_eqb_In. assumption.
  - right. apply filter_In. split; [assumption|]. rewrite Es. reflexivity.
Qed.

(** After [__save_domain_entities], each listed name is an active entity. *)
Lemma save_domain_entities_covers (entities : list string) (b u : string) (db : DB) :
  exists db',
    save_domain_entities entities b u db = (Ok tt, db')
    /\ (forall e, In e entities ->
          In e (map (fun d => name (fields d))
                  (List.filter (by_bot_status b true) (Entities_docs db'))))
    /\ (forall X (g : DB -> X),
          (forall l0 db0, g (set_collection Entities l0 db0) = g db0) ->
          (forall n db0, g (set_next_oid n db0) = g db0) ->
          g db' = g db).
Proof.
  eexists. split; [|split].
  - rewrite save_domain_entities_insert. apply (insert_ok Entities), new_documents_new.
  - intros e He.
    change (Entities_docs ?x) with (collection Entities x).
    rewrite (active_names_after_insert Entities name mkName). simpl. rewrite map_id.
    apply covered_by_saved_or_missing. assumption.
  - intros X g Hc Hn. apply insert_frame; assumption.
Qed.

(** After [__add_slots_from_entities], each listed name is a slot name. *)
Lemma add_slots_from_entities_covers (entities : list string) (b u : string) (db : DB) :
  exists db',
    add_slots_from_entities entities b u db = (Ok tt, db')
    /\ (forall e, In e entities ->
          In e (map (fun d => slot_name (fields d))
                  (List.filter (by_bot b) (Slots_docs db'))))
    /\ (forall X (g : DB -> X),
          (forall l0 db0, g (set_collection Slots l0 db0) = g db0) ->
          (forall n db0, g (set_next_oid n db0) = g db0) ->
          g db' = g db).
Proof.
  eexists. split; [|split].
  - rewrite add_slots_from_entities_insert. apply (insert_ok Slots), new_documents_new.
  - intros e He.
    destruct (insert_new Slots
                (map (fun x => mkDocument None b u (utcnow db) true (new_slot x "text"))
                   (List.filter
                      (fun e0 => negb (existsb (String.eqb e0)
                         (map (fun d => slot_name (fields d))
                            (List.filter (by_bot b) (Slots_docs db))))) entities)) db)
      as (_ & Hc & _); [apply new_documents_new|].
    change (Slots_docs ?x) with (collection Slots x). rewrite Hc.
    rewrite List.filter_app, map_app.
    rewrite assign_keys_by_bot by apply new_documents_new.
    rewrite (map_fields slot_name (assign_keys _ _)), assign_keys_fields, !map_map.
    simpl. rewrite map_id. apply covered_by_saved_or_missing. assumption.
  - intros X g Hc Hn. apply insert_frame; assumption.
Qed.

(** X10. [add_training_example] with a non-blank text in which the reader
    finds entities whose spans fit the text without the markup: the example
    is stored under that text with the entities found, and every entity name
    is afterwards an active entity of the bot and the name of one of its
    slots. *)
Theorem add_training_example_entities (example intent b u : string) (db : DB)
    (ent : EntityDict) (ents : list EntityDict) :
  check_empty_string example = false ->
  find_entities_in_training_example example = ent :: ents ->
  validate_entities (sub_ent_regex example) (extract_entities (ent :: ents)) = Ok tt ->
  (forall d, d ∈ TrainingExamples_docs db -> bot d = b -> text (fields d) <> example) ->
  check_empty_string intent = false ->
  exists db' key,
    Processor.add_training_example find_entities_in_training_example sub_ent_regex
      example intent b u db = (Ok tt, db')
    /\ TrainingExamples_docs db'
       = TrainingExamples_docs db
         ++ [mkDocument (Some key) b u (utcnow db) true
               (mkTrainingExamples intent (sub_ent_regex example)
                  (extract_entities (ent :: ents)))]
    /\ (forall e, In e (map ed_entity (ent :: ents)) ->
          In e (map (fun d => name (fields d))
                  (List.filter (by_bot_status b true) (Entities_docs db')))
          /\ In e (map (fun d => slot_name (fields d))
                     (List.filter (by_bot b) (Slots_docs db')))).
Proof.
  intros Hne Hfind Hspans Hnew Hintent. unfold Processor.add_training_example.
  rewrite add_training_example_intent by assumption.
  set (db1 := if existsb _ (Intents_docs db) then db else _).
  assert (H1 : TrainingExamples_docs db1 = TrainingExamples_docs db
               /\ utcnow db1 = utcnow db).
  { subst db1. destruct (existsb _ (Intents_docs db)); split; reflexivity. }
  destruct H1 as [Hte1 Hnow1].
  rewrite Hne, Hfind. cbn [negb].
  destruct (save_domain_entities_covers (map ed_entity (ent :: ents)) b u db1)
    as (db2 & E2 & C2 & F2).
  destruct (add_slots_from_entities_covers (map ed_entity (ent :: ents)) b u db2)
    as (db3 & E3 & C3 & F3).
  unfold mbind, M_bind. rewrite E2, E3. unfold mret, M_ret, save, lift_result.
  cbn [validate TrainingExamples]. unfold TrainingExamples_validate, set_fields.
  cbn [fields entities text pk bot user timestamp status].
  change (extract_entities (ent :: ents))
    with (mkEntity (ed_start ent) (ed_end ent) (ed_value ent) (ed_entity ent)
          :: extract_entities ents) at 1.
  cbn iota. rewrite Hspans.
  unfold insert_one. cbn [pk].
  eexists. exists (next_oid db3). split; [reflexivity|]. split.
  - cbn [collection TrainingExamples set_collection set_next_oid TrainingExamples_docs].
    rewrite (F3 _ TrainingExamples_docs), (F2 _ TrainingExamples_docs) by reflexivity.
    rewrite Hte1. reflexivity.
  - intros e He. split.
    + cbn [collection TrainingExamples set_collection set_next_oid Entities_docs].
      rewrite (F3 _ Entities_docs) by reflexivity. apply C2. assumption.
    + cbn [collection TrainingExamples set_collection set_next_oid Slots_docs].
      apply C3. assumption.
Qed.

End AddTrainingExampleEntities.

Lemma add_training_example_entities_witness :
  exists db',
    Processor.add_training_example find_city strip_city "I am in [Delhi](city)" "inform"
      "bot" "user" Mongo.empty_db = (Ok tt, db')
    /\ map (fun d => text (fields d)) (Mongo.TrainingExamples_docs db') = ["I am in Delhi"]
    /\ In "city" (map (fun d => name (fields d))
                    (List.filter (Processor.by_bot_status "bot" true)
                       (Mongo.Entities_docs db')))
    /\ In "city" (map (fun d => slot_name (fields d))
                    (List.filter (Processor.by_bot "bot") (Mongo.Slots_docs db'))).
Proof.
  destruct (add_training_example_entities find_city strip_city "I am in [Delhi](city)"
              "inform" "bot" "user" Mongo.empty_db
              (Processor.mkEntityDict 8 13 "Delhi" "city") [])
    as (db' & key & Hadd & Ht & Hcover).
  - reflexivity.
  - reflexivity.
  - reflexivity.
  - intros d Hd. inversion Hd.
  - reflexivity.
  - exists db'. split; [exact Hadd|]. split; [rewrite Ht; reflexivity|].
    apply Hcover. left. reflexivity.
Defined.

(** ** Loading stories; validation of slots once more *)

Section LoadingStories.
Import Mongo Processor.

(** X12. What [__prepare_training_story_events] rebuilds from the events
    that [__extract_story_events] stored: the user and action events of the
    step, in their order, each user event with its text for the name of its
    intent; every other event of the step is gone. *)
Theorem story_events_round_trip {T} (events : list event_object) (timestamp : T) :
  prepare_training_story_events (extract_story_events events) timestamp
  = omap (reloaded_event timestamp) events.
Proof.
  induction events as [|event events IH]; [reflexivity|].
  destruct event as [e|text|action_name|]; cbn; rewrite IH; reflexivity.
Qed.

(** X13. The stories that [__extract_story_step] builds hold the stored
    form of the user and action events of their steps, and [Stories.validate]
    on such a story depends on two things only: a blank block name is
    refused, a step without user or action event raises [IndexError], and
    every other story is accepted. *)
Theorem extract_story_step_validate (story_steps : list StoryStep) (b u : string)
    (db : DB) :
  exists stories,
    extract_story_step story_steps b u db = (Ok stories, db)
    /\ Forall2
         (fun step story =>
            events (fields story)
            = map StoryEventsObj (extract_story_events (step_events step))
            /\ Stories_validate story
               = if check_empty_string (step_block_name step)
                 then Raise (ValidationError
                               "Story path name cannot be empty or blank spaces")
                 else match extract_story_events (step_events step) with
                      | [] => Raise IndexError
                      | _ :: _ => Ok story
                      end)
         story_steps stories.
Proof.
  eexists. split.
  - unfold extract_story_step.
    apply (mapM_new_document
             (fun story_step =>
                mkStories (step_block_name story_step)
                  (map StoryEventsObj (extract_story_events (step_events story_step))))).
  - induction story_steps as [|step steps IH]; simpl; constructor; [|exact IH].
    split; [reflexivity|].
    destruct (check_empty_string (step_block_name step)) eqn:Eb.
    + unfold Stories_validate. simpl. rewrite Eb. reflexivity.
    + destruct (extract_story_events (step_events step)) as [|e evs] eqn:Ee.
      * unfold Stories_validate. simpl. rewrite Eb. reflexivity.
      * apply (Stories_validate_stored _ (e :: evs)); [exact Eb|reflexivity|discriminate].
Qed.

End LoadingStories.

Section SlotsValidationMore.

(** For a slot of type [categorical] with a non-blank name,
    [Slots.validate] raises its [ValidationError] when [values] is empty and
    accepts the slot as it is otherwise. *)
Theorem Slots_validate_categorical (self : Document SlotsF) :
  check_empty_string (slot_name (fields self)) = false ->
  type (fields self) = CategoricalSlot_type_name ->
  Slots_validate self
  = match values (fields self) with
    | [] => Raise (ValidationError
                     "CategoricalSlot must have list of categories in values field")
    | _ :: _ => Ok self
    end.
Proof.
  intros Hname Hty. unfold Slots_validate. rewrite Hname, Hty. reflexivity.
Qed.

Lemma Slots_validate_categorical_witness :
  Slots_validate slot_categorical_two = Ok slot_categorical_two
  /\ Slots_validate slot_categorical_empty
     = Raise (ValidationError "CategoricalSlot must have list of categories in values field").
Proof.
  split.
  - apply (Slots_validate_categorical slot_categorical_two); reflexivity.
  - apply (Slots_validate_categorical slot_categorical_empty); reflexivity.
Defined.

(** X14. For a slot of type [float] with a non-blank name, when each of
    [min_value] and [max_value] is unset or zero, [Slots.validate] returns
    the slot with the bounds [0.0] and [1.0] and every other field as it
    was: bounds that were both set to zero are replaced as well. *)
Theorem Slots_validate_float_unset_or_zero (self : Document SlotsF) :
  check_empty_string (slot_name (fields self)) = false ->
  type (fields self) = FloatSlot_type_name ->
  not_number (min_value (fields self)) = true ->
  not_number (max_value (fields self)) = true ->
  Slots_validate self
  = Ok (set_fields self
          (mkSlots (slot_name (fields self)) (type (fields self))
             (initial_value (fields self)) (value_reset_delay (fields self))
             (auto_fill (fields self)) (slot_value (fields self)) (values (fields self))
             (Some (PyFloat 1)) (Some (PyFloat 0)))).
Proof.
  intros Hname Hty Hlo Hhi.
  assert (Hc : check_empty_string (type (fields self)) = false)
    by (rewrite Hty; reflexivity).
  assert (He : String.eqb (type (fields self)) FloatSlot_type_name = true)
    by (rewrite Hty; reflexivity).
  unfold Slots_validate. rewrite Hname, Hc, He, Hlo, Hhi. reflexivity.
Qed.

Lemma Slots_validate_float_unset_or_zero_witness :
  (exists self', Slots_validate slot_float_zero = Ok self'
                 /\ min_value (fields self') = Some (PyFloat 0)
                 /\ max_value (fields self') = Some (PyFloat 1))
  /\ (exists self', Slots_validate slot_float_unset = Ok self'
                    /\ min_value (fields self') = Some (PyFloat 0)
                    /\ max_value (fields self') = Some (PyFloat 1)).
Proof.
  split; eexists; (split; [|split]).
  - apply (Slots_validate_float_unset_or_zero slot_float_zero); reflexivity.
  - reflexivity.
  - reflexivity.
  - apply (Slots_validate_float_unset_or_zero slot_float_unset); reflexivity.
  - reflexivity.
  - reflexivity.
Defined.

(** X15. For a slot of type [float] with a non-blank name, when one bound
    is unset and the other is set and not zero, [Slots.validate] raises a
    [TypeError], from comparing a number with [None]. *)
Theorem Slots_validate_float_one_bound (self : Document SlotsF) :
  check_empty_string (slot_name (fields self)) = false ->
  type (fields self) = FloatSlot_type_name ->
  (min_value (fields self) = None /\ not_number (max_value (fields self)) = false)
  \/ (max_value (fields self) = None /\ not_number (min_value (fields self)) = false) ->
  exists msg, Slots_validate self = Raise (TypeError msg).
Proof.
  intros Hname Hty Hone. unfold Slots_validate. rewrite Hname, Hty. simpl.
  destruct Hone as [[Hlo Hhi]|[Hhi Hlo]].
  - rewrite Hlo, Hhi. simpl. rewrite Hlo. eexists. reflexivity.
  - rewrite Hlo. simpl. rewrite Hhi. destruct (min_value (fields self)); eexists; reflexivity.
Qed.

Lemma Slots_validate_float_one_bound_witness :
  exists msg, Slots_validate slot_float_max_only = Raise (TypeError msg).
Proof.
  apply (Slots_validate_float_one_bound slot_float_max_only).
  - reflexivity.
  - reflexivity.
  - left. split; reflexivity.
Defined.

End SlotsValidationMore.

Lemma prepare_training_session_config_default_witness :
  Processor.prepare_training_session_config "bot" db_session_other_bot
  = (Ok (Processor.mkSessionConfig 0 true), db_session_other_bot).
Proof.
  apply (prepare_training_session_config_default db_session_other_bot "bot").
  intros d Hd. simpl in Hd. apply list_elem_of_singleton in Hd. subst d. discriminate.
Defined.

Example story_round_trip_greet :
  Processor.prepare_training_story_events
    (Processor.extract_story_events (Processor.step_events step_greet)) 0%Z
  = [Processor.TrainingUserUttered "greet" "greet" 1 0%Z;
     Processor.TrainingActionExecuted "utter_greet" 0%Z].
Proof. reflexivity. Qed.

(** ** The WhatsApp channel: what one message does *)

Section MessageEffects.
Import Whatsapp.

Variable str_ : json -> string.
Variable WHATSAPP : string.

Abbreviation message := (Whatsapp.message str_ WHATSAPP).

(** A call of [message] raises or skips and leaves the surroundings as they
    were, or raises after the read receipt, or makes one delivery. *)
Lemma message_world (m metadata : dict) (bot : string) (w : World) :
  (exists e, message m metadata bot w = (Raise e, w))
  \/ (exists e msg_id, message m metadata bot w = (Raise e, read_receipt w msg_id))
  \/ message m metadata bot w = (Ok tt, w)
  \/ exists um msg_id, message m metadata bot w = (Ok tt, delivered w bot um msg_id).
Proof.
  unfold Whatsapp.message.
  destruct (Whatsapp.message_text str_ m) as [[[text m']|]|e]; simpl; eauto.
  destruct ((metadata ∪ m') !! "from") as [sender|]; simpl; eauto.
  unfold handle_user_message.
  destruct ((metadata ∪ m') !! "id") as [msg_id|]; simpl; eauto.
  unfold mbind, IO_bind, mark_as_read.
  destruct (UserMessage_init str_ text sender WHATSAPP (metadata ∪ m')) as [um|e].
  - right. right. right. exists um, msg_id. reflexivity.
  - right. left. exists e, msg_id. reflexivity.
Qed.

(** X17. Whatever the message and the metadata: a call of
    [Whatsapp.message] that raises has handed nothing to the agent, and has
    sent either nothing or one read receipt, the latter when the engine
    refuses the text; a call that returns has either skipped the message or
    sent one read receipt and handed one message to the agent of the bot.
    The receipt is for the [id] of the delivered metadata, the sender is
    [str()] of its [from], or "default" when that is null, the text is a
    string without white space at its ends or a false value, the input
    channel is the channel's name, and every entry of the metadata
    argument is in the delivered metadata: it overrides the field of the
    same name in the message. *)
Theorem message_effect (m metadata : dict) (bot : string) (w : World) :
  match message m metadata bot w with
  | (Raise _, w') => w' = w \/ exists msg_id, w' = read_receipt w msg_id
  | (Ok _, w') =>
      w' = w
      \/ exists um msg_id sender,
           w' = delivered w bot um msg_id
           /\ um_metadata um !! "id" = Some msg_id
           /\ um_metadata um !! "from" = Some sender
           /\ um_sender_id um = match sender with JNull => "default" | _ => str_ sender end
           /\ (truthy (um_text um) = false \/ exists s, um_text um = JStr (strip s))
           /\ um_input_channel um = WHATSAPP
           /\ (forall k v, metadata !! k = Some v -> um_metadata um !! k = Some v)
  end.
Proof.
  unfold Whatsapp.message.
  destruct (Whatsapp.message_text str_ m) as [[[text m']|]|e]; simpl; auto.
  destruct ((metadata ∪ m') !! "from") as [sender|] eqn:Hfrom; simpl; auto.
  unfold handle_user_message.
  destruct ((metadata ∪ m') !! "id") as [msg_id|] eqn:Hid; simpl; auto.
  unfold mbind, IO_bind, mark_as_read, UserMessage_init.
  assert (Hum : forall text',
             (truthy text' = false \/ exists s, text' = JStr (strip s)) ->
             let um := mkUserMessage text'
                         match sender with JNull => "default" | _ => str_ sender end
                         WHATSAPP (metadata ∪ m') in
             delivered w bot um msg_id = w
             \/ exists um0 msg_id0 sender0,
                  delivered w bot um msg_id = delivered w bot um0 msg_id0
                  /\ um_metadata um0 !! "id" = Some msg_id0
                  /\ um_metadata um0 !! "from" = Some sender0
                  /\ um_sender_id um0
                     = match sender0 with JNull => "default" | _ => str_ sender0 end
                  /\ (truthy (um_text um0) = false \/ exists s, um_text um0 = JStr (strip s))
                  /\ um_input_channel um0 = WHATSAPP
                  /\ (forall k v, metadata !! k = Some v -> um_metadata um0 !! k = Some v)).
  { intros text' Htext um. right. exists um, msg_id, sender. repeat split; auto.
    intros k v Hk. apply lookup_union_Some_l. exact Hk. }
  destruct (truthy text) eqn:Htrue.
  - destruct text as [| | |s| |]; simpl; eauto.
  - simpl. apply Hum. left. exact Htrue.
Qed.

End MessageEffects.

(** A text body that is a number: the read receipt is sent, and then the
    engine refuses the text. *)
Example message_number_body_refused :
  Whatsapp.message str_of_string "whatsapp"
    ({[ "type" := Whatsapp.JStr "text";
        "text" := Whatsapp.JObj {[ "body" := Whatsapp.JNum (PyInt 5) ]} ]} ∪ envelope)
    ∅ "bot" no_world
  = (Raise (AttributeError "strip"),
     Whatsapp.read_receipt no_world (Whatsapp.JStr "wamid.1")).
Proof. reflexivity. Qed.

(** ** The WhatsApp channel: [Whatsapp.__handle_meta_payload] *)

Section Delivery.
Import Whatsapp.

Variable Client : Type.
Variable new_client : json -> option json -> json -> result Client.
Variable str_ : json -> string.
Variable WHATSAPP : string.

Abbreviation message := (Whatsapp.message str_ WHATSAPP).
Abbreviation handle_messages := (Whatsapp.handle_messages str_ WHATSAPP).
Abbreviation handle_changes := (Whatsapp.handle_changes Client new_client str_ WHATSAPP).
Abbreviation handle_entries := (Whatsapp.handle_entries Client new_client str_ WHATSAPP).
Abbreviation handle_meta_payload :=
  (Whatsapp.handle_meta_payload Client new_client str_ WHATSAPP).

Lemma handle_messages_cons (m : dict) (rest : list dict) (metadata : dict)
    (bot : string) (w : World) :
  handle_messages (m :: rest) metadata bot w
  = match message m metadata bot w with
    | (Ok _, w') => handle_messages rest metadata bot w'
    | (Raise e, w') => (Raise e, w')
    end.
Proof. reflexivity. Qed.

Lemma delivered_all_app (w : World) (bot : string) (a b : list (UserMessage * json)) :
  delivered_all (delivered_all w bot a) bot b = delivered_all w bot (a ++ b).
Proof. unfold delivered_all. rewrite foldl_app. reflexivity. Qed.

(** What a loop of the delivery has done: a run of deliveries, and, when
    it raised, possibly one read receipt more. *)
Lemma handle_messages_world (ms : list dict) (metadata : dict) (bot : string) (w : World) :
  exists ds,
    snd (handle_messages ms metadata bot w) = delivered_all w bot ds
    \/ exists e msg_id,
         fst (handle_messages ms metadata bot w) = Raise e
         /\ snd (handle_messages ms metadata bot w)
            = read_receipt (delivered_all w bot ds) msg_id.
Proof.
  revert w. induction ms as [|m ms IH]; intros w.
  - exists []. left. reflexivity.
  - rewrite handle_messages_cons.
    destruct (message_world str_ WHATSAPP m metadata bot w)
      as [[e He]|[(e & i & He)|[Hs|(um & i & Hd)]]].
    + rewrite He. exists []. left. reflexivity.
    + rewrite He. exists []. right. exists e, i. split; reflexivity.
    + rewrite Hs. apply IH.
    + rewrite Hd. destruct (IH (delivered w bot um i)) as [ds Hds].
      exists ((um, i) :: ds). exact Hds.
Qed.

Lemma handle_changes_world (provider : json) (token : option json) (cs : list Change)
    (metadata : dict) (bot : string) (self : Self Client) (w : World) :
  exists ds,
    snd (handle_changes provider token cs metadata bot self w) = delivered_all w bot ds
    \/ exists e msg_id,
         fst (fst (handle_changes provider token cs metadata bot self w)) = Raise e
         /\ snd (handle_changes provider token cs metadata bot self w)
            = read_receipt (delivered_all w bot ds) msg_id.
Proof.
  revert metadata self w. induction cs as [|c cs IH]; intros metadata self w.
  - exists []. left. reflexivity.
  - simpl. destruct (new_client _ _ _) as [cl|e].
    + destruct (handle_messages_world (change_messages c)
                  (change_metadata c ∪ metadata) bot w) as [ds Hds].
      destruct (handle_messages _ _ _ _) as [[u|e] w1]; simpl in Hds.
      * destruct Hds as [->|(e & i & He & _)]; [|discriminate He].
        destruct (IH (change_metadata c ∪ metadata) (mkSelf Client c (Some cl))
                    (delivered_all w bot ds)) as [ds' Hds'].
        exists (ds ++ ds'). rewrite <- delivered_all_app. exact Hds'.
      * exists ds. destruct Hds as [->|(e' & i & He & ->)].
        -- left. reflexivity.
        -- right. exists e, i. split; reflexivity.
    + exists []. left. reflexivity.
Qed.

Lemma handle_entries_world (provider : json) (token : option json) (es : list Entry)
    (metadata : dict) (bot : string) (self : Self Client) (w : World) :
  exists ds,
    snd (handle_entries provider token es metadata bot self w) = delivered_all w bot ds
    \/ exists e msg_id,
         fst (fst (handle_entries provider token es metadata bot self w)) = Raise e
         /\ snd (handle_entries provider token es metadata bot self w)
            = read_receipt (delivered_all w bot ds) msg_id.
Proof.
  revert metadata self w. induction es as [|en es IH]; intros metadata self w.
  - exists []. left. reflexivity.
  - simpl. destruct (entry_changes en) as [cs|]; [|exists []; left; reflexivity].
    destruct (handle_changes_world provider token cs metadata bot self w) as [ds Hds].
    destruct (handle_changes _ _ _ _ _ _ _) as [[[md|e] self1] w1]; simpl in Hds.
    + destruct Hds as [->|(e & i & He & _)]; [|discriminate He].
      destruct (IH md self1 (delivered_all w bot ds)) as [ds' Hds'].
      exists (ds ++ ds'). rewrite <- delivered_all_app. exact Hds'.
    + exists ds. destruct Hds as [->|(e' & i & He & ->)].
      * left. reflexivity.
      * right. exists e, i. split; reflexivity.
Qed.

(** X18. Whatever the payload, and whether the call returns or raises
    midway: what [__handle_meta_payload] has done to the surroundings is a
    run of deliveries for the bot, each a read receipt together with the
    message handed to the agent, and, only when the call raises, possibly
    one read receipt more for the message that the engine refused; no
    callback is scheduled and nothing that was there before is changed. *)
Theorem handle_meta_payload_deliveries (config : dict) (payload : Payload)
    (metadata : dict) (bot : string) (self : Self Client) (w : World) :
  let out := handle_meta_payload config payload metadata bot self w in
  exists ds,
    (snd out = delivered_all w bot ds
     \/ exists e msg_id,
          fst (fst out) = Raise e
          /\ snd out = read_receipt (delivered_all w bot ds) msg_id)
    /\ marked_as_read (delivered_all w bot ds) = marked_as_read w ++ map snd ds
    /\ handled (delivered_all w bot ds)
       = handled w ++ map (fun d => (bot, fst d)) ds
    /\ spawned (delivered_all w bot ds) = spawned w.
Proof.
  assert (Hshape : forall ds w0,
             marked_as_read (delivered_all w0 bot ds) = marked_as_read w0 ++ map snd ds
             /\ handled (delivered_all w0 bot ds)
                = handled w0 ++ map (fun d => (bot, fst d)) ds
             /\ spawned (delivered_all w0 bot ds) = spawned w0).
  { induction ds as [|d ds IH]; intros w0.
    - simpl. rewrite !app_nil_r. auto.
    - unfold delivered_all in *. simpl. destruct (IH (delivered w0 bot (fst d) (snd d)))
        as (H1 & H2 & H3). rewrite H1, H2, H3. simpl.
      rewrite <- !app_assoc. auto. }
  intros out. subst out. unfold Whatsapp.handle_meta_payload.
  destruct (payload_entry payload) as [es|].
  - destruct (handle_entries_world (default (JStr "meta") (config !! "bsp_type"))
                (get_access_token config) es metadata bot self w) as [ds Hds].
    exists ds. split; [|apply Hshape].
    destruct (handle_entries _ _ _ _ _ _ _) as [[[md|e] self1] w1]; simpl in *.
    + destruct Hds as [->|(e & i & He & _)]; [left; reflexivity|discriminate He].
    + destruct Hds as [->|(e' & i & He & ->)]; [left; reflexivity|].
      right. exists e, i. split; reflexivity.
  - exists []. split; [left; reflexivity|apply Hshape].
Qed.

Lemma handle_messages_app (ms1 ms2 : list dict) (metadata : dict) (bot : string)
    (w w1 : World) :
  handle_messages ms1 metadata bot w = (Ok tt, w1) ->
  handle_messages (ms1 ++ ms2) metadata bot w = handle_messages ms2 metadata bot w1.
Proof.
  revert w. induction ms1 as [|m ms1 IH]; intros w H.
  - simpl in H. injection H as <-. reflexivity.
  - simpl app. rewrite handle_messages_cons in *.
    destruct (message m metadata bot w) as [[u|e] w']; [|discriminate].
    apply IH, H.
Qed.

(** X19. A message that raises ends the delivery.  When the messages
    [ms1] of the first change are handled and the next message [m] raises,
    [__handle_meta_payload] raises the same exception and stops where [m]
    stopped: the deliveries of [ms1] stay, [m] is not handed to the agent,
    and the messages after [m], the later changes and the later entries are
    not handled, whatever they are. *)
Theorem handle_meta_payload_stops_at_failure (config : dict)
    (value_metadata : option dict) (ms1 ms2 : list dict) (m : dict)
    (later : list Change) (entries : list Entry) (metadata : dict) (bot : string)
    (self : Self Client) (w w1 : World) (e : exn) (c : Client) :
  let change := mkChange (Some (mkValue value_metadata (Some (ms1 ++ m :: ms2)))) in
  let payload := mkPayload (Some (mkEntry (Some (change :: later)) :: entries)) in
  let metadata' := default ∅ value_metadata ∪ metadata in
  new_client (default (JStr "meta") (config !! "bsp_type")) (get_access_token config)
    (get_business_phone_number_id change) = Ok c ->
  handle_messages ms1 metadata' bot w = (Ok tt, w1) ->
  fst (message m metadata' bot w1) = Raise e ->
  handle_meta_payload config payload metadata bot self w
  = (Raise e, mkSelf Client change (Some c), snd (message m metadata' bot w1))
  /\ handled (snd (message m metadata' bot w1)) = handled w1
  /\ spawned (snd (message m metadata' bot w1)) = spawned w1.
Proof.
  intros change payload metadata' Hc H1 Hm. split.
  - unfold Whatsapp.handle_meta_payload. simpl. rewrite Hc.
    unfold change_messages, change_metadata. simpl. fold metadata'.
    rewrite (handle_messages_app ms1 (m :: ms2) metadata' bot w w1 H1).
    rewrite handle_messages_cons.
    destruct (message m metadata' bot w1) as [r w2]. simpl in Hm. subst r. reflexivity.
  - destruct (message_world str_ WHATSAPP m metadata' bot w1)
      as [[e' He]|[(e' & i & He)|[Hs|(um & i & Hd)]]];
      rewrite ?He, ?Hs, ?Hd in *; simpl in *; try discriminate Hm; auto.
Qed.

Lemma handle_changes_quiet (provider : json) (token : option json) (cs : list Change)
    (metadata : dict) (bot : string) (self : Self Client) (w : World) :
  Forall (fun c => change_messages c = []) cs ->
  snd (handle_changes provider token cs metadata bot self w) = w
  /\ ((forall i, exists c, new_client provider token i = Ok c) ->
      exists self', handle_changes provider token cs metadata bot self w
                    = (Ok (merged_metadata cs metadata), self', w)).
Proof.
  intros Hq. revert metadata self. induction Hq as [|c cs Hc Hq IH]; intros metadata self.
  - split; [reflexivity|]. intros _. exists self. reflexivity.
  - simpl. rewrite Hc. simpl. destruct (new_client _ _ _) as [cl|e] eqn:Hn.
    + destruct (IH (change_metadata c ∪ metadata) (mkSelf Client c (Some cl)))
        as [Hw Hok]. split; [exact Hw|]. intros Hall. apply Hok, Hall.
    + split; [reflexivity|]. intros Hall.
      destruct (Hall (get_business_phone_number_id c)) as [cl Hcl]. congruence.
Qed.

(** X20. A delivery without messages, such as one that reports statuses
    only: when every entry has its changes and no change carries a
    message, [__handle_meta_payload] sends no read receipt and hands nothing
    to an agent; and when the client can be built, it returns. *)
Theorem handle_meta_payload_without_messages (config : dict) (entries : list Entry)
    (metadata : dict) (bot : string) (self : Self Client) (w : World) :
  Forall (fun entry => exists changes,
            entry_changes entry = Some changes
            /\ Forall (fun c => change_messages c = []) changes) entries ->
  let out := handle_meta_payload config (mkPayload (Some entries)) metadata bot self w in
  snd out = w
  /\ ((forall i, exists c,
         new_client (default (JStr "meta") (config !! "bsp_type"))
           (get_access_token config) i = Ok c) ->
      fst (fst out) = Ok tt).
Proof.
  intros Hq. unfold Whatsapp.handle_meta_payload. simpl.
  set (provider := default (JStr "meta") (config !! "bsp_type")).
  set (token := get_access_token config).
  assert (H : forall md s,
             snd (handle_entries provider token entries md bot s w) = w
             /\ ((forall i, exists c, new_client provider token i = Ok c) ->
                 exists md' s', handle_entries provider token entries md bot s w
                                = (Ok md', s', w))).
  { induction Hq as [|en es (cs & Hcs & Hquiet) Hq IH]; intros md s.
    - split; [reflexivity|]. intros _. exists md, s. reflexivity.
    - simpl. rewrite Hcs.
      destruct (handle_changes_quiet provider token cs md bot s w Hquiet) as [Hw Hok].
      split.
      + destruct (handle_changes provider token cs md bot s w) as [[[md1|e] s1] w1];
          simpl in Hw; subst w1; [apply IH|reflexivity].
      + intros Hall. destruct (Hok Hall) as [s1 ->]. apply IH, Hall. }
  destruct (H metadata self) as [Hw Hok]. split.
  - destruct (handle_entries provider token entries metadata bot self w)
      as [[[md1|e] s1] w1]; exact Hw.
  - intros Hall. destruct (Hok Hall) as (md' & s' & ->). reflexivity.
Qed.

(** X21. The metadata is one object for the whole delivery.  When the
    changes [cs1] have been handled, the changes after them are handled
    with the metadata of every change of [cs1] merged over the metadata of
    the request, a later change over an earlier one: the messages of a
    change see the metadata of the changes before it. *)
Theorem handle_changes_metadata_accumulates (provider : json) (token : option json)
    (cs1 cs2 : list Change) (metadata metadata1 : dict) (bot : string)
    (self self1 : Self Client) (w w1 : World) :
  handle_changes provider token cs1 metadata bot self w = (Ok metadata1, self1, w1) ->
  metadata1 = merged_metadata cs1 metadata
  /\ handle_changes provider token (cs1 ++ cs2) metadata bot self w
     = handle_changes provider token cs2 (merged_metadata cs1 metadata) bot self1 w1.
Proof.
  revert metadata self w. induction cs1 as [|c cs1 IH]; intros metadata self w H.
  - simpl in H. injection H as <- <- <-. split; reflexivity.
  - simpl in H |- *. destruct (new_client _ _ _) as [cl|e]; [|discriminate].
    destruct (Whatsapp.handle_messages _ _ _ _ _ _) as [[u|e] w']; [|discriminate].
    apply IH, H.
Qed.

End Delivery.

Lemma handle_meta_payload_stops_at_failure_witness :
  Whatsapp.handle_meta_payload _ client_of str_of_string "whatsapp" ∅
    (Whatsapp.mkPayload (Some [Whatsapp.mkEntry (Some [change_hello_voice_hello])]))
    ∅ "bot" (Whatsapp.init _) no_world
  = (Raise (KeyError "audio"),
     Whatsapp.mkSelf _ change_hello_voice_hello
       (Some (Whatsapp.JStr "meta", None, Whatsapp.JStr "")),
     Whatsapp.delivered no_world "bot"
       (Whatsapp.mkUserMessage (Whatsapp.JStr "hello") "919876543210"
          "whatsapp" ((∅ ∪ ∅) ∪ (text_payload ∪ envelope)))
       (Whatsapp.JStr "wamid.1")).
Proof.
  eapply eq_trans.
  - apply (handle_meta_payload_stops_at_failure _ client_of str_of_string "whatsapp" ∅
             None [text_payload ∪ envelope] [text_payload ∪ envelope]
             (voice_payload ∪ envelope) [] [] ∅ "bot" (Whatsapp.init _) no_world);
      reflexivity.
  - reflexivity.
Defined.

Lemma handle_meta_payload_without_messages_witness :
  let out := Whatsapp.handle_meta_payload _ client_of str_of_string "whatsapp" ∅
               payload_statuses ∅ "bot" (Whatsapp.init _) no_world in
  snd out = no_world /\ fst (fst out) = Ok tt.
Proof.
  destruct (handle_meta_payload_without_messages _ client_of str_of_string "whatsapp" ∅
              [Whatsapp.mkEntry (Some [change_statuses; Whatsapp.mkChange None])]
              ∅ "bot" (Whatsapp.init _) no_world) as [Hw Hok].
  - constructor; [|constructor].
    exists [change_statuses; Whatsapp.mkChange None]. split; [reflexivity|].
    constructor; [reflexivity|]. constructor; [reflexivity|constructor].
  - split; [exact Hw|]. apply Hok. intros i. eexists. reflexivity.
Defined.

Lemma handle_changes_metadata_accumulates_witness :
  Whatsapp.handle_changes _ client_of str_of_string "whatsapp" (Whatsapp.JStr "meta") None
    ([change_statuses] ++ [change_hello]) ∅ "bot" (Whatsapp.init _) no_world
  = Whatsapp.handle_changes _ client_of str_of_string "whatsapp" (Whatsapp.JStr "meta") None
      [change_hello] (Whatsapp.merged_metadata [change_statuses] ∅) "bot"
      (Whatsapp.mkSelf _ change_statuses
         (Some (Whatsapp.JStr "meta", None, Whatsapp.JStr "1055")))
      no_world.
Proof.
  apply (handle_changes_metadata_accumulates _ client_of str_of_string "whatsapp"
           (Whatsapp.JStr "meta") None [change_statuses] [change_hello] ∅
           (Whatsapp.merged_metadata [change_statuses] ∅) "bot" (Whatsapp.init _)).
  reflexivity.
Defined.

(** The message of the second change is delivered with the phone number id
    that only the first change carried. *)
Example second_change_sees_first_metadata :
  match Whatsapp.handle_changes _ client_of str_of_string "whatsapp"
          (Whatsapp.JStr "meta") None [change_statuses; change_hello] ∅ "bot"
          (Whatsapp.init _) no_world with
  | (_, _, w) =>
      map (fun h => Whatsapp.um_metadata (snd h) !! "phone_number_id") (Whatsapp.handled w)
      = [Some (Whatsapp.JStr "1055")]
  end.
Proof. reflexivity. Qed.

(** ** The WhatsApp channel: [WhatsappHandler.handle_message] *)

Section Handler.
Import Whatsapp.

Variable validate_hub_signature : json -> json -> string -> bool.
Variable WHATSAPP : string.
Variable get_metadata : Request -> option dict.

Lemma handler_metadata_entries (provider account : json) (bot : string) (md : dict) :
  let metadata :=
    ({[ "channel_type" := JStr WHATSAPP; "bsp_type" := provider;
        "tabname" := JStr "default" ]} : dict)
    ∪ (({[ "is_integration_user" := JBool true; "bot" := JStr bot;
           "account" := account ]} : dict) ∪ md) in
  metadata !! "is_integration_user" = Some (JBool true)
  /\ metadata !! "bot" = Some (JStr bot)
  /\ metadata !! "account" = Some account
  /\ metadata !! "channel_type" = Some (JStr WHATSAPP)
  /\ metadata !! "bsp_type" = Some provider
  /\ metadata !! "tabname" = Some (JStr "default")
  /\ (forall k, ~ In k handler_keys -> metadata !! k = md !! k).
Proof.
  intros metadata. unfold metadata.
  repeat split.
  1-3: rewrite lookup_union_r by (by simplify_map_eq);
       apply lookup_union_Some_l; by simplify_map_eq.
  1-3: apply lookup_union_Some_l; by simplify_map_eq.
  intros k Hk. unfold handler_keys in Hk. simpl in Hk.
  rewrite lookup_union_r.
  - rewrite lookup_union_r; [reflexivity|].
    rewrite !lookup_insert_ne by (intros <-; tauto).
    apply lookup_singleton_ne. intros <-. tauto.
  - rewrite !lookup_insert_ne by (intros <-; tauto).
    apply lookup_singleton_ne. intros <-. tauto.
Qed.

(** X22. Whatever the request, its metadata and the stored configuration
    of the channel: a call of [handle_message] that raises or answers
    "not validated" schedules nothing; a call that answers "success" has
    scheduled one callback for the body of the request and for the bot of
    the handler, and in the metadata of that callback the entries
    [is_integration_user], [bot], [account], [channel_type] and [tabname]
    are the handler's, whatever the metadata of the request had under these
    names; every other entry except [bsp_type] is the request's. *)
Theorem handle_message_metadata (channel_conf : json) (bot : string) (account : json)
    (request : Request) (w : World) :
  match handle_message validate_hub_signature WHATSAPP get_metadata
          channel_conf bot account request w with
  | (Raise _, w') => w' = w
  | (Ok msg, w') =>
      (msg = "not validated" /\ w' = w)
      \/ (msg = "success"
          /\ exists metadata,
               w' = mkWorld (marked_as_read w) (handled w)
                      (spawned w ++ [mkCallback (request_json request) metadata bot])
               /\ metadata !! "is_integration_user" = Some (JBool true)
               /\ metadata !! "bot" = Some (JStr bot)
               /\ metadata !! "account" = Some account
               /\ metadata !! "channel_type" = Some (JStr WHATSAPP)
               /\ metadata !! "tabname" = Some (JStr "default")
               /\ (forall k, ~ In k handler_keys ->
                     metadata !! k = default ∅ (get_metadata request) !! k))
  end.
Proof.
  unfold handle_message.
  destruct (getitem channel_conf "config") as [cfg|e]; [|reflexivity].
  destruct cfg as [| | | | |config]; try reflexivity.
  unfold handle_payload.
  set (provider := default (JStr "meta") (config !! "bsp_type")).
  destruct (handler_metadata_entries provider account bot
              (default ∅ (get_metadata request)))
    as (H1 & H2 & H3 & H4 & _ & H6 & H7).
  assert (Hsuccess :
    forall md, md = ({[ "channel_type" := JStr WHATSAPP; "bsp_type" := provider;
                        "tabname" := JStr "default" ]} : dict)
                    ∪ (({[ "is_integration_user" := JBool true; "bot" := JStr bot;
                           "account" := account ]} : dict)
                       ∪ default ∅ (get_metadata request)) ->
    match (spawn_callback (request_json request) md bot ;; mret "success") w with
    | (Raise _, w') => w' = w
    | (Ok msg, w') =>
        (msg = "not validated" /\ w' = w)
        \/ (msg = "success"
            /\ exists metadata,
                 w' = mkWorld (marked_as_read w) (handled w)
                        (spawned w ++ [mkCallback (request_json request) metadata bot])
                 /\ metadata !! "is_integration_user" = Some (JBool true)
                 /\ metadata !! "bot" = Some (JStr bot)
                 /\ metadata !! "account" = Some account
                 /\ metadata !! "channel_type" = Some (JStr WHATSAPP)
                 /\ metadata !! "tabname" = Some (JStr "default")
                 /\ (forall k, ~ In k handler_keys ->
                       metadata !! k = default ∅ (get_metadata request) !! k))
    end).
  { intros md ->. right. split; [reflexivity|]. eexists. split; [reflexivity|].
    repeat split; assumption. }
  destruct (match provider with JStr p => String.eqb p "meta" | _ => false end).
  - destruct (config !! "app_secret") as [secret|]; [|reflexivity].
    destruct (negb _).
    + left. split; reflexivity.
    + apply Hsuccess. reflexivity.
  - apply Hsuccess. reflexivity.
Qed.

End Handler.

(** ** The WhatsApp channel: the output channel *)

Section OutputChannel.
Import Whatsapp.

Variable str_ : json -> string.
Variable type_list : list string.
Variable messageConverter : string -> option json -> result json.

Abbreviation send_custom_json := (Whatsapp.send_custom_json str_ type_list messageConverter).

(** X23. Whatever the reply: a call of [send_custom_json] that returns
    has made one call of the client's [send], for the recipient it was
    given, and a call that raises has made none. *)
Theorem send_custom_json_sends_once (recipient_id json_message : json) (sent : list Sent) :
  match send_custom_json recipient_id json_message sent with
  | (Raise _, sent') => sent' = sent
  | (Ok _, sent') =>
      exists element messaging_type,
        sent' = sent ++ [mkSent element recipient_id messaging_type]
  end.
Proof.
  unfold Whatsapp.send_custom_json.
  destruct json_message as [| | | | |d]; try reflexivity.
  destruct (d !! "type") as [[| | |t| |]|]; try (simpl; eauto).
  destruct (existsb _ _); [|simpl; eauto].
  destruct (messageConverter t (d !! "data")); simpl; eauto.
Qed.

(** X24. A reply whose [type] is not one of the listed type names, among
    them a reply without a type or with a type that is not a string, goes
    out as one text message whose body is [str()] of the whole reply, with
    the link preview switched on; no converter is asked. *)
Theorem send_custom_json_plain (recipient_id : json) (d : dict) (sent : list Sent) :
  (forall t, d !! "type" = Some (JStr t) -> ~ In t type_list) ->
  send_custom_json recipient_id (JObj d) sent
  = (Ok tt,
     sent ++ [mkSent (JObj {[ "preview_url" := JBool true;
                              "body" := JStr (str_ (JObj d)) ]})
                recipient_id (Some "text")]).
Proof.
  intros Hno. unfold Whatsapp.send_custom_json.
  destruct (d !! "type") as [[| | |t| |]|]; try reflexivity.
  destruct (existsb (String.eqb t) type_list) eqn:Hex; [|reflexivity].
  exfalso. apply (Hno t eq_refl). apply existsb_exists in Hex.
  destruct Hex as (x & Hin & Heq). apply String.eqb_eq in Heq. subst x. exact Hin.
Qed.

(** A reply whose [type] is a listed type name is converted, and the
    converted reply is sent under the category of the table: [text] for a
    link or a video, [image] for an image, [interactive] for a button or a
    dropdown, and no category for a listed type outside the table; when the
    converter raises, nothing is sent. *)
Theorem send_custom_json_converted (recipient_id : json) (d : dict) (t : string)
    (sent : list Sent) :
  d !! "type" = Some (JStr t) ->
  In t type_list ->
  send_custom_json recipient_id (JObj d) sent
  = match messageConverter t (d !! "data") with
    | Raise e => (Raise e, sent)
    | Ok response =>
        (Ok tt,
         sent ++ [mkSent response recipient_id
                    (if existsb (String.eqb t) ["link"; "video"] then Some "text"
                     else if String.eqb t "image" then Some "image"
                     else if existsb (String.eqb t) ["button"; "dropdown"]
                          then Some "interactive"
                     else None)])
    end.
Proof.
  intros Hty Hin. unfold Whatsapp.send_custom_json. rewrite Hty.
  assert (Hex : existsb (String.eqb t) type_list = true).
  { apply existsb_exists. exists t. split; [exact Hin|apply String.eqb_refl]. }
  rewrite Hex. destruct (messageConverter t (d !! "data")) as [response|e]; [|reflexivity].
  unfold client_send, content_type_get, content_type.
  cbn [List.find fst snd existsb]. rewrite !(String.eqb_sym _ t).
  destruct (String.eqb t "link"); [reflexivity|].
  destruct (String.eqb t "video"); [reflexivity|].
  destruct (String.eqb t "image"); [reflexivity|].
  destruct (String.eqb t "button"); [reflexivity|].
  destruct (String.eqb t "dropdown"); reflexivity.
Qed.

End OutputChannel.

Lemma send_custom_json_plain_witness :
  Whatsapp.send_custom_json str_of_string ["image"; "link"] convert_data
    (Whatsapp.JStr "919876543210") custom_reply []
  = (Ok tt,
     [Whatsapp.mkSent
        (Whatsapp.JObj {[ "preview_url" := Whatsapp.JBool true;
                          "body" := Whatsapp.JStr (str_of_string custom_reply) ]})
        (Whatsapp.JStr "919876543210") (Some "text")]).
Proof.
  apply (send_custom_json_plain str_of_string ["image"; "link"] convert_data
           (Whatsapp.JStr "919876543210") {[ "text" := Whatsapp.JStr "hi" ]} []).
  intros t Ht. discriminate Ht.
Defined.

Lemma send_custom_json_converted_witness :
  Whatsapp.send_custom_json str_of_string ["image"; "link"] convert_data
    (Whatsapp.JStr "919876543210")
    (Whatsapp.JObj {[ "type" := Whatsapp.JStr "image";
                      "data" := Whatsapp.JStr "https://example.org/a.png" ]}) []
  = (Ok tt,
     [Whatsapp.mkSent (Whatsapp.JStr "https://example.org/a.png")
        (Whatsapp.JStr "919876543210") (Some "image")]).
Proof.
  eapply eq_trans.
  - apply (send_custom_json_converted str_of_string ["image"; "link"] convert_data
             (Whatsapp.JStr "919876543210")
             {[ "type" := Whatsapp.JStr "image";
                "data" := Whatsapp.JStr "https://example.org/a.png" ]} "image" []).
    + reflexivity.
    + simpl. auto.
  - reflexivity.
Defined.

(** ** Session configuration: saving, then loading *)

Section SessionConfigurationRoundTrip.
Import Mongo Processor.

Lemma filter_by_bot_none {F} (b : string) (docs : list (Document F)) :
  (forall d, d ∈ docs -> bot d <> b) -> List.filter (by_bot b) docs = [].
Proof.
  induction docs as [|d l IH]; intros Habs; [reflexivity|]. simpl.
  assert (Hd : by_bot b d = false) by (apply String.eqb_neq, Habs; constructor).
  rewrite Hd. apply IH. intros d' Hd'. apply Habs. constructor. exact Hd'.
Qed.

(** X16. For a bot without a stored session configuration,
    [__save_session_config] returns, [__prepare_training_session_config]
    then gives back the configuration that was saved, and what it gives for
    any other bot is what it gave before the save. *)
Theorem session_config_round_trip (db : DB) (c : SessionConfig) (b u : string) :
  (forall d, d ∈ SessionConfigs_docs db -> bot d <> b) ->
  exists db',
    save_session_config (Some c) b u db = (Ok tt, db')
    /\ prepare_training_session_config b db' = (Ok c, db')
    /\ (forall b', b' <> b ->
          fst (prepare_training_session_config b' db')
          = fst (prepare_training_session_config b' db)).
Proof.
  intros Habs. eexists. split; [reflexivity|]. split.
  - unfold prepare_training_session_config, fetch_session_config, try_except,
      mbind, M_bind, get. simpl.
    rewrite List.filter_app, (filter_by_bot_none b _ Habs). simpl.
    unfold by_bot. simpl. rewrite String.eqb_refl. destruct c; reflexivity.
  - intros b' Hne.
    unfold prepare_training_session_config, fetch_session_config, try_except,
      mbind, M_bind, get. simpl.
    rewrite List.filter_app. simpl. unfold by_bot at 2. simpl.
    apply not_eq_sym, String.eqb_neq in Hne. rewrite Hne, app_nil_r.
    destruct (List.filter (by_bot b') (SessionConfigs_docs db)) as [|d [|d' l]];
      reflexivity.
Qed.

End SessionConfigurationRoundTrip.

Lemma session_config_round_trip_witness :
  exists db',
    Processor.save_session_config (Some (Processor.mkSessionConfig 30 false)) "bot" "user"
      db_session_other_bot = (Ok tt, db')
    /\ Processor.prepare_training_session_config "bot" db'
       = (Ok (Processor.mkSessionConfig 30 false), db')
    /\ (forall b', b' <> "bot" ->
          fst (Processor.prepare_training_session_config b' db')
          = fst (Processor.prepare_training_session_config b' db_session_other_bot)).
Proof.
  apply (session_config_round_trip db_session_other_bot
           (Processor.mkSessionConfig 30 false) "bot" "user").
  intros d Hd. apply list_elem_of_singleton in Hd. subst d. discriminate.
Defined.
